(** * Kanso backend: résumé segmenter, LLM retry wrapper, interview session
      and the record-store operations around résumé generation and job-match
      notifications.

    A shallow embedding of [backend/main.py].  Python [str] values are lists
    of Unicode code points; dictionaries are [gmap]s; tables of the record
    store are lists of rows in insertion order; calls to the external LLM
    service, the clock and the socket are threaded through explicit state.

    Part I holds the model, Part II the lemmas and the theorems. *)

From Stdlib Require Import NArith ZArith Ascii String List Bool Lia.
From stdpp Require Import base option list gmap strings fin_maps.

Set Default Proof Using "Type".
Local Open Scope N_scope.

(* ===================================================================== *)
(** * Part I.  The model                                                  *)
(* ===================================================================== *)

(** ** Python strings *)

Module PyStr.

(** A [str] is a sequence of code points. *)
Abbreviation pystr := (list N).

(** ASCII literals of the source are written [py "..."]. *)
Definition py (s : string) : pystr :=
  (fun a => N_of_ascii a) <$> list_ascii_of_string s.

Definition LF : N := 10.

(** [str.isspace] on one code point, the table of CPython's
    [_PyUnicode_IsWhitespace]; the regular-expression class [\s] on [str]
    patterns is the same set. *)
Definition is_space (c : N) : bool :=
  ((9 <=? c) && (c <=? 13)) || ((28 <=? c) && (c <=? 32))
  || (c =? 133) || (c =? 160) || (c =? 5760)
  || ((8192 <=? c) && (c <=? 8202))
  || (c =? 8232) || (c =? 8233) || (c =? 8239) || (c =? 8287) || (c =? 12288).

Fixpoint lstrip (s : pystr) : pystr :=
  match s with
  | c :: s' => if is_space c then lstrip s' else s
  | [] => []
  end.

Definition rstrip (s : pystr) : pystr := rev (lstrip (rev s)).

(** [s.strip()] *)
Definition strip (s : pystr) : pystr := rstrip (lstrip s).

(** Truthiness of a [str]: non-empty. *)
Definition truthy (s : pystr) : bool :=
  match s with [] => false | _ => true end.

(** [s.split(sep)] for a separator of one character; never returns the
    empty list (the empty string splits into one empty piece). *)
Fixpoint split (sep : N) (s : pystr) : list pystr :=
  match s with
  | [] => [[]]
  | c :: s' =>
      if c =? sep then [] :: split sep s'
      else match split sep s' with
           | l :: ls => (c :: l) :: ls
           | [] => [[c]]
           end
  end.

(** [pieces] with [c] appended to its last piece: what [split] returns
    when the subject grows by a character that is no separator. *)
Fixpoint snoc_last (c : N) (pieces : list pystr) : list pystr :=
  match pieces with
  | [] => [[c]]
  | [l] => [l ++ [c]]
  | l :: ls' => l :: snoc_last c ls'
  end.

(** [sep.join(pieces)] *)
Fixpoint join (sep : pystr) (pieces : list pystr) : pystr :=
  match pieces with
  | [] => []
  | [p] => p
  | p :: ps => p ++ sep ++ join sep ps
  end.

Fixpoint eqb (s t : pystr) : bool :=
  match s, t with
  | [], [] => true
  | a :: s', b :: t' => (a =? b) && eqb s' t'
  | _, _ => false
  end.

(** [s.startswith(p)] *)
Fixpoint startswith (p s : pystr) : bool :=
  match p, s with
  | [], _ => true
  | a :: p', b :: s' => (a =? b) && startswith p' s'
  | _ :: _, [] => false
  end.

(** [s.endswith(p)] *)
Definition endswith (p s : pystr) : bool := startswith (rev p) (rev s).

(** [needle in hay] *)
Fixpoint contains (needle hay : pystr) : bool :=
  startswith needle hay
  || match hay with
     | [] => false
     | _ :: hay' => contains needle hay'
     end.

(** [s.replace(old, new)]: every non-overlapping occurrence, left to
    right.  [skip] counts the characters of an occurrence still to drop. *)
Fixpoint replace_from (old new : pystr) (skip : nat) (s : pystr) : pystr :=
  match s with
  | [] => []
  | c :: s' =>
      match skip with
      | S k => replace_from old new k s'
      | O => if startswith old s
             then new ++ replace_from old new (pred (length old)) s'
             else c :: replace_from old new O s'
      end
  end.

Definition replace (old new s : pystr) : pystr :=
  match old with
  | [] => new ++ flat_map (fun c => c :: new) s
  | _ => replace_from old new O s
  end.

(** [s[:n]] *)
Definition slice_to (n : nat) (s : pystr) : pystr := take n s.

(** [s[n:]] *)
Definition slice_from (n : nat) (s : pystr) : pystr := drop n s.

(** [s[:-n]] *)
Definition slice_drop_last (n : nat) (s : pystr) : pystr :=
  take (length s - n)%nat s.

(** [s.split(sep, 1)]: at most one split, at the first separator. *)
Fixpoint split_once (sep : N) (s : pystr) : list pystr :=
  match s with
  | [] => [[]]
  | c :: s' =>
      if c =? sep then [[]; s']
      else match split_once sep s' with
           | l :: ls => (c :: l) :: ls
           | [] => [[c]]
           end
  end.

(** The part of [str.lower] that the interpreter takes from the Unicode
    database: the lowercase mapping of the code point [c >= 128] found at
    position [i] of [s] (the position matters for the final sigma). *)
Class UnicodeData := { lower_ucs4 : pystr -> nat -> N -> pystr }.

Definition ascii_lower (c : N) : N :=
  if (65 <=? c) && (c <=? 90) then c + 32 else c.

Fixpoint lower_from `{UnicodeData} (whole : pystr) (i : nat) (s : pystr) : pystr :=
  match s with
  | [] => []
  | c :: s' =>
      (if c <? 128 then [ascii_lower c] else lower_ucs4 whole i c)
      ++ lower_from whole (S i) s'
  end.

(** [s.lower()] *)
Definition lower `{UnicodeData} (s : pystr) : pystr := lower_from s O s.

End PyStr.
Import PyStr.

(** ** Exceptions and fallible steps *)

Inductive pyexn :=
| IndexError
| KeyError (k : string)
| AttributeError.

Inductive res (A : Type) :=
| Ok (a : A)
| Raise (e : pyexn).
Arguments Ok {A} a.
Arguments Raise {A} e.

Definition res_bind {A B} (m : res A) (k : A -> res B) : res B :=
  match m with
  | Ok a => k a
  | Raise e => Raise e
  end.

Declare Scope res_scope.
Delimit Scope res_scope with res.
Notation "'do' x <- m ; k" := (res_bind m (fun x => k))
  (at level 10, x name, m at level 100, k at level 200) : res_scope.

(** [l[i]] on a list *)
Definition list_getitem {A} (l : list A) (i : nat) : res A :=
  match l !! i with
  | Some x => Ok x
  | None => Raise IndexError
  end.

(** [d[k]] on a dictionary *)
Definition dict_getitem {A} (d : gmap string A) (k : string) : res A :=
  match d !! k with
  | Some x => Ok x
  | None => Raise (KeyError k)
  end.

(** [k in d] *)
Definition dict_contains {A} (d : gmap string A) (k : string) : bool :=
  bool_decide (is_Some (d !! k)).

(** [d.setdefault(k, v)]: the dictionary afterwards and the value returned. *)
Definition setdefault {A} (d : gmap string A) (k : string) (v : A)
  : gmap string A * A :=
  match d !! k with
  | Some x => (d, x)
  | None => (<[k := v]> d, v)
  end.

(** ** The regular expressions of the source *)

Module Re.

(** The fragment of Python's [re] syntax that the source uses.  Literal
    characters are compiled under the inline flag [(?i)]. *)
Inductive regex :=
| Eps
| Chr (c : N)                 (* a literal, matched ignoring case *)
| Star (p : N -> bool)        (* [p*] for a character class, greedy *)
| Opt (r : regex)             (* [r?] *)
| Cat (r1 r2 : regex)
| Alt (r1 r2 : regex).        (* [r1|r2] *)

(** Which subject characters a literal ASCII pattern character accepts
    under [re.IGNORECASE] on [str]: the character in either case and, for
    [i], [k] and [s], the code points U+0130, U+0131, U+212A and U+017F
    that the engine folds onto them. *)
Definition ci_match (c x : N) : bool :=
  let lo := ascii_lower c in
  ((x <? 128) && (ascii_lower x =? lo))
  || ((lo =? 105) && ((x =? 304) || (x =? 305)))
  || ((lo =? 107) && (x =? 8490))
  || ((lo =? 115) && (x =? 383)).

(** Remainders left by the longest-first runs of a character class. *)
Fixpoint star_run (p : N -> bool) (s : pystr) : list pystr :=
  match s with
  | x :: s' => if p x then star_run p s' ++ [s] else [s]
  | [] => [[]]
  end.

(** All ways [r] matches a prefix of [s], each given by the remainder, in
    the order the backtracking engine tries them. *)
Fixpoint run (r : regex) (s : pystr) : list pystr :=
  match r with
  | Eps => [s]
  | Chr c => match s with
             | x :: s' => if ci_match c x then [s'] else []
             | [] => []
             end
  | Star p => star_run p s
  | Opt r1 => run r1 s ++ [s]
  | Cat r1 r2 => flat_map (run r2) (run r1 s)
  | Alt r1 r2 => run r1 s ++ run r2 s
  end.

(** Truth value of [re.match(r, s)]: a match object or [None]. *)
Definition re_match (r : regex) (s : pystr) : bool :=
  match run r s with
  | [] => false
  | _ :: _ => true
  end.

(** A run of literal characters. *)
Definition word (w : string) : regex := foldr (fun c r => Cat (Chr c) r) Eps (py w).

(** [\s*] *)
Definition ws : regex := Star is_space.

(** [r|r1|...|rn] *)
Fixpoint alts (r : regex) (rs : list regex) : regex :=
  match rs with
  | [] => r
  | r' :: rs' => Alt r (alts r' rs')
  end.

(** [re.split(r"[...]+", s)] for a character class [cls]: the pieces of
    [s] between the maximal runs of class characters.  [cur] is the piece
    being read, [in_run] tells that the previous character was in the
    class. *)
Fixpoint split_runs (cls : N -> bool) (in_run : bool) (cur : pystr) (s : pystr)
  : list pystr :=
  match s with
  | [] => [cur]
  | c :: s' =>
      if cls c then
        if in_run then split_runs cls true cur s'
        else cur :: split_runs cls true [] s'
      else split_runs cls false (cur ++ [c]) s'
  end.

Definition re_split_class_plus (cls : N -> bool) (s : pystr) : list pystr :=
  split_runs cls false [] s.

End Re.
Import Re.

(** ** The résumé text segmenter: [_parse_resume_text] *)

Module Resume.

(** Values held by the result dictionary. *)
Inductive pyval :=
| PStr (s : pystr)
| PList (l : list pystr).

(** [(?i)^(summary|about|profile|objective|professional\s*summary)] and
    its three siblings; [re.match] anchors at the start of the subject, as
    [^] does. *)
Definition summary_pat : regex :=
  alts (word "summary")
    [word "about"; word "profile"; word "objective";
     Cat (word "professional") (Cat ws (word "summary"))].

Definition experience_pat : regex :=
  alts (word "experience")
    [Cat (word "work") (Cat ws (word "history")); word "employment";
     Cat (word "professional") (Cat ws (word "experience"))].

Definition education_pat : regex :=
  alts (word "education")
    [word "academic"; word "degrees";
     Cat (word "certification") (Opt (word "s"));
     Cat (word "qualification") (Opt (word "s"))].

Definition skills_pat : regex :=
  alts (word "skills")
    [word "technologies"; Cat (word "technical") (Cat ws (word "skills"));
     word "competencies"; word "expertise"; word "tools"].

(** The dictionary [section_patterns], in insertion order. *)
Definition section_patterns : list (string * regex) :=
  [("summary", summary_pat); ("experience", experience_pat);
   ("education", education_pat); ("skills", skills_pat)]%string.

(** The inner [for sec, pat in section_patterns.items()] loop with its
    [break]: the first section whose pattern matches the stripped line,
    provided the line has fewer than 60 characters. *)
Fixpoint match_heading (pats : list (string * regex)) (s : pystr) : option string :=
  match pats with
  | [] => None
  | (sec, pat) :: pats' =>
      if re_match pat s && (length s <? 60)%nat then Some sec
      else match_heading pats' s
  end.

(** One round of [for line in lines] on the pair [(sections, current)].
    No section name is empty, so [if matched] tests for [None]. *)
Definition step (st : gmap string (list pystr) * string) (line : pystr)
  : gmap string (list pystr) * string :=
  let '(sections, current) := st in
  let s := strip line in
  match match_heading section_patterns s with
  | Some sec => ((setdefault sections sec []).1, sec)
  | None =>
      let '(sections', l) := setdefault sections current [] in
      (<[current := l ++ [s]]> sections', current)
  end.

(** [[l.strip() for l in lines if l.strip()]] *)
Definition non_empty_of (lines : list pystr) : list pystr :=
  strip <$> List.filter (fun l => truthy (strip l)) lines.

(** The loop over all lines, from [{"header": []}] and cursor ["header"]. *)
Definition walk (lines : list pystr) : gmap string (list pystr) * string :=
  foldl step ({["header"%string := []]}, "header"%string) lines.

(** [for key in sections: sections[key] = "\n".join(sections[key]).strip()] *)
Definition section_texts (sections : gmap string (list pystr)) : gmap string pystr :=
  (fun ls => strip (join [LF] ls)) <$> sections.

(** [key in sections and sections[key]] *)
Definition has_text (sections : gmap string pystr) (key : string) : res bool :=
  if dict_contains sections key
  then (do t <- dict_getitem sections key; Ok (truthy t))%res
  else Ok false.

(** [if key in sections and sections[key]: result[field] = sections[key]] *)
Definition copy_section (sections : gmap string pystr) (key field : string)
    (result : gmap string pyval) : res (gmap string pyval) :=
  (do b <- has_text sections key;
   if b then (do t <- dict_getitem sections key; Ok (<[field := PStr t]> result))
   else Ok result)%res.

(** The class [[,•·|;\n]] *)
Definition is_skill_delim (c : N) : bool :=
  (c =? 44) || (c =? 8226) || (c =? 183) || (c =? 124) || (c =? 59) || (c =? 10).

(** [[s.strip() for s in raw_skills if s.strip() and len(s.strip()) < 50]] *)
Definition keep_skills (raw_skills : list pystr) : list pystr :=
  strip <$> List.filter
    (fun s => truthy (strip s) && (length (strip s) <? 50)%nat) raw_skills.

Definition split_skills (text : pystr) : list pystr :=
  keep_skills (re_split_class_plus is_skill_delim text).

Definition empty_result : gmap string pyval :=
  list_to_map
    [("headline", PStr []); ("bio", PStr []); ("skills", PList []);
     ("experience", PStr []); ("education", PStr [])]%string.

Definition _parse_resume_text (raw : pystr) : res (gmap string pyval) :=
  (let result := empty_result in
   let lines := split LF (strip raw) in
   let non_empty := non_empty_of lines in
   do result <-
     (if (2 <=? length non_empty)%nat
      then (do h <- list_getitem non_empty 1; Ok (<["headline"%string := PStr h]> result))
      else Ok result);
   let sections := section_texts (walk lines).1 in
   do result <- copy_section sections "summary" "bio" result;
   do result <- copy_section sections "experience" "experience" result;
   do result <- copy_section sections "education" "education" result;
   do b <- has_text sections "skills";
   do result <-
     (if b
      then (do t <- dict_getitem sections "skills";
            Ok (<["skills"%string := PList (split_skills t)]> result))
      else Ok result);
   Ok result)%res.

(** The five fields of a result, read back. *)
Definition mk_result (headline bio : pystr) (skills : list pystr)
    (experience education : pystr) : gmap string pyval :=
  list_to_map
    [("headline", PStr headline); ("bio", PStr bio); ("skills", PList skills);
     ("experience", PStr experience); ("education", PStr education)]%string.

End Resume.

(** ** The external LLM service *)

(** What one [await llm.ainvoke(...)] does: it returns a response or raises
    an [Exception], of which the callers only read [str(e)]. *)
Inductive outcome (R : Type) :=
| Returns (r : R)
| Raises (msg : pystr).
Arguments Returns {R} r.
Arguments Raises {R} msg.

(** The client object.  The service is outside the program, so a call takes
    the service's state and yields the next one: successive calls, even on
    equal prompts, may answer differently. *)
Class LLMClient (Prompt Response : Type) := {
  llm_state : Type;
  ainvoke : llm_state -> Prompt -> llm_state * outcome Response
}.

(** ** The retry wrapper: [_invoke_with_retry] *)

Module Retry.

(** What the wrapper does to the outside, in order. *)
Inductive event :=
| EvInvoke                              (* [await llm.ainvoke(...)] *)
| EvWarn (attempt retries wait : N)     (* [logger.warning(...)] and its arguments *)
| EvSleep (secs : N)                    (* [await asyncio.sleep(wait)] *)
| EvError (line : pystr).               (* [logger.error(...)] of a caller *)

Section Wrapper.
Context `{UnicodeData} {Prompt Response : Type} `{LLMClient Prompt Response}.

Record world := { service : llm_state; trace : list event }.

Definition emit (e : event) (w : world) : world :=
  {| service := service w; trace := trace w ++ [e] |}.

Definition invoke (w : world) (prompt : Prompt) : world * outcome Response :=
  let '(s', o) := ainvoke (service w) prompt in
  ({| service := s'; trace := trace w ++ [EvInvoke] |}, o).

(** [err_str = str(e).lower()] and the test on it. *)
Definition is_rate_limit (msg : pystr) : bool :=
  let err_str := lower msg in
  contains (py "429") err_str
  || contains (py "resource exhausted") err_str
  || contains (py "rate") err_str.

(** [for attempt in range(retries)] from [attempt] on, with [rounds]
    rounds left, followed by the call after the loop. *)
Fixpoint retry_loop (prompt : Prompt) (retries : nat) (attempt rounds : nat)
    (w : world) : world * outcome Response :=
  match rounds with
  | O => invoke w prompt
  | S rounds' =>
      match invoke w prompt with
      | (w', Returns r) => (w', Returns r)
      | (w', Raises msg) =>
          if is_rate_limit msg then
            let wait := 2 ^ N.of_nat attempt in
            let w' := emit (EvWarn (N.of_nat attempt + 1) (N.of_nat retries) wait) w' in
            let w' := emit (EvSleep wait) w' in
            retry_loop prompt retries (S attempt) rounds' w'
          else (w', Raises msg)
      end
  end.

Definition _invoke_with_retry_n (prompt : Prompt) (retries : nat) (w : world)
  : world * outcome Response :=
  retry_loop prompt retries 0 retries w.

(** The default [retries=3], which every caller leaves in place. *)
Definition _invoke_with_retry (prompt : Prompt) (w : world)
  : world * outcome Response :=
  _invoke_with_retry_n prompt 3 w.

Definition initial (s : llm_state) : world := {| service := s; trace := [] |}.

End Wrapper.

(** Readings of a trace. *)
Definition calls (t : list event) : nat :=
  length (List.filter (fun e => match e with EvInvoke => true | _ => false end) t).

Definition sleeps (t : list event) : list N :=
  omap (fun e => match e with EvSleep n => Some n | _ => None end) t.

End Retry.

(** ** The live interview session: [interview_websocket] *)

Module Interview.

(** Role-tagged turns of [langchain_core.messages]. *)
Inductive message :=
| SystemMessage (content : pystr)
| HumanMessage (content : pystr)
| AIMessage (content : pystr).

(** Frames sent to the browser by [websocket.send_json]. *)
Inductive out_event :=
| OutConnected                                     (* [{"type": "connected"}] *)
| OutAiResponse (text : pystr) (turn_complete : bool)
| OutInterviewEnd (message : pystr)
| OutError (message : pystr).

(** A JSON value as far as the handler looks at it: a string, or anything
    else. *)
Inductive jval :=
| JStr (s : pystr)
| JOther.

(** A received JSON object, by the two keys the handler reads. *)
Record frame := { f_type : option jval; f_transcript : option jval }.

(** What [await websocket.receive_json()] yields: an object, or a text
    that is no JSON object (the call or the following [msg.get] raises).
    The end of the inbound list stands for [WebSocketDisconnect]. *)
Inductive inbound :=
| Frame (f : frame)
| NotAnObject.

(** The initial payload; its fields, where present, are strings. *)
Record init_data := {
  init_job_title : option pystr;
  init_company : option pystr;
  init_description : option pystr
}.

Definition greeting_prompt : pystr :=
  py "Start the interview with a warm greeting. Do not introduce yourself with a name, just say hello and welcome the candidate, then ask the first interview question.".

Definition closing_prompt : pystr :=
  py "The interview is now complete. Please thank the candidate, give brief overall feedback on their performance, and say goodbye.".

Definition guidelines : pystr :=
  py "Guidelines:" ++ [LF]
  ++ py "- Greet the candidate warmly (do NOT introduce yourself with a name)" ++ [LF]
  ++ py "- Ask behavioral and technical questions relevant to the role" ++ [LF]
  ++ py "- Give brief, encouraging feedback on answers" ++ [LF]
  ++ py "- Keep your responses concise (under 30 seconds of speech)" ++ [LF]
  ++ py "- Be professional but friendly" ++ [LF]
  ++ py "- After 4-5 questions, wrap up with closing remarks and feedback".

(** Step 3 of the handler: the system instruction, from the personality
    found in the record store (its [style]) or the generic persona. *)
Definition build_sys_instr (personality : option pystr)
    (job_title company description : pystr) : pystr :=
  match personality with
  | Some style =>
      style ++ [LF; LF]
      ++ py "You are conducting a live practice interview with a candidate "
      ++ py "for the '" ++ job_title ++ py "' role at " ++ company ++ py "." ++ [LF]
      ++ py "Job description:" ++ [LF] ++ description ++ [LF; LF]
  | None =>
      py "You are a professional HR interviewer at " ++ company ++ py ". "
      ++ py "You are conducting a live practice interview for the '" ++ job_title
      ++ py "' role." ++ [LF]
      ++ py "Job description:" ++ [LF] ++ description ++ [LF; LF]
  end ++ guidelines.

Section Session.
Context `{LLMClient (list message) pystr}.

(** The connection's state: the two closure variables of the handler,
    what has been sent, what has been logged, and the service with the
    prompts it has been called on. *)
Record session := {
  conversation_history : list message;
  question_count : Z;
  sent : list out_event;
  logged : list pystr;
  invocations : list (list message);
  service : llm_state
}.

Definition append (m : message) (st : session) : session :=
  {| conversation_history := conversation_history st ++ [m];
     question_count := question_count st; sent := sent st;
     logged := logged st; invocations := invocations st;
     service := service st |}.

Definition count_up (st : session) : session :=
  {| conversation_history := conversation_history st;
     question_count := (question_count st + 1)%Z; sent := sent st;
     logged := logged st; invocations := invocations st;
     service := service st |}.

Definition send_json (e : out_event) (st : session) : session :=
  {| conversation_history := conversation_history st;
     question_count := question_count st; sent := sent st ++ [e];
     logged := logged st; invocations := invocations st;
     service := service st |}.

Definition log_error (line : pystr) (st : session) : session :=
  {| conversation_history := conversation_history st;
     question_count := question_count st; sent := sent st;
     logged := logged st ++ [line]; invocations := invocations st;
     service := service st |}.

(** [await llm.ainvoke(conversation_history)] *)
Definition invoke (st : session) : session * outcome pystr :=
  let '(s', o) := ainvoke (service st) (conversation_history st) in
  ({| conversation_history := conversation_history st;
      question_count := question_count st; sent := sent st;
      logged := logged st;
      invocations := invocations st ++ [conversation_history st];
      service := s' |}, o).

(** The [except Exception] of the reply block. *)
Definition reply_failed (msg : pystr) (st : session) : session :=
  send_json (OutError (py "Failed to get response from AI interviewer."))
    (log_error (py "Gemini error: " ++ msg) st).

(** The [try] block run for a non-empty transcript, after the user turn
    has been appended. *)
Definition reply (st : session) : session :=
  match invoke st with
  | (st, Raises msg) => reply_failed msg st
  | (st, Returns content) =>
      let ai_response := strip content in
      let st := count_up st in
      let st := append (AIMessage ai_response) st in
      let st := send_json (OutAiResponse ai_response true) st in
      if (5 <=? question_count st)%Z then
        let st := append (HumanMessage closing_prompt) st in
        match invoke st with
        | (st, Raises msg) => reply_failed msg st
        | (st, Returns closing) =>
            let closing_text := strip closing in
            let st := send_json (OutAiResponse closing_text true) st in
            send_json (OutInterviewEnd (py "Interview complete.")) st
        end
      else st
  end.

(** The body of [while True] for one received object.  [Raise] is an
    exception that leaves the loop. *)
Definition on_frame (f : frame) (st : session) : res session :=
  match f_type f with
  | Some (JStr t) =>
      if eqb t (py "user_transcript") then
        (do user_text <-
           match f_transcript f with
           | None => Ok (strip [])
           | Some (JStr s) => Ok (strip s)
           | Some JOther => Raise AttributeError
           end;
         if truthy user_text
         then Ok (reply (append (HumanMessage user_text) st))
         else Ok st)%res
      else Ok st
  | _ => Ok st
  end.

(** [handle_user_message]: the receive loop, until the peer disconnects
    or an exception escapes the body. *)
Fixpoint handle_user_message (inbox : list inbound) (st : session) : session :=
  match inbox with
  | [] => st
  | NotAnObject :: _ => log_error (py "handle_user_message error: ") st
  | Frame f :: inbox' =>
      match on_frame f st with
      | Ok st' => handle_user_message inbox' st'
      | Raise _ => log_error (py "handle_user_message error: ") st
      end
  end.

(** The [try] block that sends the initial greeting. *)
Definition greet (st : session) : session :=
  let st := append (HumanMessage greeting_prompt) st in
  match invoke st with
  | (st, Raises msg) => log_error (py "Greeting error: " ++ msg) st
  | (st, Returns content) =>
      let greeting_text := strip content in
      let st := append (AIMessage greeting_text) st in
      let st := count_up st in
      send_json (OutAiResponse greeting_text true) st
  end.

(** The session once the initial payload has arrived: [personality] is
    what the record store returns for the company, [s0] the state of
    the service when the client object is built. *)
Definition accepted (personality : pystr -> option pystr) (init : init_data)
    (s0 : llm_state) : session :=
  let job_title := default (py "this role") (init_job_title init) in
  let company := default (py "the company") (init_company init) in
  let description := slice_to 800 (default [] (init_description init)) in
  let found := if truthy company then personality company else None in
  let sys_instr := build_sys_instr found job_title company description in
  send_json OutConnected
    {| conversation_history := [SystemMessage sys_instr];
       question_count := 0; sent := []; logged := [];
       invocations := []; service := s0 |}.

Definition interview_websocket (personality : pystr -> option pystr)
    (init : init_data) (s0 : llm_state) (inbox : list inbound) : session :=
  handle_user_message inbox (greet (accepted personality init s0)).

End Session.

(** A [user_transcript] object carrying [text]. *)
Definition user_transcript (text : pystr) : inbound :=
  Frame {| f_type := Some (JStr (py "user_transcript"));
           f_transcript := Some (JStr text) |}.

Definition is_ai_response (e : out_event) : bool :=
  match e with OutAiResponse _ _ => true | _ => false end.

Definition is_interview_end (e : out_event) : bool :=
  match e with OutInterviewEnd _ => true | _ => false end.

End Interview.

(** ** The record store and the operations on it *)

Module Store.

(** *** Rows

    A text column is a [str]; a nullable one read for emptiness is an
    [option].  The JSON columns [users.skills] and [hr_jobs.tags] are only
    ever written as [json.dumps] of a list of strings (or left at their
    default ["[]"]); the model keeps the list that [json.loads] gives back. *)

Record User := {
  u_id : pystr; u_name : pystr; u_email : pystr; u_role : pystr;
  u_headline : pystr; u_bio : pystr; u_phone : pystr; u_location : pystr;
  u_linkedin : pystr; u_github : pystr; u_portfolio : pystr;
  u_skills : list pystr;
  u_experience : pystr; u_education : pystr; u_resume_text : pystr;
  u_profile_image : pystr;
  u_company_name : pystr; u_company_role : pystr; u_company_desc : pystr
}.

Record Application := {
  a_id : pystr; a_user_id : pystr; a_job_id : pystr; a_job_title : pystr;
  a_description : pystr;
  a_tailored_resume : option pystr;      (* [None] is SQL NULL *)
  a_status : pystr;                      (* saved | processing | ready | applied *)
  a_notes : pystr
}.

Record HRJob := {
  j_id : pystr; j_posted_by : pystr; j_company : pystr; j_logo : pystr;
  j_title : pystr; j_location : pystr; j_type : pystr; j_salary : pystr;
  j_summary : pystr; j_description : pystr; j_tags : list pystr
}.

Record Notification := {
  n_id : pystr; n_user_id : pystr; n_title : pystr; n_body : pystr;
  n_link_page : pystr; n_read : pystr
}.

(** The tables, rows in insertion order, and the number of identifiers
    drawn from [uuid.uuid4()] so far. *)
Record db := {
  users : list User;
  applications : list Application;
  hr_jobs : list HRJob;
  notifications : list Notification;
  uuids_drawn : nat
}.

(** What the interpreter decides and the program does not: the [n]-th
    value of [uuid.uuid4()] as [str(...)] and as [.hex], and the order in
    which a [set] of strings is iterated. *)
Class Runtime := {
  uuid4_str : nat -> pystr;
  uuid4_hex : nat -> pystr;
  set_iter : gset pystr -> list pystr
}.

(** An endpoint's answer: a body, or [raise HTTPException(...)]. *)
Inductive http (A : Type) :=
| Respond (body : A)
| HTTPException (status_code : nat) (detail : pystr).
Arguments Respond {A} body.
Arguments HTTPException {A} status_code detail.

(** [x or ""] on an [Optional[str]] *)
Definition or_empty (x : option pystr) : pystr :=
  match x with
  | Some s => s
  | None => []
  end.

(** Truthiness of a nullable text column. *)
Definition truthy_col (x : option pystr) : bool := truthy (or_empty x).

(** [db.query(T).filter(p).first()] *)
Definition first {A} (p : A -> bool) (rows : list A) : option A := List.find p rows.

(** Assignments to the row object that [first()] returned, then
    [db.commit()]. *)
Fixpoint update_first {A} (p : A -> bool) (f : A -> A) (rows : list A) : list A :=
  match rows with
  | [] => []
  | r :: rows' => if p r then f r :: rows' else r :: update_first p f rows'
  end.

Definition draw (d : db) : db :=
  {| users := users d; applications := applications d; hr_jobs := hr_jobs d;
     notifications := notifications d; uuids_drawn := S (uuids_drawn d) |}.

Definition with_users (us : list User) (d : db) : db :=
  {| users := us; applications := applications d; hr_jobs := hr_jobs d;
     notifications := notifications d; uuids_drawn := uuids_drawn d |}.

Definition with_applications (aps : list Application) (d : db) : db :=
  {| users := users d; applications := aps; hr_jobs := hr_jobs d;
     notifications := notifications d; uuids_drawn := uuids_drawn d |}.

Definition with_hr_jobs (js : list HRJob) (d : db) : db :=
  {| users := users d; applications := applications d; hr_jobs := js;
     notifications := notifications d; uuids_drawn := uuids_drawn d |}.

Definition with_notifications (ns : list Notification) (d : db) : db :=
  {| users := users d; applications := applications d; hr_jobs := hr_jobs d;
     notifications := ns; uuids_drawn := uuids_drawn d |}.

(** *** Registration and profile *)

Record RegisterRequest := {
  rr_name : pystr;
  rr_email : pystr;
  rr_role : option pystr       (* [role: str = "user"]; [None]: not given *)
}.

(** The field [role] after the request model applied its default. *)
Definition request_role (req : RegisterRequest) : pystr :=
  default (py "user") (rr_role req).

Definition new_user (id name email role : pystr) : User :=
  {| u_id := id; u_name := name; u_email := email; u_role := role;
     u_headline := []; u_bio := []; u_phone := []; u_location := [];
     u_linkedin := []; u_github := []; u_portfolio := [];
     u_skills := [];
     u_experience := []; u_education := []; u_resume_text := [];
     u_profile_image := [];
     u_company_name := []; u_company_role := []; u_company_desc := [] |}.

(** The body [{"id", "name", "email", "role"}] of both auth answers. *)
Definition auth_body (u : User) : pystr * pystr * pystr * pystr :=
  (u_id u, u_name u, u_email u, u_role u).

Definition register `{Runtime} (req : RegisterRequest) (d : db)
  : db * (pystr * pystr * pystr * pystr) :=
  match first (fun u => eqb (u_email u) (rr_email req)) (users d) with
  | Some existing => (d, auth_body existing)
  | None =>
      let user := new_user (uuid4_str (uuids_drawn d)) (rr_name req)
                    (rr_email req) (request_role req) in
      (with_users (users d ++ [user]) (draw d), auth_body user)
  end.

Record ProfileUpdateRequest := {
  pr_headline : option pystr; pr_bio : option pystr; pr_phone : option pystr;
  pr_location : option pystr; pr_linkedin : option pystr;
  pr_github : option pystr; pr_portfolio : option pystr;
  pr_skills : option (list pystr);
  pr_experience : option pystr; pr_education : option pystr;
  pr_resume_text : option pystr; pr_profile_image : option pystr;
  pr_company_name : option pystr; pr_company_role : option pystr;
  pr_company_desc : option pystr
}.

Definition apply_profile (req : ProfileUpdateRequest) (u : User) : User :=
  {| u_id := u_id u; u_name := u_name u; u_email := u_email u; u_role := u_role u;
     u_headline := or_empty (pr_headline req); u_bio := or_empty (pr_bio req);
     u_phone := or_empty (pr_phone req); u_location := or_empty (pr_location req);
     u_linkedin := or_empty (pr_linkedin req); u_github := or_empty (pr_github req);
     u_portfolio := or_empty (pr_portfolio req);
     u_skills := default [] (pr_skills req);
     u_experience := or_empty (pr_experience req);
     u_education := or_empty (pr_education req);
     u_resume_text := or_empty (pr_resume_text req);
     u_profile_image := or_empty (pr_profile_image req);
     u_company_name := or_empty (pr_company_name req);
     u_company_role := or_empty (pr_company_role req);
     u_company_desc := or_empty (pr_company_desc req) |}.

Definition update_profile (user_id : pystr) (req : ProfileUpdateRequest) (d : db)
  : db * http pystr :=
  match first (fun u => eqb (u_id u) user_id) (users d) with
  | None => (d, HTTPException 404 (py "User not found"))
  | Some _ =>
      (with_users (update_first (fun u => eqb (u_id u) user_id)
                     (apply_profile req) (users d)) d,
       Respond (py "Profile updated."))
  end.

(** *** Posting a job and notifying matching seekers *)

Record PostJobRequest := {
  pj_user_id : pystr; pj_company : pystr; pj_logo : option pystr;
  pj_title : pystr; pj_location : option pystr; pj_type : option pystr;
  pj_salary : option pystr; pj_summary : option pystr;
  pj_description : pystr; pj_tags : option (list pystr)
}.

Section Jobs.
Context `{UnicodeData} `{Runtime}.

(** [set(t.lower() for t in xs)] *)
Definition lower_set (xs : list pystr) : gset pystr :=
  list_to_set (lower <$> xs).

(** The body of [for seeker in seekers], on the store. *)
Definition notify_seeker (req : PostJobRequest) (job_tags : gset pystr)
    (d : db) (seeker : User) : db :=
  let user_skills := lower_set (u_skills seeker) in
  let overlap := job_tags ∩ user_skills in
  if bool_decide (overlap ≠ ∅) then
    let notif :=
      {| n_id := uuid4_str (uuids_drawn d);
         n_user_id := u_id seeker;
         n_title := py "New job match: " ++ pj_title req;
         n_body := pj_company req ++ py " posted a " ++ pj_title req
                   ++ py " role matching your skills ("
                   ++ join (py ", ") (take 3 (set_iter overlap)) ++ py ").";
         n_link_page := py "feed";
         n_read := py "false" |} in
    with_notifications (notifications d ++ [notif]) (draw d)
  else d.

Definition hr_post_job (req : PostJobRequest) (d : db) : db * http (pystr * pystr) :=
  match first (fun u => eqb (u_id u) (pj_user_id req)) (users d) with
  | None => (d, HTTPException 403 (py "Only HR accounts can post jobs."))
  | Some user =>
      if negb (eqb (u_role user) (py "hr"))
      then (d, HTTPException 403 (py "Only HR accounts can post jobs."))
      else
        let job :=
          {| j_id := py "kanso-" ++ slice_to 8 (uuid4_hex (uuids_drawn d));
             j_posted_by := pj_user_id req;
             j_company := pj_company req;
             j_logo := or_empty (pj_logo req);
             j_title := pj_title req;
             j_location := or_empty (pj_location req);
             j_type := if truthy (or_empty (pj_type req))
                       then or_empty (pj_type req) else py "Full-time";
             j_salary := or_empty (pj_salary req);
             j_summary := or_empty (pj_summary req);
             j_description := pj_description req;
             j_tags := default [] (pj_tags req) |} in
        let d := with_hr_jobs (hr_jobs d ++ [job]) (draw d) in
        let job_tags := lower_set (default [] (pj_tags req)) in
        let d :=
          if bool_decide (job_tags ≠ ∅) then
            let seekers := List.filter (fun u => eqb (u_role u) (py "seeker")) (users d) in
            foldl (notify_seeker req job_tags) d seekers
          else d in
        (d, Respond (py "Job posted!", j_id job))
  end.

End Jobs.

(** *** Résumé generation in the background *)

Definition LATEX_TEMPLATE : pystr :=
  join [LF]
    [[];
     py "\documentclass[letterpaper,11pt]{article}";
     py "\usepackage{latexsym}";
     py "\usepackage[empty]{fullpage}";
     py "\usepackage{titlesec}";
     py "\usepackage{marvosym}";
     py "\usepackage[usenames,dvipsnames]{color}";
     py "\usepackage{verbatim}";
     py "\usepackage{enumitem}";
     py "\usepackage[hidelinks]{hyperref}";
     py "\usepackage{fancyhdr}";
     py "\usepackage[english]{babel}";
     py "\usepackage{tabularx}";
     py "\input{glyphtounicode}";
     py "\pagestyle{fancy}";
     py "\fancyhf{}";
     py "\fancyfoot{}";
     py "\renewcommand{\headrulewidth}{0pt}";
     py "\renewcommand{\footrulewidth}{0pt}";
     py "\addtolength{\oddsidemargin}{-0.5in}";
     py "\addtolength{\evensidemargin}{-0.5in}";
     py "\addtolength{\textwidth}{1in}";
     py "\addtolength{\topmargin}{-.5in}";
     py "\addtolength{\textheight}{1.0in}";
     py "\urlstyle{same}";
     py "\raggedbottom";
     py "\raggedright";
     py "\setlength{\tabcolsep}{0in}";
     py "\titleformat{\section}{\vspace{-4pt}\scshape\raggedright\large}{}{0em}{}[\color{black}\titlerule \vspace{-5pt}]";
     py "\pdfgentounicode=1";
     py "\newcommand{\resumeItem}[1]{\item\small{{#1 \vspace{-2pt}}}}";
     py "\newcommand{\resumeSubheading}[4]{\vspace{-2pt}\item\begin{tabular*}{0.97\textwidth}[t]{l@{\extracolsep{\fill}}r}\textbf{#1} & #2 \\\textit{\small#3} & \textit{\small #4} \\\end{tabular*}\vspace{-7pt}}";
     py "\newcommand{\resumeProjectHeading}[2]{\item\begin{tabular*}{0.97\textwidth}{l@{\extracolsep{\fill}}r}\small#1 & #2 \\\end{tabular*}\vspace{-7pt}}";
     py "\newcommand{\resumeSubItem}[1]{\resumeItem{#1}\vspace{-4pt}}";
     py "\renewcommand\labelitemii{$\vcenter{\hbox{\tiny$\bullet$}}$}";
     py "\newcommand{\resumeSubHeadingListStart}{\begin{itemize}[leftmargin=0.15in, label={}]}";
     py "\newcommand{\resumeSubHeadingListEnd}{\end{itemize}}";
     py "\newcommand{\resumeItemListStart}{\begin{itemize}}";
     py "\newcommand{\resumeItemListEnd}{\end{itemize}\vspace{-5pt}}";
     py "\begin{document}";
     py "%% CONTENT_PLACEHOLDER";
     py "\end{document}";
     []].

(** The dictionary [user_data] that [generate_resume] builds from the
    user row. *)
Record UserData := {
  ud_name : pystr; ud_email : pystr; ud_phone : pystr; ud_location : pystr;
  ud_linkedin : pystr; ud_github : pystr; ud_headline : pystr;
  ud_skills : list pystr; ud_experience : pystr; ud_education : pystr;
  ud_resume_text : pystr
}.

Definition user_data_of (u : User) : UserData :=
  {| ud_name := u_name u; ud_email := u_email u; ud_phone := u_phone u;
     ud_location := u_location u; ud_linkedin := u_linkedin u;
     ud_github := u_github u; ud_headline := u_headline u;
     ud_skills := u_skills u; ud_experience := u_experience u;
     ud_education := u_education u; ud_resume_text := u_resume_text u |}.

(** [x[:n] if x else 'Not specified'] *)
Definition or_not_specified (n : nat) (x : pystr) : pystr :=
  if truthy x then slice_to n x else py "Not specified".

(** The prompt of [tailor_resume]; [None] is the empty dictionary, read
    through [ud.get(key, default)]. *)
Definition resume_prompt (user_data : option UserData)
    (job_title description : pystr) : pystr :=
  let get {A} (f : UserData -> A) (dflt : A) : A :=
    match user_data with Some ud => f ud | None => dflt end in
  let name := get ud_name (py "Your Name") in
  let email := get ud_email [] in
  let phone := get ud_phone [] in
  let location := get ud_location [] in
  let linkedin := get ud_linkedin [] in
  let github := get ud_github [] in
  let skills := get ud_skills [] in
  let experience := get ud_experience [] in
  let education := get ud_education [] in
  let resume_text := get ud_resume_text [] in
  let prompt :=
    join [LF]
      [py "You are an expert resume writer. You MUST output ONLY the LaTeX body content (everything between \begin{document} and \end{document}) for a professional resume using the Jake Ryan LaTeX template commands provided below.";
       [];
       py "AVAILABLE COMMANDS:";
       py "- \resumeSubheading{Title}{Dates}{Subtitle}{Location}";
       py "- \resumeItem{Description text}";
       py "- \resumeProjectHeading{\textbf{Name} $|$ \emph{Tech stack}}{Dates}";
       py "- \resumeSubHeadingListStart / \resumeSubHeadingListEnd";
       py "- \resumeItemListStart / \resumeItemListEnd";
       py "- \section{Section Name}";
       [];
       py "CANDIDATE INFO:";
       py "- Name: " ++ name;
       py "- Email: " ++ email;
       py "- Phone: " ++ phone;
       py "- Location: " ++ location;
       py "- LinkedIn: " ++ linkedin;
       py "- GitHub: " ++ github;
       py "- Skills: " ++ (match skills with
                           | [] => py "Not specified"
                           | _ => join (py ", ") skills
                           end);
       py "- Education: " ++ or_not_specified 800 education;
       py "- Experience: " ++ or_not_specified 1200 experience;
       []] in
  let prompt :=
    if truthy resume_text
    then prompt ++ py "- Existing Resume Text: " ++ slice_to 1500 resume_text ++ [LF]
    else prompt in
  prompt ++
    join [LF]
      [[];
       py "TARGET JOB: " ++ job_title;
       py "JOB DESCRIPTION:";
       slice_to 2000 description;
       [];
       py "INSTRUCTIONS:";
       py "1. Start with a centered heading block: name, phone, email, linkedin, github.";
       py "2. Include sections: Education, Experience, Projects (if relevant), Technical Skills.";
       py "3. TAILOR bullet points to emphasize skills/experience relevant to the job.";
       py "4. Use strong action verbs and quantify achievements where possible.";
       py "5. Keep it to ONE page of content.";
       py "6. Escape special LaTeX characters: & " ++ [8594] ++ py " \&, % " ++ [8594] ++ py " \%, # " ++ [8594] ++ py " \#, $ (in text) " ++ [8594] ++ py " \$.";
       py "7. Return ONLY the LaTeX body content (no \documentclass, no preamble, no \begin{document}/\end{document}). Start directly with \begin{center}.";
       py "8. Do NOT wrap in markdown code fences."].

Definition fence : pystr := py "```".

(** What the [try] block makes of [response.content]: fences and
    document brackets stripped. *)
Definition clean_content (response_content : pystr) : res pystr :=
  (let content := strip response_content in
   do content <-
     (if startswith fence content then
        do content <-
          (if contains [LF] content
           then list_getitem (split_once LF content) 1
           else Ok (slice_from 3 content));
        let content :=
          if endswith fence content then slice_drop_last 3 content else content in
        Ok (strip content)
      else Ok content);
   Ok (strip (replace (py "\end{document}") []
                (replace (py "\begin{document}") [] content))))%res.

(** The arguments handed to [background_tasks.add_task(tailor_resume, ...)]. *)
Record task := {
  t_app_id : pystr; t_job_title : pystr; t_description : pystr;
  t_user_data : option UserData
}.

Section Generation.
Context `{UnicodeData} `{LLMClient pystr pystr}.

(** The store together with the service and what was done to it. *)
Definition state : Type := db * Retry.world.

(** [get_llm()] yields a client iff the API key is configured. *)
Definition generate_resume (configured : bool) (app_id user_id : pystr) (d : db)
  : db * http (pystr * option task) :=
  match first (fun a => eqb (a_id a) app_id) (applications d) with
  | None => (d, HTTPException 404 (py "Application not found"))
  | Some application =>
      if eqb (a_status application) (py "processing")
         && truthy_col (a_tailored_resume application)
      then (d, Respond (py "Resume is already being generated.", None))
      else if negb configured
      then (d, HTTPException 503
                 (py "AI not available " ++ [8211] ++ py " API key not configured."))
      else
        let set_processing a :=
          {| a_id := a_id a; a_user_id := a_user_id a; a_job_id := a_job_id a;
             a_job_title := a_job_title a; a_description := a_description a;
             a_tailored_resume := a_tailored_resume a;
             a_status := py "processing"; a_notes := a_notes a |} in
        let d := with_applications
                   (update_first (fun a => eqb (a_id a) app_id) set_processing
                      (applications d)) d in
        let user_data :=
          user_data_of <$> first (fun u => eqb (u_id u) user_id) (users d) in
        (d, Respond (py "Resume generation started.",
                     Some {| t_app_id := app_id;
                             t_job_title := a_job_title application;
                             t_description := a_description application;
                             t_user_data := user_data |}))
  end.

(** The [try]/[except Exception] of [tailor_resume]: the cleaned
    content, or a logged error and the empty string on any failure. *)
Definition content_of (o : outcome pystr) (w : Retry.world) : Retry.world * pystr :=
  match o with
  | Returns response_content =>
      match clean_content response_content with
      | Ok content => (w, content)
      | Raise _ => (Retry.emit (Retry.EvError (py "Resume tailor error: ")) w, [])
      end
  | Raises msg => (Retry.emit (Retry.EvError (py "Resume tailor error: " ++ msg)) w, [])
  end.

Definition tailor_resume (configured : bool) (t : task) (st : state) : state :=
  let '(d, w) := st in
  if negb configured then st
  else
    let prompt := resume_prompt (t_user_data t) (t_job_title t) (t_description t) in
    let '(w, o) := Retry._invoke_with_retry prompt w in
    let '(w, content) := content_of o w in
    if negb (truthy content) then (d, w)
    else
      let full_latex := replace (py "%% CONTENT_PLACEHOLDER") content LATEX_TEMPLATE in
      let set_ready a :=
        {| a_id := a_id a; a_user_id := a_user_id a; a_job_id := a_job_id a;
           a_job_title := a_job_title a; a_description := a_description a;
           a_tailored_resume := Some full_latex;
           a_status := py "ready"; a_notes := a_notes a |} in
      (with_applications
         (update_first (fun a => eqb (a_id a) (t_app_id t)) set_ready
            (applications d)) d, w).

End Generation.

(** [_reset_stuck_processing], run once when the module is loaded. *)
Definition is_stuck (a : Application) : bool :=
  eqb (a_status a) (py "processing")
  && match a_tailored_resume a with
     | None => true
     | Some r => eqb r []
     end.

Definition _reset_stuck_processing (d : db) : db :=
  let set_saved a :=
    {| a_id := a_id a; a_user_id := a_user_id a; a_job_id := a_job_id a;
       a_job_title := a_job_title a; a_description := a_description a;
       a_tailored_resume := a_tailored_resume a;
       a_status := py "saved"; a_notes := a_notes a |} in
  with_applications
    ((fun a => if is_stuck a then set_saved a else a) <$> applications d) d.

End Store.

(** ** Readings used to state the properties *)

Module ResumeSpec.
Import Resume.

(** The non-empty lines as the specification words them: the lines of the
    input itself, stripped, the empty ones left out. *)
Definition spec_non_empty_lines (raw : pystr) : list pystr :=
  List.filter truthy (strip <$> split LF raw).

(** The second entry of a list of lines, or the empty string. *)
Definition second (ls : list pystr) : pystr :=
  match ls with
  | _ :: h :: _ => h
  | _ => []
  end.

(** The lines the segmenter walks, and the accumulated, trimmed text of a
    section once the walk is over (empty for a section never opened). *)
Definition lines_of (raw : pystr) : list pystr := split LF (strip raw).

Definition section_text (raw : pystr) (key : string) : pystr :=
  default [] (section_texts (walk (lines_of raw)).1 !! key).

(** The lines accumulated for a section in a walk state. *)
Definition bucket (sections : gmap string (list pystr)) (key : string) : list pystr :=
  default [] (sections !! key).

(** [pieces] are the pieces of [s] between its maximal runs of characters
    of the class [cls]. *)
Inductive splits_at_runs (cls : N -> bool) : pystr -> list pystr -> Prop :=
| sar_last (f : pystr) :
    forallb (fun c => negb (cls c)) f = true ->
    splits_at_runs cls f [f]
| sar_run (f run rest : pystr) (pieces : list pystr) :
    forallb (fun c => negb (cls c)) f = true ->
    run <> [] ->
    forallb cls run = true ->
    match rest with c :: _ => cls c = false | [] => True end ->
    splits_at_runs cls rest pieces ->
    splits_at_runs cls (f ++ run ++ rest) (f :: pieces).

Definition field (r : gmap string pyval) (key : string) : option pyval := r !! key.

(** Inputs on which the properties are exercised. *)
Definition one_header : gmap string (list pystr) := {["header"%string := []]}.

Definition long_line : pystr :=
  py "Experience with distributed systems gained over ten years of practice".

Definition skills_example : pystr :=
  py "Skills" ++ [LF] ++ py "Python, Go; Rust|C++".

End ResumeSpec.

Module RetrySpec.
Import Retry.

(** The waits of the rounds [attempt], [attempt + 1], ... *)
Definition backoff (attempt rounds : nat) : list N :=
  (fun k => 2 ^ N.of_nat k) <$> seq attempt rounds.

(** A Unicode table for closed examples over ASCII text: it leaves the
    other code points alone. *)
Definition ascii_only : UnicodeData := {| lower_ucs4 := fun _ _ c => [c] |}.

Definition too_many : pystr := py "429 Too Many Requests".

Definition invalid_argument : pystr := py "400 Invalid Argument".

(** A service that fails every call with the same message. *)
Definition always_raises (msg : pystr) : LLMClient pystr pystr :=
  {| llm_state := unit; ainvoke := fun s _ => (s, Raises msg) |}.

(** The reading of a run that makes at most three calls, one second and
    then two seconds apart. *)
Definition three_calls_two_waits (t : list event) : Prop :=
  (calls t <= 3)%nat /\ sleeps t = [1; 2].

(** The wrapper run against a service that answers every call with 429. *)
Definition run_against_429
  : @world pystr pystr (always_raises too_many) * outcome pystr :=
  @_invoke_with_retry ascii_only pystr pystr (always_raises too_many)
    (py "hello") (@initial pystr pystr (always_raises too_many) tt).

End RetrySpec.

Module InterviewSpec.
Import Interview.

(** How many [ai_response] and [interview_end] frames a stream holds. *)
Definition count_ai (out : list out_event) : nat :=
  length (List.filter is_ai_response out).

Definition count_end (out : list out_event) : nat :=
  length (List.filter is_interview_end out).

(** A stream with exactly six replies and then exactly one end frame. *)
Definition six_replies_then_one_end (out : list out_event) : Prop :=
  count_ai out = 6%nat /\ count_end out = 1%nat
  /\ exists before m, out = before ++ [OutInterviewEnd m].

(** A service that answers every call with the same text. *)
Definition always_returns (text : pystr) : LLMClient (list message) pystr :=
  {| llm_state := unit; ainvoke := fun s _ => (s, Returns text) |}.

Definition no_personality : pystr -> option pystr := fun _ => None.

Definition backend_role : init_data :=
  {| init_job_title := Some (py "Backend Engineer");
     init_company := Some (py "Acme");
     init_description := Some (py "Build services.") |}.

Definition five_answers : list inbound :=
  [user_transcript (py "one"); user_transcript (py "two");
   user_transcript (py "three"); user_transcript (py "four");
   user_transcript (py "five")].

Definition four_answers : list inbound :=
  [user_transcript (py "one"); user_transcript (py "two");
   user_transcript (py "three"); user_transcript (py "four")].

(** The session of a candidate who answers five times, against a service
    that always answers. *)
Definition five_answer_session : @session (always_returns (py "Thanks.")) :=
  @interview_websocket (always_returns (py "Thanks.")) no_personality
    backend_role tt five_answers.

End InterviewSpec.

Module StoreSpec.
Import Store.

Definition find_application (app_id : pystr) (d : db) : option Application :=
  first (fun a => eqb (a_id a) app_id) (applications d).

Definition status_of (app_id : pystr) (d : db) : option pystr :=
  a_status <$> find_application app_id d.

Definition resume_of (app_id : pystr) (d : db) : option (option pystr) :=
  a_tailored_resume <$> find_application app_id d.

(** The notifications addressed to a user. *)
Definition notifications_for (user_id : pystr) (d : db) : list Notification :=
  List.filter (fun n => eqb (n_user_id n) user_id) (notifications d).

(** A runtime for closed examples: identifiers [u0], [u1], ... and sets
    iterated in the order of [elements]. *)
Definition demo_runtime : Runtime :=
  {| uuid4_str := fun n => py "u" ++ [48 + N.of_nat n];
     uuid4_hex := fun n => py "0000000" ++ [48 + N.of_nat n] ++ py "ffffffffffffffffffffffff";
     set_iter := elements |}.

Definition empty_db : db :=
  {| users := []; applications := []; hr_jobs := []; notifications := [];
     uuids_drawn := 0 |}.

(** *** A seeker registers, fills in skills, and an HR account posts a
    matching job *)

Definition register_sam : RegisterRequest :=
  {| rr_name := py "Sam"; rr_email := py "sam@example.com";
     rr_role := Some (py "seeker") |}.

Definition register_hana : RegisterRequest :=
  {| rr_name := py "Hana"; rr_email := py "hana@example.com";
     rr_role := Some (py "hr") |}.

Definition sam_profile : ProfileUpdateRequest :=
  {| pr_headline := None; pr_bio := None; pr_phone := None; pr_location := None;
     pr_linkedin := None; pr_github := None; pr_portfolio := None;
     pr_skills := Some [py "Python"; py "Go"];
     pr_experience := None; pr_education := None; pr_resume_text := None;
     pr_profile_image := None; pr_company_name := None;
     pr_company_role := None; pr_company_desc := None |}.

Definition backend_job : PostJobRequest :=
  {| pj_user_id := py "u1"; pj_company := py "Acme"; pj_logo := None;
     pj_title := py "Backend Engineer"; pj_location := None; pj_type := None;
     pj_salary := None; pj_summary := None;
     pj_description := py "Build services."; pj_tags := Some [py "python"] |}.

Definition after_posting : db :=
  let d := (@register demo_runtime register_sam empty_db).1 in
  let d := (update_profile (py "u0") sam_profile d).1 in
  let d := (@register demo_runtime register_hana d).1 in
  (@hr_post_job RetrySpec.ascii_only demo_runtime backend_job d).1.

(** *** A stuck application is generated again *)

Definition stuck_application : Application :=
  {| a_id := py "app-1"; a_user_id := py "u0"; a_job_id := py "job-1";
     a_job_title := py "Backend Engineer"; a_description := py "Build services.";
     a_tailored_resume := Some []; a_status := py "processing"; a_notes := [] |}.

Definition stuck_db : db :=
  {| users := []; applications := [stuck_application]; hr_jobs := [];
     notifications := []; uuids_drawn := 0 |}.

Definition centered : pystr := py "\begin{center} Sam \end{center}".

(** [generate_resume] followed by the background task it schedules. *)
Definition generate_and_tailor `{UnicodeData} `{LLMClient pystr pystr}
    (app_id user_id : pystr) (st : state) : state :=
  match generate_resume true app_id user_id st.1 with
  | (d, Respond (_, Some t)) => tailor_resume true t (d, st.2)
  | (d, _) => (d, st.2)
  end.

(** A service whose first call fails for good and whose later calls
    answer; its state tells whether a call has been made. *)
Definition fails_once : LLMClient pystr pystr :=
  {| llm_state := bool;
     ainvoke := fun called _ =>
       if called then (true, Returns centered)
       else (true, Raises (py "503 Service Unavailable")) |}.

Definition saved_db : db :=
  {| users := [];
     applications :=
       [{| a_id := py "app-1"; a_user_id := py "u0"; a_job_id := py "job-1";
           a_job_title := py "Backend Engineer";
           a_description := py "Build services.";
           a_tailored_resume := Some []; a_status := py "saved"; a_notes := [] |}];
     hr_jobs := []; notifications := []; uuids_drawn := 0 |}.

(** The first generation, which fails, and the second, triggered again
    by the user. *)
Definition first_generation : @state fails_once :=
  @generate_and_tailor RetrySpec.ascii_only fails_once (py "app-1") (py "u0")
    (saved_db, @Retry.initial pystr pystr fails_once false).

Definition second_generation : @state fails_once :=
  @generate_and_tailor RetrySpec.ascii_only fails_once (py "app-1") (py "u0")
    first_generation.

(** The task scheduled for the stuck application. *)
Definition stuck_task : task :=
  {| t_app_id := py "app-1"; t_job_title := py "Backend Engineer";
     t_description := py "Build services."; t_user_data := None |}.

(** The reading under which a row left in [processing] is still there. *)
Definition remains_processing (app_id : pystr) (d : db) : Prop :=
  status_of app_id d = Some (py "processing").

End StoreSpec.

(** ** Further endpoints on the record store *)

Module Endpoints.
Import Store.

(** [db.delete(row)] on the row that [first()] returned. *)
Fixpoint delete_first {A} (p : A -> bool) (rows : list A) : list A :=
  match rows with
  | [] => []
  | r :: rows' => if p r then rows' else r :: delete_first p rows'
  end.

(** [POST /auth/login] *)
Definition login (email : pystr) (d : db) : http (pystr * pystr * pystr * pystr) :=
  match first (fun u => eqb (u_email u) email) (users d) with
  | None =>
      HTTPException 404 (py "No account with that email. Please register first.")
  | Some user => Respond (auth_body user)
  end.

Record SwipeRequest := {
  sw_user_id : pystr; sw_job_id : pystr; sw_job_title : pystr;
  sw_description : pystr
}.

(** [POST /swipe-right]: the columns not given take their defaults. *)
Definition handle_swipe_right `{Runtime} (swipe : SwipeRequest) (d : db)
  : db * (pystr * pystr) :=
  let application :=
    {| a_id := uuid4_str (uuids_drawn d);
       a_user_id := sw_user_id swipe;
       a_job_id := sw_job_id swipe;
       a_job_title := sw_job_title swipe;
       a_description := sw_description swipe;
       a_tailored_resume := Some [];
       a_status := py "saved";
       a_notes := [] |} in
  (with_applications (applications d ++ [application]) (draw d),
   (py "Job saved!", sw_job_title swipe)).

(** [status not in ("saved", "processing", "ready", "applied")] *)
Definition known_status (status : pystr) : bool :=
  eqb status (py "saved") || eqb status (py "processing")
  || eqb status (py "ready") || eqb status (py "applied").

Definition set_status (status : pystr) (a : Application) : Application :=
  {| a_id := a_id a; a_user_id := a_user_id a; a_job_id := a_job_id a;
     a_job_title := a_job_title a; a_description := a_description a;
     a_tailored_resume := a_tailored_resume a;
     a_status := status; a_notes := a_notes a |}.

(** [PATCH /application/{app_id}/status] *)
Definition update_application_status (app_id status : pystr) (d : db)
  : db * http pystr :=
  match first (fun a => eqb (a_id a) app_id) (applications d) with
  | None => (d, HTTPException 404 (py "Application not found"))
  | Some _ =>
      if negb (known_status status)
      then (d, HTTPException 400 (py "Invalid status"))
      else
        (with_applications
           (update_first (fun a => eqb (a_id a) app_id) (set_status status)
              (applications d)) d,
         Respond (py "Status updated to " ++ status ++ py "."))
  end.

(** [POST /application/{app_id}/apply]: the answer carries the message and
    [is_internal]. *)
Definition mark_applied `{Runtime} (app_id : pystr) (d : db)
  : db * http (pystr * bool) :=
  match first (fun a => eqb (a_id a) app_id) (applications d) with
  | None => (d, HTTPException 404 (py "Application not found"))
  | Some application =>
      let d1 :=
        with_applications
          (update_first (fun a => eqb (a_id a) app_id) (set_status (py "applied"))
             (applications d)) d in
      match first (fun j => eqb (j_id j) (a_job_id application)) (hr_jobs d) with
      | Some hr_job =>
          let applicant_name :=
            match first (fun u => eqb (u_id u) (a_user_id application)) (users d) with
            | Some applicant => u_name applicant
            | None => py "Someone"
            end in
          let notif :=
            {| n_id := uuid4_str (uuids_drawn d1);
               n_user_id := j_posted_by hr_job;
               n_title := py "New applicant: " ++ applicant_name;
               n_body := applicant_name ++ py " applied for your " ++ [34]
                         ++ a_job_title application ++ [34] ++ py " role at "
                         ++ j_company hr_job
                         ++ py ". Check your Applications tab to review.";
               n_link_page := py "hr";
               n_read := py "false" |} in
          (with_notifications (notifications d1 ++ [notif]) (draw d1),
           Respond (py "Application submitted! " ++ [127881], true))
      | None =>
          (d1, Respond (py "Application marked as applied! " ++ [127881], false))
      end
  end.

(** [DELETE /hr/job/{job_id}?user_id=...] *)
Definition hr_delete_job (job_id user_id : pystr) (d : db) : db * http pystr :=
  let owned j := eqb (j_id j) job_id && eqb (j_posted_by j) user_id in
  match first owned (hr_jobs d) with
  | None => (d, HTTPException 404 (py "Job not found or you don't own it."))
  | Some _ => (with_hr_jobs (delete_first owned (hr_jobs d)) d, Respond (py "Job removed."))
  end.

Definition set_read (n : Notification) : Notification :=
  {| n_id := n_id n; n_user_id := n_user_id n; n_title := n_title n;
     n_body := n_body n; n_link_page := n_link_page n; n_read := py "true" |}.

(** [PATCH /notifications/{notif_id}/read] *)
Definition mark_notification_read (notif_id : pystr) (d : db) : db * pystr :=
  (match first (fun n => eqb (n_id n) notif_id) (notifications d) with
   | Some _ =>
       with_notifications
         (update_first (fun n => eqb (n_id n) notif_id) set_read (notifications d)) d
   | None => d
   end, py "ok").

(** [POST /notifications/read-all/{user_id}]: one bulk [UPDATE]. *)
Definition mark_all_read (user_id : pystr) (d : db) : db * pystr :=
  (with_notifications
     ((fun n => if eqb (n_user_id n) user_id && eqb (n_read n) (py "false")
                then set_read n else n) <$> notifications d) d,
   py "All marked as read.").

(** What running [pdflatex] twice on a document leaves behind: the bytes of
    [resume.pdf], no such file, or an exception of [subprocess.run] that
    the handler does not catch. *)
Inductive toolchain_result :=
| PdfWritten (pdf_bytes : list N)
| NoPdfWritten
| ToolRaises.

Class Toolchain := { pdflatex_twice : pystr -> toolchain_result }.

(** [GET /application/{app_id}/resume-pdf]: the bytes and the file name of
    the [Content-Disposition] header; an uncaught exception is the
    framework's status 500. *)
Definition get_resume_pdf `{Toolchain} (app_id : pystr) (d : db)
  : http (list N * pystr) :=
  match first (fun a => eqb (a_id a) app_id) (applications d) with
  | None => HTTPException 404 (py "No resume found")
  | Some application =>
      if negb (truthy_col (a_tailored_resume application))
      then HTTPException 404 (py "No resume found")
      else
        let latex := or_empty (a_tailored_resume application) in
        if negb (contains (py "\documentclass") latex)
        then HTTPException 400 (py "Resume is not in LaTeX format")
        else
          match pdflatex_twice latex with
          | PdfWritten pdf_bytes =>
              Respond (pdf_bytes, py "resume-" ++ slice_to 8 app_id ++ py ".pdf")
          | NoPdfWritten =>
              HTTPException 500 (py "PDF compilation failed. LaTeX may have errors.")
          | ToolRaises => HTTPException 500 (py "Internal Server Error")
          end
  end.

Definition set_notes (notes : pystr) (a : Application) : Application :=
  {| a_id := a_id a; a_user_id := a_user_id a; a_job_id := a_job_id a;
     a_job_title := a_job_title a; a_description := a_description a;
     a_tailored_resume := a_tailored_resume a;
     a_status := a_status a; a_notes := notes |}.

(** [PUT /application/{app_id}/notes]: [notes] is [body.get("notes")],
    [None] when the key is absent.  The value is taken to be a string; what
    the database driver makes of another JSON value is outside the model. *)
Definition update_notes (app_id : pystr) (notes : option pystr) (d : db)
  : db * http pystr :=
  match first (fun a => eqb (a_id a) app_id) (applications d) with
  | None => (d, HTTPException 404 (py "Application not found"))
  | Some _ =>
      (with_applications
         (update_first (fun a => eqb (a_id a) app_id) (set_notes (default [] notes))
            (applications d)) d,
       Respond (py "Notes saved."))
  end.

(** [DELETE /application/{app_id}], on the applications table; the chat
    messages it removes as well are in a table of their own. *)
Definition delete_application (app_id : pystr) (d : db) : db * http pystr :=
  match first (fun a => eqb (a_id a) app_id) (applications d) with
  | None => (d, HTTPException 404 (py "Application not found"))
  | Some _ =>
      (with_applications
         (delete_first (fun a => eqb (a_id a) app_id) (applications d)) d,
       Respond (py "Application removed."))
  end.

(** *** The store under a sequence of requests *)

(** Every piece of the program that writes to the four tables: the
    endpoints, the background task and the startup reset.  A background task
    may run at any later point, so it is a step of its own. *)
Inductive request :=
| ReqRegister (req : RegisterRequest)
| ReqUpdateProfile (user_id : pystr) (req : ProfileUpdateRequest)
| ReqSwipeRight (swipe : SwipeRequest)
| ReqGenerateResume (configured : bool) (app_id user_id : pystr)
| ReqTailorResume (configured : bool) (t : task)
| ReqUpdateStatus (app_id status : pystr)
| ReqApply (app_id : pystr)
| ReqPostJob (req : PostJobRequest)
| ReqDeleteJob (job_id user_id : pystr)
| ReqMarkRead (notif_id : pystr)
| ReqMarkAllRead (user_id : pystr)
| ReqRestart
| ReqUpdateNotes (app_id : pystr) (notes : option pystr)
| ReqDeleteApplication (app_id : pystr).

Section Requests.
Context `{UnicodeData} `{Runtime} `{LLMClient pystr pystr}.

Definition handle (st : state) (r : request) : state :=
  let '(d, w) := st in
  match r with
  | ReqRegister req => ((register req d).1, w)
  | ReqUpdateProfile user_id req => ((update_profile user_id req d).1, w)
  | ReqSwipeRight swipe => ((handle_swipe_right swipe d).1, w)
  | ReqGenerateResume configured app_id user_id =>
      ((generate_resume configured app_id user_id d).1, w)
  | ReqTailorResume configured t => tailor_resume configured t (d, w)
  | ReqUpdateStatus app_id status => ((update_application_status app_id status d).1, w)
  | ReqApply app_id => ((mark_applied app_id d).1, w)
  | ReqPostJob req => ((hr_post_job req d).1, w)
  | ReqDeleteJob job_id user_id => ((hr_delete_job job_id user_id d).1, w)
  | ReqMarkRead notif_id => ((mark_notification_read notif_id d).1, w)
  | ReqMarkAllRead user_id => ((mark_all_read user_id d).1, w)
  | ReqRestart => (_reset_stuck_processing d, w)
  | ReqUpdateNotes app_id notes => ((update_notes app_id notes d).1, w)
  | ReqDeleteApplication app_id => ((delete_application app_id d).1, w)
  end.

Definition run_requests (st : state) (rs : list request) : state :=
  foldl handle st rs.

End Requests.

End Endpoints.

(** ** Readings for the further properties *)

Module MoreSpec.
Import Resume Interview Store Endpoints.

(** A string that neither begins nor ends with whitespace. *)
Definition starts_visible (s : pystr) : Prop :=
  match s with
  | c :: _ => is_space c = false
  | [] => True
  end.

Definition trimmed (s : pystr) : Prop :=
  starts_visible s /\ starts_visible (rev s).

(** The names a section can have. *)
Definition section_names : list string :=
  ["header"; "summary"; "experience"; "education"; "skills"]%string.

(** A state of the line walk whose cursor names a section of the table,
    whose table has the [header] bucket and no key besides the section
    names. *)
Definition table_ok (st : gmap string (list pystr) * string) : Prop :=
  In st.2 section_names
  /\ is_Some (st.1 !! st.2)
  /\ is_Some (st.1 !! "header"%string)
  /\ forall key, is_Some (st.1 !! key) -> In key section_names.

(** Two lines that differ at most in the case of ASCII letters. *)
Definition same_up_to_case (s t : pystr) : Prop :=
  ascii_lower <$> s = ascii_lower <$> t.

(** A pattern whose starred character classes do not tell the case of an
    ASCII letter. *)
Fixpoint stars_blind (r : regex) : Prop :=
  match r with
  | Star p => forall x, p (ascii_lower x) = p x
  | Opt r1 => stars_blind r1
  | Cat r1 r2 | Alt r1 r2 => stars_blind r1 /\ stars_blind r2
  | Eps | Chr _ => True
  end.

End MoreSpec.

Module RetryMoreSpec.
Import Retry.

(** What [k] rate-limited rounds, the first of them round [attempt], leave
    in the trace. *)
Fixpoint failed_rounds (retries attempt k : nat) : list event :=
  match k with
  | O => []
  | S k' =>
      [EvInvoke;
       EvWarn (N.of_nat attempt + 1) (N.of_nat retries) (2 ^ N.of_nat attempt);
       EvSleep (2 ^ N.of_nat attempt)]
      ++ failed_rounds retries (S attempt) k'
  end.

Section Runs.
Context `{UnicodeData} {Prompt Response : Type} `{LLMClient Prompt Response}.

(** [k] calls in a row, from service state [s] to [s'], each failing with a
    message that reads as a rate limit. *)
Inductive rate_limited (prompt : Prompt) : nat -> llm_state -> llm_state -> Prop :=
| rl_none (s : llm_state) : rate_limited prompt 0 s s
| rl_more (k : nat) (s s1 s' : llm_state) (msg : pystr) :
    ainvoke s prompt = (s1, Raises msg) ->
    is_rate_limit msg = true ->
    rate_limited prompt k s1 s' ->
    rate_limited prompt (S k) s s'.

(** An outcome that ends the loop: a response, or a failure that does not
    read as a rate limit. *)
Definition settles (o : outcome Response) : Prop :=
  match o with
  | Returns _ => True
  | Raises msg => is_rate_limit msg = false
  end.

End Runs.

(** A service that answers its first call with a 429 and every later call
    with a response; its state tells whether a call has been made. *)
Definition limited_once : LLMClient pystr pystr :=
  {| llm_state := bool;
     ainvoke := fun called _ =>
       if called then (true, Returns (py "Hello."))
       else (true, Raises RetrySpec.too_many) |}.

(** The three substrings that mark a rate limit. *)
Definition needles : list pystr :=
  [py "429"; py "resource exhausted"; py "rate"].

End RetryMoreSpec.

Module InterviewMoreSpec.
Import Interview InterviewSpec.

Definition is_assistant (m : message) : bool :=
  match m with AIMessage _ => true | _ => false end.

Definition is_system (m : message) : bool :=
  match m with SystemMessage _ => true | _ => false end.

(** How many assistant turns a history holds. *)
Definition assistant_turns (history : list message) : nat :=
  length (List.filter is_assistant history).


Section Session.
Context `{LLMClient (list message) pystr}.

(** What holds of a session at every point of its life. *)
Definition session_ok (st : session) : Prop :=
  question_count st = Z.of_nat (assistant_turns (conversation_history st))
  /\ (exists sys turns,
         conversation_history st = SystemMessage sys :: turns
         /\ forallb (fun m => negb (is_system m)) turns = true)
  /\ count_ai (sent st) = (Z.to_nat (question_count st) + count_end (sent st))%nat
  /\ (count_end (sent st) = 0%nat \/ (5 <= question_count st)%Z)
  /\ exists frames, sent st = OutConnected :: frames
                    /\ forallb (fun e => match e with OutConnected => false | _ => true end)
                         frames = true.

End Session.

(** A service whose first call fails and whose later calls answer. *)
Definition greeting_fails : LLMClient (list message) pystr :=
  {| llm_state := bool;
     ainvoke := fun called _ =>
       if called then (true, Returns (py "Thanks."))
       else (true, Raises (py "503 Service Unavailable")) |}.

End InterviewMoreSpec.

Module StoreMoreSpec.
Import Store StoreSpec Endpoints.

(** What identifies an account: it is set at registration. *)
Definition identity (u : User) : pystr * pystr * pystr * pystr :=
  (u_id u, u_name u, u_email u, u_role u).

(** Whether [user_id] names an account with role ["hr"]. *)
Definition is_hr (user_id : pystr) (d : db) : bool :=
  match first (fun u => eqb (u_id u) user_id) (users d) with
  | Some u => eqb (u_role u) (py "hr")
  | None => false
  end.


(** An application without its status. *)
Definition application_data (a : Application)
  : pystr * pystr * pystr * pystr * pystr * option pystr * pystr :=
  (a_id a, a_user_id a, a_job_id a, a_job_title a, a_description a,
   a_tailored_resume a, a_notes a).

(** Every application carries one of the four statuses. *)
Definition statuses_known (d : db) : Prop :=
  Forall (fun a => known_status (a_status a) = true) (applications d).

(** The template before and after the placeholder. *)
Definition template_head : pystr := take 1632 LATEX_TEMPLATE.

Definition template_tail : pystr := drop 1654 LATEX_TEMPLATE.

(** A notification without its read flag. *)
Definition notification_data (n : Notification)
  : pystr * pystr * pystr * pystr * pystr :=
  (n_id n, n_user_id n, n_title n, n_body n, n_link_page n).

(** A toolchain for closed examples: it writes a one-byte file. *)
Definition tiny_pdf : Toolchain := {| pdflatex_twice := fun _ => PdfWritten [37] |}.

(** An application that is ready, with a résumé. *)
Definition ready_db : db :=
  {| users := [];
     applications :=
       [{| a_id := py "app-1"; a_user_id := py "u0"; a_job_id := py "job-1";
           a_job_title := py "Backend Engineer";
           a_description := py "Build services.";
           a_tailored_resume := Some (py "\documentclass{article}");
           a_status := py "ready"; a_notes := [] |}];
     hr_jobs := []; notifications := []; uuids_drawn := 0 |}.

(** A seeker with skills and an HR account, before any job is posted. *)
Definition before_posting : db :=
  let d := (@register demo_runtime register_sam empty_db).1 in
  let d := (update_profile (py "u0") sam_profile d).1 in
  (@register demo_runtime register_hana d).1.

(** A saved application to a job that was posted through the platform. *)
Definition internal_db : db :=
  {| users := [];
     applications :=
       [{| a_id := py "app-1"; a_user_id := py "u0"; a_job_id := py "kanso-1";
           a_job_title := py "Backend Engineer";
           a_description := py "Build services.";
           a_tailored_resume := Some []; a_status := py "saved"; a_notes := [] |}];
     hr_jobs :=
       [{| j_id := py "kanso-1"; j_posted_by := py "u1"; j_company := py "Acme";
           j_logo := []; j_title := py "Backend Engineer"; j_location := [];
           j_type := py "Full-time"; j_salary := []; j_summary := [];
           j_description := py "Build services."; j_tags := [py "python"] |}];
     notifications := []; uuids_drawn := 0 |}.

(** A service that has been called once and answers from now on. *)
Definition answering : Retry.world :=
  @Retry.initial pystr pystr fails_once true.

(** A run of requests: registration, a saved job, a generation with its
    background task, a status the endpoint refuses, a note, and a restart. *)
Definition sample_requests : list request :=
  [ReqRegister register_sam;
   ReqRegister register_sam;
   ReqSwipeRight {| sw_user_id := py "u0"; sw_job_id := py "job-1";
                    sw_job_title := py "Backend Engineer";
                    sw_description := py "Build services." |};
   ReqGenerateResume true (py "u1") (py "u0");
   ReqTailorResume true {| t_app_id := py "u1"; t_job_title := py "Backend Engineer";
                           t_description := py "Build services.";
                           t_user_data := None |};
   ReqUpdateStatus (py "u1") (py "archived");
   ReqUpdateNotes (py "u1") (Some (py "Call back on Monday."));
   ReqRestart].

End StoreMoreSpec.

(* ===================================================================== *)
(** * Part II.  Properties                                                *)
(* ===================================================================== *)

(** ** Strings *)

Module PyStrFacts.

Lemma lstrip_all_space (s : pystr) :
  forallb is_space s = true -> lstrip s = [].
Proof.
  induction s as [|x s IH]; simpl; [reflexivity|].
  destruct (is_space x); simpl; [exact IH | discriminate].
Qed.

Lemma lstrip_not_all_space (s t : pystr) :
  forallb is_space s = false -> lstrip (s ++ t) = lstrip s ++ t.
Proof.
  induction s as [|x s IH]; simpl; [discriminate|].
  destruct (is_space x); simpl; [exact IH | reflexivity].
Qed.

Lemma rstrip_nil : rstrip [] = [].
Proof. reflexivity. Qed.

Lemma rstrip_snoc (s : pystr) (c : N) :
  rstrip (s ++ [c]) = if is_space c then rstrip s else s ++ [c].
Proof.
  unfold rstrip. rewrite rev_app_distr. simpl.
  destruct (is_space c); [reflexivity|].
  simpl. now rewrite rev_involutive.
Qed.

Lemma strip_cons_space (c : N) (s : pystr) :
  is_space c = true -> strip (c :: s) = strip s.
Proof. intros Hc. unfold strip. simpl. now rewrite Hc. Qed.

Lemma strip_snoc_space (s : pystr) (c : N) :
  is_space c = true -> strip (s ++ [c]) = strip s.
Proof.
  intros Hc. unfold strip.
  destruct (forallb is_space s) eqn:Hs.
  - rewrite (lstrip_all_space s Hs).
    rewrite lstrip_all_space; [reflexivity|].
    rewrite forallb_app, Hs. simpl. now rewrite Hc.
  - rewrite lstrip_not_all_space by exact Hs.
    now rewrite rstrip_snoc, Hc.
Qed.

Lemma split_nonempty (sep : N) (s : pystr) : split sep s <> [].
Proof.
  destruct s as [|c s]; simpl; [discriminate|].
  destruct (c =? sep); [discriminate|].
  destruct (split sep s); discriminate.
Qed.

Lemma split_snoc (sep : N) (s : pystr) (c : N) :
  split sep (s ++ [c]) =
  if c =? sep then split sep s ++ [[]] else snoc_last c (split sep s).
Proof.
  induction s as [|x s IH]; simpl.
  - destruct (c =? sep); reflexivity.
  - destruct (x =? sep) eqn:Hx.
    + rewrite IH. destruct (c =? sep); [reflexivity|].
      simpl. pose proof (split_nonempty sep s).
      destruct (split sep s); [contradiction|reflexivity].
    + rewrite IH. pose proof (split_nonempty sep s) as Hne.
      destruct (c =? sep).
      * destruct (split sep s); [contradiction|]. reflexivity.
      * destruct (split sep s) as [|l ls]; [contradiction|].
        simpl. destruct ls; simpl; [reflexivity|].
        destruct (snoc_last c (l0 :: ls)) eqn:E; [|reflexivity].
        simpl in E. destruct ls; discriminate.
Qed.

(** Splitting at a separator that the first piece does not contain. *)
Lemma split_app_sep (sep : N) (l s : pystr) :
  forallb (fun c => negb (c =? sep)) l = true ->
  split sep (l ++ sep :: s) = l :: split sep s.
Proof.
  induction l as [|x l IH]; simpl; intros Hl.
  - now rewrite N.eqb_refl.
  - apply andb_prop in Hl as [Hx Hl].
    apply negb_true_iff in Hx. rewrite Hx, (IH Hl). reflexivity.
Qed.

Lemma eqb_eq (s t : pystr) : eqb s t = true <-> s = t.
Proof.
  revert t. induction s as [|a s IH]; intros [|b t]; simpl; split;
    try discriminate; try reflexivity.
  - intros H. apply andb_prop in H as [H1 H2].
    apply N.eqb_eq in H1. apply IH in H2. now subst.
  - intros H. injection H as -> ->. rewrite N.eqb_refl. simpl. now apply IH.
Qed.

Lemma eqb_refl (s : pystr) : eqb s s = true.
Proof. now apply eqb_eq. Qed.

End PyStrFacts.

(** ** The résumé segmenter *)

Module ResumeFacts.
Import Resume ResumeSpec PyStrFacts.

(** *** The non-empty lines *)

Lemma non_empty_of_filter (lines : list pystr) :
  non_empty_of lines = List.filter truthy (strip <$> lines).
Proof.
  unfold non_empty_of. induction lines as [|l ls IH]; [reflexivity|].
  rewrite fmap_cons. cbn [List.filter].
  destruct (truthy (strip l)); [rewrite fmap_cons|]; now rewrite IH.
Qed.

Lemma strip_snoc_last (c : N) (ls : list pystr) :
  is_space c = true -> ls <> [] ->
  strip <$> snoc_last c ls = strip <$> ls.
Proof.
  intros Hc. induction ls as [|l ls IH]; intros Hne; [contradiction|].
  destruct ls as [|l' ls].
  - simpl. now rewrite strip_snoc_space.
  - change (snoc_last c (l :: l' :: ls)) with (l :: snoc_last c (l' :: ls)).
    rewrite !fmap_cons. f_equal. rewrite IH by discriminate. reflexivity.
Qed.

Lemma spec_lines_cons_space (c : N) (s : pystr) :
  is_space c = true -> spec_non_empty_lines (c :: s) = spec_non_empty_lines s.
Proof.
  intros Hc. unfold spec_non_empty_lines. simpl.
  destruct (c =? LF) eqn:E.
  - reflexivity.
  - pose proof (split_nonempty LF s) as Hne.
    destruct (split LF s) as [|l ls]; [contradiction|].
    simpl. now rewrite strip_cons_space.
Qed.

Lemma spec_lines_snoc_space (s : pystr) (c : N) :
  is_space c = true -> spec_non_empty_lines (s ++ [c]) = spec_non_empty_lines s.
Proof.
  intros Hc. unfold spec_non_empty_lines. rewrite split_snoc.
  destruct (c =? LF).
  - rewrite fmap_app, List.filter_app. simpl. now rewrite app_nil_r.
  - rewrite strip_snoc_last; [reflexivity | exact Hc | apply split_nonempty].
Qed.

Lemma spec_lines_lstrip (s : pystr) :
  spec_non_empty_lines (lstrip s) = spec_non_empty_lines s.
Proof.
  induction s as [|c s IH]; simpl; [reflexivity|].
  destruct (is_space c) eqn:Hc; [|reflexivity].
  now rewrite IH, spec_lines_cons_space.
Qed.

Lemma spec_lines_rstrip (s : pystr) :
  spec_non_empty_lines (rstrip s) = spec_non_empty_lines s.
Proof.
  induction s as [|c s IH] using rev_ind; [reflexivity|].
  rewrite rstrip_snoc. destruct (is_space c) eqn:Hc; [|reflexivity].
  now rewrite IH, spec_lines_snoc_space.
Qed.

(** The list the code computes from the stripped input is the list of
    non-empty lines of the input. *)
Lemma non_empty_lines_agree (raw : pystr) :
  non_empty_of (lines_of raw) = spec_non_empty_lines raw.
Proof.
  rewrite non_empty_of_filter. unfold lines_of, strip at 2.
  change (List.filter truthy (strip <$> split LF (rstrip (lstrip raw))))
    with (spec_non_empty_lines (rstrip (lstrip raw))).
  now rewrite spec_lines_rstrip, spec_lines_lstrip.
Qed.

(** *** The result, field by field *)

Lemma has_text_eq (sections : gmap string pystr) (key : string) :
  has_text sections key = Ok (truthy (default [] (sections !! key))).
Proof.
  unfold has_text, dict_contains, dict_getitem.
  destruct (sections !! key) as [t|]; reflexivity.
Qed.

Lemma copy_section_eq (sections : gmap string pystr) (key field : string)
    (result : gmap string pyval) :
  result !! field = Some (PStr []) ->
  copy_section sections key field result
  = Ok (<[field := PStr (default [] (sections !! key))]> result).
Proof.
  intros Hf. unfold copy_section. rewrite has_text_eq. unfold dict_getitem.
  destruct (sections !! key) as [t|]; simpl.
  - destruct t; simpl; [|reflexivity]. now rewrite insert_id.
  - now rewrite insert_id.
Qed.

Lemma headline_step (non_empty : list pystr) :
  (if (2 <=? length non_empty)%nat
   then (do h <- list_getitem non_empty 1;
         Ok (<["headline"%string := PStr h]> empty_result))%res
   else Ok empty_result)
  = Ok (<["headline"%string := PStr (second non_empty)]> empty_result).
Proof.
  destruct non_empty as [|a [|h rest]]; reflexivity.
Qed.

(** What [_parse_resume_text] returns, for every input. *)
Lemma parse_resume_eq (raw : pystr) :
  _parse_resume_text raw
  = Ok (mk_result (second (non_empty_of (lines_of raw)))
          (section_text raw "summary")
          (split_skills (section_text raw "skills"))
          (section_text raw "experience")
          (section_text raw "education")).
Proof.
  unfold _parse_resume_text. fold (lines_of raw).
  rewrite headline_step. cbn [res_bind].
  unfold section_text.
  set (sections := section_texts (walk (lines_of raw)).1).
  set (h := second (non_empty_of (lines_of raw))).
  rewrite copy_section_eq by reflexivity. cbn [res_bind].
  rewrite copy_section_eq by reflexivity. cbn [res_bind].
  rewrite copy_section_eq by reflexivity. cbn [res_bind].
  rewrite has_text_eq. cbn [res_bind]. unfold dict_getitem.
  destruct (sections !! "skills"%string) as [t|]; cbn [default].
  - destruct t as [|c t]; cbn [truthy res_bind]; reflexivity.
  - reflexivity.
Qed.

Lemma field_headline h b sk e ed :
  field (mk_result h b sk e ed) "headline" = Some (PStr h).
Proof. reflexivity. Qed.

Lemma field_bio h b sk e ed :
  field (mk_result h b sk e ed) "bio" = Some (PStr b).
Proof. reflexivity. Qed.

Lemma field_skills h b sk e ed :
  field (mk_result h b sk e ed) "skills" = Some (PList sk).
Proof. reflexivity. Qed.

Lemma field_experience h b sk e ed :
  field (mk_result h b sk e ed) "experience" = Some (PStr e).
Proof. reflexivity. Qed.

Lemma field_education h b sk e ed :
  field (mk_result h b sk e ed) "education" = Some (PStr ed).
Proof. reflexivity. Qed.

Lemma dom_mk_result h b sk e ed :
  dom (mk_result h b sk e ed)
  = ({[ "headline"; "bio"; "skills"; "experience"; "education" ]} : gset string)%string.
Proof. reflexivity. Qed.

(** C8.  For every input string [_parse_resume_text] returns, raising
    neither at [non_empty[1]] nor at any [sections[key]], and what it
    returns is a dictionary with exactly the five keys [headline], [bio],
    [skills], [experience] and [education], the four texts being strings
    and [skills] a list of strings, each possibly empty.  The result is a
    function of the input alone: equal inputs give equal results. *)
Theorem parse_resume_total (raw : pystr) :
  (exists headline bio skills experience education,
      _parse_resume_text raw
      = Ok (mk_result headline bio skills experience education)
      /\ dom (mk_result headline bio skills experience education)
         = ({[ "headline"; "bio"; "skills"; "experience"; "education" ]}
             : gset string)%string)
  /\ (forall raw', raw' = raw -> _parse_resume_text raw' = _parse_resume_text raw).
Proof.
  split.
  - eexists _, _, _, _, _. split; [apply parse_resume_eq | apply dom_mk_result].
  - intros raw' ->. reflexivity.
Qed.

Lemma parse_resume_total_witness :
  _parse_resume_text (py "Jane Doe") = _parse_resume_text (py "Jane Doe").
Proof.
  exact (proj2 (parse_resume_total (py "Jane Doe")) (py "Jane Doe") eq_refl).
Defined.

Lemma jane_doe_lines (rest : pystr) :
  spec_non_empty_lines
    (py "Jane Doe" ++ [LF] ++ py "Senior Engineer" ++ [LF] ++ rest)
  = py "Jane Doe" :: py "Senior Engineer" :: spec_non_empty_lines rest.
Proof.
  unfold spec_non_empty_lines.
  replace (py "Jane Doe" ++ [LF] ++ py "Senior Engineer" ++ [LF] ++ rest)
    with (py "Jane Doe" ++ LF :: (py "Senior Engineer" ++ LF :: rest))
    by reflexivity.
  rewrite split_app_sep by reflexivity.
  rewrite split_app_sep by reflexivity.
  reflexivity.
Qed.

(** C5.  The headline of the result is the second entry of the non-empty
    lines of the input (each line stripped) whenever there are at least
    two, and the empty string otherwise; an input that begins
    ["Jane Doe\nSenior Engineer\n"] has headline ["Senior Engineer"],
    whatever follows. *)
Theorem headline_is_second_non_empty_line (raw : pystr) :
  (exists r, _parse_resume_text raw = Ok r
             /\ field r "headline"
                = Some (PStr match spec_non_empty_lines raw with
                             | _ :: second_line :: _ => second_line
                             | _ => []
                             end))
  /\ (forall rest, exists r,
        _parse_resume_text
          (py "Jane Doe" ++ [LF] ++ py "Senior Engineer" ++ [LF] ++ rest) = Ok r
        /\ field r "headline" = Some (PStr (py "Senior Engineer"))).
Proof.
  split.
  - eexists. split; [apply parse_resume_eq|].
    rewrite field_headline, non_empty_lines_agree. reflexivity.
  - intros rest. eexists. split; [apply parse_resume_eq|].
    rewrite field_headline, non_empty_lines_agree, jane_doe_lines. reflexivity.
Qed.

(** *** Headings *)

(** A match consumes a prefix of the subject: the pattern is tried at the
    start of the line and nowhere else. *)
Lemma star_run_suffix (p : N -> bool) (s rest : pystr) :
  In rest (star_run p s) -> exists pre, s = pre ++ rest.
Proof.
  induction s as [|x s IH]; simpl.
  - intros [<-|[]]. now exists [].
  - destruct (p x).
    + rewrite in_app_iff. intros [Hin|[<-|[]]].
      * destruct (IH Hin) as [pre ->]. now exists (x :: pre).
      * now exists [].
    + intros [<-|[]]. now exists [].
Qed.

Lemma run_suffix (r : regex) (s rest : pystr) :
  In rest (run r s) -> exists pre, s = pre ++ rest.
Proof.
  revert s rest. induction r as [|c|p|r IH|r1 IH1 r2 IH2|r1 IH1 r2 IH2];
    intros s rest; simpl.
  - intros [<-|[]]. now exists [].
  - destruct s as [|x s]; [intros []|].
    destruct (ci_match c x); [|intros []].
    intros [<-|[]]. now exists [x].
  - apply star_run_suffix.
  - rewrite in_app_iff. intros [Hin|[<-|[]]]; [now apply IH | now exists []].
  - rewrite in_flat_map. intros (mid & Hmid & Hin).
    destruct (IH1 _ _ Hmid) as [pre1 ->].
    destruct (IH2 _ _ Hin) as [pre2 ->].
    exists (pre1 ++ pre2). now rewrite app_assoc.
  - rewrite in_app_iff. intros [Hin|Hin]; [now apply IH1 | now apply IH2].
Qed.

(** A keyword of a pattern matches exactly the subjects that begin with
    it, character by character under [ci_match]. *)
Lemma run_letters (l : pystr) (s rest : pystr) :
  In rest (run (foldr (fun c r => Cat (Chr c) r) Eps l) s)
  <-> exists pre, s = pre ++ rest
                  /\ Forall2 (fun c x => ci_match c x = true) l pre.
Proof.
  revert s. induction l as [|c l IH]; intros s; cbn [foldr run].
  - split.
    + intros [<-|[]]. exists []. split; [reflexivity | constructor].
    + intros (pre & -> & Hpre). inversion Hpre. now left.
  - destruct s as [|x s]; cbn [flat_map].
    + split; [intros []|]. intros (pre & Hs & Hpre).
      inversion Hpre; subst. discriminate.
    + destruct (ci_match c x) eqn:E; cbn [flat_map].
      * rewrite app_nil_r, IH. split.
        -- intros (pre & -> & Hpre). exists (x :: pre). split; [reflexivity|].
           now constructor.
        -- intros (pre & Hs & Hpre). inversion Hpre as [|c' x' l' pre' Hx Hl]; subst.
           injection Hs as <- ->. eauto.
      * split; [intros []|]. intros (pre & Hs & Hpre).
        inversion Hpre as [|c' x' l' pre' Hx Hl]; subst.
        injection Hs as <- ->. congruence.
Qed.

Lemma run_word (w : string) (s rest : pystr) :
  In rest (run (word w) s)
  <-> exists pre, s = pre ++ rest
                  /\ Forall2 (fun c x => ci_match c x = true) (py w) pre.
Proof. apply run_letters. Qed.

Example heading_upper_case :
  match_heading section_patterns (py "EXPERIENCE") = Some "experience"%string.
Proof. vm_compute. reflexivity. Qed.

Example heading_two_words :
  match_heading section_patterns (py "Work   History:") = Some "experience"%string.
Proof. vm_compute. reflexivity. Qed.

Example heading_long_s :
  match_heading section_patterns ([383] ++ py "kills") = Some "skills"%string.
Proof. vm_compute. reflexivity. Qed.

Example keyword_not_at_start :
  match_heading section_patterns (py "My experience") = None.
Proof. vm_compute. reflexivity. Qed.

Example keyword_in_long_line :
  match_heading section_patterns long_line = None
  /\ re_match experience_pat long_line = true.
Proof. split; vm_compute; reflexivity. Qed.

Lemma re_match_run (r : regex) (s : pystr) :
  re_match r s = true -> exists rest, In rest (run r s).
Proof.
  unfold re_match. destruct (run r s) as [|rest l]; [discriminate|].
  intros _. exists rest. now left.
Qed.

Lemma match_heading_some (pats : list (string * regex)) (s : pystr) (sec : string) :
  match_heading pats s = Some sec ->
  exists pat, In (sec, pat) pats /\ re_match pat s = true /\ (length s < 60)%nat.
Proof.
  induction pats as [|[sec' pat'] pats IH]; simpl; [discriminate|].
  destruct (re_match pat' s && (length s <? 60)%nat) eqn:E.
  - intros [= <-]. apply andb_prop in E as [E1 E2].
    apply Nat.ltb_lt in E2. exists pat'. auto.
  - intros Hm. destruct (IH Hm) as (pat & Hin & Hp). exists pat. auto.
Qed.

Lemma match_heading_long (pats : list (string * regex)) (s : pystr) :
  (60 <= length s)%nat -> match_heading pats s = None.
Proof.
  intros Hlen. induction pats as [|[sec pat] pats IH]; simpl; [reflexivity|].
  replace (length s <? 60)%nat with false
    by (symmetry; apply Nat.ltb_ge; exact Hlen).
  now rewrite andb_false_r.
Qed.

Lemma bucket_setdefault (sections : gmap string (list pystr)) (sec key : string) :
  bucket (setdefault sections sec []).1 key = bucket sections key.
Proof.
  unfold setdefault, bucket.
  destruct (sections !! sec) as [x|] eqn:E; simpl; [reflexivity|].
  destruct (decide (sec = key)) as [->|Hne].
  - now rewrite lookup_insert_eq, E.
  - now rewrite lookup_insert_ne.
Qed.

Lemma step_heading sections current line sec :
  match_heading section_patterns (strip line) = Some sec ->
  step (sections, current) line = ((setdefault sections sec []).1, sec).
Proof. intros Hm. unfold step. now rewrite Hm. Qed.

Lemma step_text sections current line :
  match_heading section_patterns (strip line) = None ->
  step (sections, current) line
  = (<[current := bucket sections current ++ [strip line]]> sections, current).
Proof.
  intros Hm. unfold step, setdefault, bucket. rewrite Hm.
  destruct (sections !! current) as [x|]; simpl; [reflexivity|].
  now rewrite insert_insert_eq.
Qed.

(** C3.  For one round of the line loop, on any section table and cursor:
    if the stripped line is taken for the heading of [sec], then the
    pattern of [sec] matches a prefix of it (ignoring case), it has fewer
    than 60 characters, the cursor moves to [sec] and no section's
    accumulated lines change (the heading is appended nowhere); and a
    stripped line of 60 characters or more is never a heading, whatever
    keyword it holds: the cursor stays and the line goes to the current
    section. *)
Theorem heading_needs_match_and_short_line
    (sections : gmap string (list pystr)) (current : string) (line : pystr) :
  (forall sec,
      match_heading section_patterns (strip line) = Some sec ->
      (exists pat matched rest,
          In (sec, pat) section_patterns
          /\ re_match pat (strip line) = true
          /\ strip line = matched ++ rest /\ In rest (run pat (strip line)))
      /\ (length (strip line) < 60)%nat
      /\ (step (sections, current) line).2 = sec
      /\ forall key, bucket (step (sections, current) line).1 key
                     = bucket sections key)
  /\ ((60 <= length (strip line))%nat ->
      match_heading section_patterns (strip line) = None
      /\ step (sections, current) line
         = (<[current := bucket sections current ++ [strip line]]> sections,
            current)).
Proof.
  split.
  - intros sec Hm.
    destruct (match_heading_some _ _ _ Hm) as (pat & Hin & Hre & Hlen).
    destruct (re_match_run _ _ Hre) as [rest Hrest].
    destruct (run_suffix _ _ _ Hrest) as [matched Hs].
    rewrite (step_heading _ _ _ _ Hm). cbn [fst snd].
    repeat split; [|exact Hlen|].
    + exists pat, matched, rest. auto.
    + intros key. apply bucket_setdefault.
  - intros Hlen. pose proof (match_heading_long section_patterns _ Hlen) as Hn.
    split; [exact Hn | now apply step_text].
Qed.

Lemma heading_needs_match_and_short_line_witness :
  (match_heading section_patterns (strip (py "  EXPERIENCE ")) = Some "experience"%string
   /\ (length (strip (py "  EXPERIENCE ")) < 60)%nat
   /\ (step (one_header, "header"%string) (py "  EXPERIENCE ")).2 = "experience"%string
   /\ bucket (step (one_header, "header"%string) (py "  EXPERIENCE ")).1 "header" = [])
  /\ ((60 <= length (strip long_line))%nat
      /\ step (one_header, "header"%string) long_line
         = (<["header"%string := [long_line]]> one_header, "header"%string)).
Proof.
  assert (H1 : match_heading section_patterns (strip (py "  EXPERIENCE "))
               = Some "experience"%string) by (vm_compute; reflexivity).
  assert (H2 : (60 <= length (strip long_line))%nat) by (vm_compute; lia).
  split.
  - destruct (heading_needs_match_and_short_line one_header "header"
                (py "  EXPERIENCE ")) as [Hh _].
    destruct (Hh _ H1) as (_ & Hlen & Hcur & Hb).
    split; [exact H1|]. split; [exact Hlen|]. split; [exact Hcur|].
    exact (Hb "header"%string).
  - destruct (heading_needs_match_and_short_line one_header "header" long_line)
      as [_ Hl].
    split; [exact H2|]. exact (proj2 (Hl H2)).
Defined.

(** *** Skills *)

Lemma split_runs_in_run (cls : N -> bool) (cur s : pystr) :
  exists run rest,
    s = run ++ rest /\ forallb cls run = true
    /\ match rest with c :: _ => cls c = false | [] => True end
    /\ split_runs cls true cur s = split_runs cls false cur rest.
Proof.
  induction s as [|c s IH].
  - exists [], []. simpl. auto.
  - destruct (cls c) eqn:Hc.
    + destruct IH as (run & rest & -> & Hrun & Hrest & Heq).
      exists (c :: run), rest. simpl. rewrite Hc, Hrun. auto.
    + exists [], (c :: s). simpl. rewrite Hc. auto.
Qed.

Lemma split_runs_spec (cls : N -> bool) (n : nat) :
  forall s cur,
    (length s <= n)%nat ->
    forallb (fun c => negb (cls c)) cur = true ->
    splits_at_runs cls (cur ++ s) (split_runs cls false cur s).
Proof.
  induction n as [|n IH]; intros s cur Hlen Hcur.
  - destruct s; [|simpl in Hlen; lia].
    rewrite app_nil_r. simpl. now constructor.
  - destruct s as [|c s].
    + rewrite app_nil_r. simpl. now constructor.
    + simpl in Hlen. simpl. destruct (cls c) eqn:Hc.
      * destruct (split_runs_in_run cls [] s) as (run & rest & -> & Hrun & Hrest & ->).
        change (cur ++ c :: run ++ rest) with (cur ++ (c :: run) ++ rest).
        constructor; [exact Hcur | discriminate | | exact Hrest |].
        -- simpl. now rewrite Hc, Hrun.
        -- apply (IH rest []); [|reflexivity].
           rewrite length_app in Hlen. lia.
      * replace (cur ++ c :: s) with ((cur ++ [c]) ++ s)
          by now rewrite <- app_assoc.
        apply IH; [lia|].
        rewrite forallb_app, Hcur. simpl. now rewrite Hc.
Qed.

Lemma re_split_spec (cls : N -> bool) (s : pystr) :
  splits_at_runs cls s (re_split_class_plus cls s).
Proof. apply (split_runs_spec cls (length s) s []); [lia | reflexivity]. Qed.

Lemma is_skill_delim_spec (c : N) :
  is_skill_delim c = true
  <-> c = 44 \/ c = 8226 \/ c = 183 \/ c = 124 \/ c = 59 \/ c = LF.
Proof.
  unfold is_skill_delim, LF. rewrite !orb_true_iff, !N.eqb_eq. tauto.
Qed.

(** C4.  The [skills] field is obtained from the accumulated text of the
    skills section by cutting it at the maximal runs of the delimiters
    comma, bullet, middle dot, pipe, semicolon and newline, trimming each
    piece and keeping, in order and with repetitions, the trimmed pieces
    that are non-empty and shorter than 50 characters.  A skills section
    reading ["Python, Go; Rust|C++"] gives [Python], [Go], [Rust], [C++]
    in that order, and a repeated skill is kept twice. *)
Theorem skills_split_on_delimiter_runs (raw : pystr) :
  (exists r pieces skills,
      _parse_resume_text raw = Ok r
      /\ splits_at_runs is_skill_delim (section_text raw "skills") pieces
      /\ field r "skills" = Some (PList skills)
      /\ skills = strip <$> List.filter
                    (fun f => truthy (strip f) && (length (strip f) <? 50)%nat)
                    pieces
      /\ forall x, In x skills
                   <-> exists f, In f pieces /\ x = strip f
                                 /\ x <> [] /\ (length x < 50)%nat)
  /\ (forall c, is_skill_delim c = true
                <-> c = 44 \/ c = 8226 \/ c = 183 \/ c = 124 \/ c = 59 \/ c = LF)
  /\ (exists r, _parse_resume_text skills_example = Ok r
                /\ field r "skills"
                   = Some (PList [py "Python"; py "Go"; py "Rust"; py "C++"]))
  /\ split_skills (py "Python, Go; Rust|C++")
     = [py "Python"; py "Go"; py "Rust"; py "C++"]
  /\ split_skills (py "Go, Rust, Go") = [py "Go"; py "Rust"; py "Go"].
Proof.
  split; [|split; [|split; [|split]]].
  - eexists _, _, _. split; [apply parse_resume_eq|].
    split; [apply re_split_spec|]. rewrite field_skills.
    split; [reflexivity|]. split; [reflexivity|].
    intros x. unfold split_skills, keep_skills.
    rewrite <- list_elem_of_In, list_elem_of_fmap. split.
    + intros (f & -> & Hf). apply list_elem_of_In, filter_In in Hf as [Hin Hk].
      apply andb_prop in Hk as [Ht Hl]. apply Nat.ltb_lt in Hl.
      exists f. repeat split; [exact Hin | | exact Hl].
      intros E. rewrite E in Ht. discriminate.
    + intros (f & Hin & -> & Hne & Hl). exists f. split; [reflexivity|].
      apply list_elem_of_In, filter_In. split; [exact Hin|].
      apply andb_true_intro. split; [|now apply Nat.ltb_lt].
      destruct (strip f); [contradiction | reflexivity].
  - apply is_skill_delim_spec.
  - eexists. split; [apply parse_resume_eq|].
    rewrite field_skills. vm_compute. reflexivity.
  - vm_compute. reflexivity.
  - vm_compute. reflexivity.
Qed.

End ResumeFacts.

(** ** The retry wrapper *)

Module RetryFacts.
Import Retry RetrySpec PyStrFacts.

Lemma calls_app (t u : list event) : calls (t ++ u) = (calls t + calls u)%nat.
Proof. unfold calls. now rewrite List.filter_app, length_app. Qed.

Lemma sleeps_app (t u : list event) : sleeps (t ++ u) = sleeps t ++ sleeps u.
Proof. unfold sleeps. apply omap_app. Qed.

Section Wrapper.
Context `{UnicodeData} {Prompt Response : Type} `{LLMClient Prompt Response}.

Lemma invoke_eq (w : world) (prompt : Prompt) s' o :
  ainvoke (service w) prompt = (s', o) ->
  invoke w prompt = ({| service := s'; trace := trace w ++ [EvInvoke] |}, o).
Proof. intros E. unfold invoke. now rewrite E. Qed.

Lemma invoke_trace (w w' : world) (prompt : Prompt) o :
  invoke w prompt = (w', o) -> trace w' = trace w ++ [EvInvoke].
Proof.
  unfold invoke. destruct (ainvoke (service w) prompt) as [s' o'].
  intros [= <- _]. reflexivity.
Qed.

(** Whatever the service does, a run of the loop with [rounds] rounds
    left makes one call more than it sleeps, and its sleeps are the
    first waits of the schedule. *)
Lemma retry_loop_trace (prompt : Prompt) (retries : nat) :
  forall rounds attempt w w' o,
    retry_loop prompt retries attempt rounds w = (w', o) ->
    exists t, trace w' = trace w ++ t
              /\ calls t = S (length (sleeps t))
              /\ sleeps t `prefix_of` backoff attempt rounds.
Proof.
  induction rounds as [|rounds IH]; intros attempt w w' o; simpl.
  - intros E. exists [EvInvoke]. split; [now apply invoke_trace in E|].
    split; [reflexivity|]. apply prefix_nil.
  - destruct (invoke w prompt) as [w1 [r|msg]] eqn:E1.
    + intros [= <- <-]. exists [EvInvoke].
      split; [now apply invoke_trace in E1|].
      split; [reflexivity|]. apply prefix_nil.
    + destruct (is_rate_limit msg).
      * intros E. apply IH in E as (t & Ht & Hc & Hs).
        apply invoke_trace in E1.
        exists ([EvInvoke; EvWarn (N.of_nat attempt + 1) (N.of_nat retries)
                            (2 ^ N.of_nat attempt);
                 EvSleep (2 ^ N.of_nat attempt)] ++ t).
        split.
        { rewrite Ht. cbn [emit trace]. rewrite E1.
          now rewrite <- !app_assoc. }
        split.
        { rewrite calls_app, sleeps_app, Hc. reflexivity. }
        rewrite sleeps_app. unfold backoff. cbn [seq fmap list_fmap].
        change (sleeps [EvInvoke; EvWarn (N.of_nat attempt + 1) (N.of_nat retries)
                                   (2 ^ N.of_nat attempt);
                        EvSleep (2 ^ N.of_nat attempt)])
          with [2 ^ N.of_nat attempt].
        apply (prefix_cons (2 ^ N.of_nat attempt)). exact Hs.
      * intros [= <- <-]. exists [EvInvoke].
        split; [now apply invoke_trace in E1|].
        split; [reflexivity|]. apply prefix_nil.
Qed.

Lemma retry_round (prompt : Prompt) (retries attempt rounds : nat)
    (w w1 : world) (msg : pystr) :
  invoke w prompt = (w1, Raises msg) -> is_rate_limit msg = true ->
  retry_loop prompt retries attempt (S rounds) w
  = retry_loop prompt retries (S attempt) rounds
      (emit (EvSleep (2 ^ N.of_nat attempt))
         (emit (EvWarn (N.of_nat attempt + 1) (N.of_nat retries)
                  (2 ^ N.of_nat attempt)) w1)).
Proof. intros E R. cbn [retry_loop]. now rewrite E, R. Qed.

(** C2, as the code has it.  When the service fails four calls in a row
    and the first three failures read as rate limits, the wrapper makes
    exactly four calls (the three guarded ones and the one after the
    loop), waits 1, 2 and 4 seconds after the first three, and surfaces
    the fourth outcome; and whatever the service does, a run never makes
    more than four calls, makes one call more than it waits, and its
    waits are the first of 1, 2, 4 seconds. *)
Theorem rate_limited_four_calls (prompt : Prompt) (w : world)
    (s1 s2 s3 s4 : llm_state) (m1 m2 m3 m4 : pystr) :
  ainvoke (service w) prompt = (s1, Raises m1) -> is_rate_limit m1 = true ->
  ainvoke s1 prompt = (s2, Raises m2) -> is_rate_limit m2 = true ->
  ainvoke s2 prompt = (s3, Raises m3) -> is_rate_limit m3 = true ->
  ainvoke s3 prompt = (s4, Raises m4) ->
  _invoke_with_retry prompt w
  = ({| service := s4;
        trace := trace w ++ [EvInvoke; EvWarn 1 3 1; EvSleep 1;
                             EvInvoke; EvWarn 2 3 2; EvSleep 2;
                             EvInvoke; EvWarn 3 3 4; EvSleep 4;
                             EvInvoke] |},
     Raises m4)
  /\ (forall w0 w' o,
         _invoke_with_retry prompt w0 = (w', o) ->
         exists t, trace w' = trace w0 ++ t
                   /\ (calls t <= 4)%nat
                   /\ calls t = S (length (sleeps t))
                   /\ sleeps t `prefix_of` [1; 2; 4]).
Proof.
  intros E1 R1 E2 R2 E3 R3 E4. split.
  - unfold _invoke_with_retry, _invoke_with_retry_n.
    rewrite (retry_round prompt 3 0 2 w _ _ (invoke_eq w prompt _ _ E1) R1).
    match goal with |- retry_loop _ _ _ _ ?w1 = _ =>
      rewrite (retry_round prompt 3 1 1 w1 _ _ (invoke_eq w1 prompt s2 _ E2) R2)
    end.
    match goal with |- retry_loop _ _ _ _ ?w2 = _ =>
      rewrite (retry_round prompt 3 2 0 w2 _ _ (invoke_eq w2 prompt s3 _ E3) R3)
    end.
    cbn [retry_loop].
    match goal with |- invoke ?w3 _ = _ =>
      rewrite (invoke_eq w3 prompt s4 _ E4)
    end.
    cbn [emit trace service]. rewrite <- !app_assoc. reflexivity.
  - intros w0 w' o E. apply retry_loop_trace in E as (t & Ht & Hc & Hs).
    exists t. split; [exact Ht|]. split; [|split; [exact Hc | exact Hs]].
    apply prefix_length in Hs. rewrite Hc.
    change (length (backoff 0 3)) with 3%nat in Hs. lia.
Qed.

(** C6.  A failure whose lowered message holds none of ["429"],
    ["resource exhausted"] and ["rate"] ends the wrapper at once: the
    result is that failure, and after the raising call the wrapper makes
    no call, logs nothing and does not sleep.  This holds for the first
    call of [_invoke_with_retry] and for the call of any later round. *)
Theorem other_failure_not_retried (prompt : Prompt) (w : world)
    (s' : llm_state) (msg : pystr) :
  ainvoke (service w) prompt = (s', Raises msg) ->
  contains (py "429") (lower msg) = false ->
  contains (py "resource exhausted") (lower msg) = false ->
  contains (py "rate") (lower msg) = false ->
  _invoke_with_retry prompt w
  = ({| service := s'; trace := trace w ++ [EvInvoke] |}, Raises msg)
  /\ forall retries attempt rounds,
       retry_loop prompt retries attempt rounds w
       = ({| service := s'; trace := trace w ++ [EvInvoke] |}, Raises msg).
Proof.
  intros E H1 H2 H3.
  assert (Hrl : is_rate_limit msg = false).
  { unfold is_rate_limit. now rewrite H1, H2, H3. }
  assert (Hloop : forall retries attempt rounds,
             retry_loop prompt retries attempt rounds w
             = ({| service := s'; trace := trace w ++ [EvInvoke] |}, Raises msg)).
  { intros retries attempt [|rounds]; cbn [retry_loop];
      rewrite (invoke_eq w prompt _ _ E); [reflexivity|].
    now rewrite Hrl. }
  split; [apply Hloop | exact Hloop].
Qed.

End Wrapper.

Lemma rate_limited_four_calls_witness :
  @_invoke_with_retry ascii_only pystr pystr (always_raises too_many)
    (py "hello") (@initial pystr pystr (always_raises too_many) tt)
  = (@Build_world pystr pystr (always_raises too_many) tt
       [EvInvoke; EvWarn 1 3 1; EvSleep 1;
        EvInvoke; EvWarn 2 3 2; EvSleep 2;
        EvInvoke; EvWarn 3 3 4; EvSleep 4;
        EvInvoke],
     Raises too_many).
Proof.
  refine (proj1 (@rate_limited_four_calls ascii_only pystr pystr
                   (always_raises too_many) (py "hello")
                   (@initial pystr pystr (always_raises too_many) tt)
                   tt tt tt tt too_many too_many too_many too_many
                   _ _ _ _ _ _ _));
    vm_compute; reflexivity.
Defined.

(** C2, as the specification states it, fails: against a service that answers
    every call with a 429 the wrapper makes four calls and waits three
    times, not three calls with waits of 1 and 2 seconds. *)
Lemma three_calls_refuted :
  @is_rate_limit ascii_only too_many = true
  /\ calls (trace run_against_429.1) = 4%nat
  /\ sleeps (trace run_against_429.1) = [1; 2; 4]
  /\ ~ three_calls_two_waits (trace run_against_429.1).
Proof.
  split; [vm_compute; reflexivity|].
  split; [vm_compute; reflexivity|].
  split; [vm_compute; reflexivity|].
  intros [Hc _]. vm_compute in Hc. lia.
Qed.

Lemma other_failure_not_retried_witness :
  @_invoke_with_retry ascii_only pystr pystr (always_raises invalid_argument)
    (py "hello") (@initial pystr pystr (always_raises invalid_argument) tt)
  = (@Build_world pystr pystr (always_raises invalid_argument) tt [EvInvoke],
     Raises invalid_argument).
Proof.
  refine (proj1 (@other_failure_not_retried ascii_only pystr pystr
                   (always_raises invalid_argument) (py "hello")
                   (@initial pystr pystr (always_raises invalid_argument) tt)
                   tt invalid_argument _ _ _ _));
    vm_compute; reflexivity.
Defined.

End RetryFacts.

(** ** The interview session *)

Module InterviewFacts.
Import Interview InterviewSpec PyStrFacts.

Lemma strip_all_space (s : pystr) : forallb is_space s = true -> strip s = [].
Proof. intros Hs. unfold strip. now rewrite lstrip_all_space. Qed.

Section Session.
Context `{LLMClient (list message) pystr}.

(** C7.  A [user_transcript] object whose transcript is empty or made
    of whitespace only leaves the whole session as it was: nothing is
    sent, nothing logged, no turn appended, the counter unchanged, the
    service not called; the loop goes on with the next frame. *)
Theorem blank_transcript_ignored (text : pystr) (st : session)
    (inbox : list inbound) :
  forallb is_space text = true ->
  on_frame {| f_type := Some (JStr (py "user_transcript"));
              f_transcript := Some (JStr text) |} st = Ok st
  /\ handle_user_message (user_transcript text :: inbox) st
     = handle_user_message inbox st.
Proof.
  intros Hs.
  assert (E : on_frame {| f_type := Some (JStr (py "user_transcript"));
                          f_transcript := Some (JStr text) |} st = Ok st).
  { unfold on_frame. cbn [f_type f_transcript].
    rewrite eqb_refl. cbn [res_bind]. now rewrite (strip_all_space _ Hs). }
  split; [exact E|].
  unfold user_transcript. cbn [handle_user_message]. now rewrite E.
Qed.

End Session.

Lemma blank_transcript_ignored_witness :
  forallb is_space (py "   ") = true
  /\ @handle_user_message (always_returns (py "Thanks."))
       [user_transcript (py "   ")]
       (@accepted (always_returns (py "Thanks.")) no_personality backend_role tt)
     = @accepted (always_returns (py "Thanks.")) no_personality backend_role tt.
Proof.
  split; [reflexivity|].
  exact (proj2 (@blank_transcript_ignored (always_returns (py "Thanks."))
                  (py "   ")
                  (@accepted (always_returns (py "Thanks.")) no_personality
                     backend_role tt)
                  [] eq_refl)).
Defined.

Section Answers.
Context `{LLMClient (list message) pystr}.

(** *** Runs in which every call to the service succeeds *)

Lemma invoke_frame (st st1 : session) (o : outcome pystr) :
  invoke st = (st1, o) ->
  sent st1 = sent st /\ question_count st1 = question_count st
  /\ conversation_history st1 = conversation_history st
  /\ logged st1 = logged st.
Proof.
  unfold invoke.
  destruct (ainvoke (service st) (conversation_history st)) as [s' o'].
  intros [= <- _]. cbn. auto.
Qed.

Lemma invoke_returns (st : session) :
  (forall s h, exists s' r, ainvoke s h = (s', Returns r)) ->
  exists st1 r, invoke st = (st1, Returns r).
Proof.
  intros Hok. unfold invoke.
  destruct (Hok (service st) (conversation_history st)) as (s' & r & ->).
  eauto.
Qed.

(** A reply that leaves the counter below 5: one frame. *)
Lemma reply_open (st : session) :
  (forall s h, exists s' r, ainvoke s h = (s', Returns r)) ->
  (question_count st + 1 < 5)%Z ->
  exists r, sent (reply st) = sent st ++ [OutAiResponse r true]
            /\ question_count (reply st) = (question_count st + 1)%Z.
Proof.
  intros Hok Hlt. unfold reply.
  destruct (invoke_returns st Hok) as (st1 & r & E). rewrite E.
  destruct (invoke_frame _ _ _ E) as (Hs & Hq & _).
  cbn [question_count send_json append count_up]. rewrite Hq.
  destruct (5 <=? question_count st + 1)%Z eqn:E5;
    [apply Z.leb_le in E5; lia|].
  exists (strip r). cbn. rewrite Hs, Hq. auto.
Qed.

(** A reply that brings the counter to 5 or beyond: the reply, the
    closing reply and the end frame. *)
Lemma reply_closing (st : session) :
  (forall s h, exists s' r, ainvoke s h = (s', Returns r)) ->
  (5 <= question_count st + 1)%Z ->
  exists r c, sent (reply st)
              = sent st ++ [OutAiResponse r true; OutAiResponse c true;
                            OutInterviewEnd (py "Interview complete.")]
              /\ question_count (reply st) = (question_count st + 1)%Z.
Proof.
  intros Hok Hge. unfold reply.
  destruct (invoke_returns st Hok) as (st1 & r & E). rewrite E.
  destruct (invoke_frame _ _ _ E) as (Hs & Hq & _).
  cbn [question_count send_json append count_up]. rewrite Hq.
  destruct (5 <=? question_count st + 1)%Z eqn:E5;
    [|apply Z.leb_gt in E5; lia].
  match goal with |- context [invoke ?st2] =>
    destruct (invoke_returns st2 Hok) as (st3 & c & E');
    rewrite E'; destruct (invoke_frame _ _ _ E') as (Hs' & Hq' & _)
  end.
  exists (strip r), (strip c). cbn. rewrite Hs', Hq'. cbn.
  rewrite Hs, Hq, <- !app_assoc. auto.
Qed.

Lemma handle_answer (text : pystr) (inbox : list inbound) (st : session) :
  truthy (strip text) = true ->
  handle_user_message (user_transcript text :: inbox) st
  = handle_user_message inbox (reply (append (HumanMessage (strip text)) st)).
Proof.
  intros Ht. unfold user_transcript. cbn [handle_user_message on_frame f_type f_transcript].
  rewrite eqb_refl. cbn [res_bind]. now rewrite Ht.
Qed.

Lemma greet_ok (st : session) :
  (forall s h, exists s' r, ainvoke s h = (s', Returns r)) ->
  exists g, sent (greet st) = sent st ++ [OutAiResponse g true]
            /\ question_count (greet st) = (question_count st + 1)%Z.
Proof.
  intros Hok. unfold greet.
  destruct (invoke_returns (append (HumanMessage greeting_prompt) st) Hok)
    as (st1 & r & E). rewrite E.
  destruct (invoke_frame _ _ _ E) as (Hs & Hq & _).
  exists (strip r). cbn. now rewrite Hs, Hq.
Qed.

(** C1, as the code has it.  On a fresh connection, when every call to
    the service succeeds and the candidate sends four non-empty
    transcripts, the browser receives the [connected] frame, six
    [ai_response] frames (the greeting, the four replies, and the
    closing reply, the fourth transcript yielding two of them) and then
    one [interview_end] frame, and nothing else; the counter, which the
    greeting already set to 1, stands at 5. *)
Theorem interview_ends_after_four_answers
    (personality : pystr -> option pystr) (init : init_data)
    (s0 : llm_state) (t1 t2 t3 t4 : pystr) :
  (forall s h, exists s' r, ainvoke s h = (s', Returns r)) ->
  truthy (strip t1) = true -> truthy (strip t2) = true ->
  truthy (strip t3) = true -> truthy (strip t4) = true ->
  let final :=
    interview_websocket personality init s0
      [user_transcript t1; user_transcript t2;
       user_transcript t3; user_transcript t4] in
  (exists g r1 r2 r3 r4 c,
      sent final
      = [OutConnected; OutAiResponse g true;
         OutAiResponse r1 true; OutAiResponse r2 true;
         OutAiResponse r3 true; OutAiResponse r4 true;
         OutAiResponse c true;
         OutInterviewEnd (py "Interview complete.")])
  /\ question_count final = 5%Z.
Proof.
  intros Hok H1 H2 H3 H4. cbv zeta. unfold interview_websocket.
  set (st0 := accepted personality init s0).
  destruct (greet_ok st0 Hok) as (g & Sg & Qg).
  change (sent st0) with [OutConnected] in Sg.
  change (question_count st0) with 0%Z in Qg.
  rewrite (handle_answer t1 _ _ H1).
  set (a1 := append (HumanMessage (strip t1)) (greet st0)).
  destruct (reply_open a1 Hok) as (r1 & S1 & Q1);
    [change (question_count a1) with (question_count (greet st0)); lia|].
  change (sent a1) with (sent (greet st0)) in S1.
  change (question_count a1) with (question_count (greet st0)) in Q1.
  rewrite (handle_answer t2 _ _ H2).
  set (a2 := append (HumanMessage (strip t2)) (reply a1)).
  destruct (reply_open a2 Hok) as (r2 & S2 & Q2);
    [change (question_count a2) with (question_count (reply a1)); lia|].
  change (sent a2) with (sent (reply a1)) in S2.
  change (question_count a2) with (question_count (reply a1)) in Q2.
  rewrite (handle_answer t3 _ _ H3).
  set (a3 := append (HumanMessage (strip t3)) (reply a2)).
  destruct (reply_open a3 Hok) as (r3 & S3 & Q3);
    [change (question_count a3) with (question_count (reply a2)); lia|].
  change (sent a3) with (sent (reply a2)) in S3.
  change (question_count a3) with (question_count (reply a2)) in Q3.
  rewrite (handle_answer t4 _ _ H4).
  set (a4 := append (HumanMessage (strip t4)) (reply a3)).
  destruct (reply_closing a4 Hok) as (r4 & c & S4 & Q4);
    [change (question_count a4) with (question_count (reply a3)); lia|].
  change (sent a4) with (sent (reply a3)) in S4.
  change (question_count a4) with (question_count (reply a3)) in Q4.
  cbn [handle_user_message]. split.
  - exists g, r1, r2, r3, r4, c.
    rewrite S4, S3, S2, S1, Sg. reflexivity.
  - lia.
Qed.

End Answers.

Lemma interview_ends_after_four_answers_witness :
  sent (@interview_websocket (always_returns (py "Thanks.")) no_personality
          backend_role tt four_answers)
  = [OutConnected; OutAiResponse (py "Thanks.") true;
     OutAiResponse (py "Thanks.") true; OutAiResponse (py "Thanks.") true;
     OutAiResponse (py "Thanks.") true; OutAiResponse (py "Thanks.") true;
     OutAiResponse (py "Thanks.") true;
     OutInterviewEnd (py "Interview complete.")]
  /\ question_count (@interview_websocket (always_returns (py "Thanks."))
                       no_personality backend_role tt four_answers) = 5%Z.
Proof.
  pose proof (@interview_ends_after_four_answers (always_returns (py "Thanks."))
                no_personality backend_role tt
                (py "one") (py "two") (py "three") (py "four")
                (fun s h => ex_intro _ s (ex_intro _ (py "Thanks.") eq_refl))
                eq_refl eq_refl eq_refl eq_refl) as [_ Hq].
  split; [vm_compute; reflexivity | exact Hq].
Defined.

(** C1, as the specification states it, fails: after five answers the stream
    holds eight [ai_response] frames and two [interview_end] frames, the
    interview having been closed on the fourth answer and closed again on
    the fifth. *)
Lemma five_answers_refuted :
  sent five_answer_session
  = [OutConnected; OutAiResponse (py "Thanks.") true;
     OutAiResponse (py "Thanks.") true; OutAiResponse (py "Thanks.") true;
     OutAiResponse (py "Thanks.") true; OutAiResponse (py "Thanks.") true;
     OutAiResponse (py "Thanks.") true;
     OutInterviewEnd (py "Interview complete.");
     OutAiResponse (py "Thanks.") true; OutAiResponse (py "Thanks.") true;
     OutInterviewEnd (py "Interview complete.")]
  /\ count_ai (sent five_answer_session) = 8%nat
  /\ count_end (sent five_answer_session) = 2%nat
  /\ ~ six_replies_then_one_end (sent five_answer_session).
Proof.
  split; [vm_compute; reflexivity|].
  split; [vm_compute; reflexivity|].
  split; [vm_compute; reflexivity|].
  intros [Hc _]. vm_compute in Hc. discriminate.
Qed.

End InterviewFacts.

(** ** The record store *)

Module StoreFacts.
Import Store StoreSpec PyStrFacts.

(** *** Tables *)

Lemma first_update_first {A} (p : A -> bool) (f : A -> A) (rows : list A) (a : A) :
  first p rows = Some a -> p (f a) = true ->
  first p (update_first p f rows) = Some (f a).
Proof.
  unfold first. induction rows as [|r rows IH]; simpl; [discriminate|].
  destruct (p r) eqn:E.
  - intros [= ->] Hf. simpl. now rewrite Hf.
  - intros Hfind Hf. simpl. rewrite E. now apply IH.
Qed.

Lemma first_fmap {A} (p : A -> bool) (g : A -> A) (rows : list A) :
  (forall x, p (g x) = p x) ->
  first p (g <$> rows) = g <$> first p rows.
Proof.
  intros Hp. unfold first. induction rows as [|r rows IH]; simpl; [reflexivity|].
  rewrite Hp. destruct (p r); [reflexivity | exact IH].
Qed.

Lemma in_update_first {A} (p : A -> bool) (f : A -> A) (rows : list A) (x : A) :
  In x (update_first p f rows) -> In x rows \/ exists r, In r rows /\ x = f r.
Proof.
  induction rows as [|r rows IH]; simpl; [tauto|].
  destruct (p r); simpl.
  - intros [<-|Hin]; [right; exists r; auto | auto].
  - intros [<-|Hin]; [auto|].
    destruct (IH Hin) as [?|(r' & ? & ?)]; [auto|]. right. exists r'. auto.
Qed.

(** *** Cleaning the model's answer *)

Lemma split_once_second (s : pystr) :
  contains [LF] s = true -> exists a b, split_once LF s = [a; b].
Proof.
  induction s as [|c s IH]; [discriminate|].
  cbn [contains startswith split_once]. rewrite (N.eqb_sym LF c).
  destruct (c =? LF) eqn:E.
  - intros _. eauto.
  - cbn [andb orb]. intros Hc. destruct (IH Hc) as (a & b & ->). eauto.
Qed.

(** The subscript [[1]] of the fence branch never raises. *)
Lemma clean_content_total (body : pystr) : exists c, clean_content body = Ok c.
Proof.
  unfold clean_content.
  destruct (startswith fence (strip body)); cbn [res_bind]; [|eauto].
  destruct (contains [LF] (strip body)) eqn:E; cbn [res_bind]; [|eauto].
  destruct (split_once_second _ E) as (a & b & ->). cbn. eauto.
Qed.

Example fence_only_is_empty : clean_content (py "```") = Ok [].
Proof. vm_compute. reflexivity. Qed.

Example document_brackets_only_is_empty :
  clean_content (py "\begin{document} \end{document}") = Ok [].
Proof. vm_compute. reflexivity. Qed.

(** *** Résumé generation *)

Section Generation.
Context `{UnicodeData} `{LLMClient pystr pystr}.

Lemma tailor_resume_failed (t : task) (d : db) (w w1 : Retry.world)
    (o : outcome pystr) :
  Retry._invoke_with_retry
    (resume_prompt (t_user_data t) (t_job_title t) (t_description t)) w = (w1, o) ->
  (content_of o w1).2 = [] ->
  (tailor_resume true t (d, w)).1 = d.
Proof.
  intros E Hc. unfold tailor_resume. cbn [negb]. rewrite E.
  destruct (content_of o w1) as [w2 content]. cbn in Hc. now subst content.
Qed.

Lemma tailor_resume_done (t : task) (d : db) (w w1 : Retry.world)
    (body content : pystr) :
  Retry._invoke_with_retry
    (resume_prompt (t_user_data t) (t_job_title t) (t_description t)) w
  = (w1, Returns body) ->
  clean_content body = Ok content -> content <> [] ->
  forall a, find_application (t_app_id t) d = Some a ->
            status_of (t_app_id t) (tailor_resume true t (d, w)).1 = Some (py "ready").
Proof.
  intros E Hc Hne a Ha. unfold tailor_resume. cbn [negb]. rewrite E.
  unfold content_of. rewrite Hc.
  destruct content as [|c content]; [contradiction|]. cbn [truthy negb fst].
  unfold status_of, find_application. cbn [applications with_applications].
  erewrite first_update_first; [reflexivity | exact Ha|].
  cbn [a_id]. unfold find_application, first in Ha.
  apply find_some in Ha as [_ Ha]. exact Ha.
Qed.

Lemma content_of_failed (o : outcome pystr) (w : Retry.world) :
  (exists msg, o = Raises msg)
  \/ (exists body, o = Returns body /\ clean_content body = Ok []) ->
  (content_of o w).2 = [].
Proof.
  intros [(msg & ->)|(body & -> & Hc)]; unfold content_of;
    [reflexivity | now rewrite Hc].
Qed.

Lemma tailor_resume_never_saves (configured : bool) (t : task) (st : state)
    (a : Application) :
  In a (applications (tailor_resume configured t st).1) ->
  a_status a = py "saved" -> In a (applications st.1).
Proof.
  destruct st as [d w]. unfold tailor_resume.
  destruct configured; cbn [negb]; [|auto].
  destruct (Retry._invoke_with_retry _ w) as [w1 o].
  destruct (content_of o w1) as [w2 content].
  destruct (truthy content); cbn [negb fst]; [|auto].
  cbn [applications with_applications].
  intros Hin Hs. apply in_update_first in Hin as [Hin|(r & Hr & ->)];
    [exact Hin|].
  cbn [a_status] in Hs. discriminate.
Qed.

Lemma generate_resume_started (app_id user_id answer : pystr) (d0 d : db)
    (t : option task) :
  generate_resume true app_id user_id d0 = (d, Respond (answer, t)) ->
  answer = py "Resume generation started." ->
  status_of app_id d = Some (py "processing")
  /\ resume_of app_id d = resume_of app_id d0
  /\ exists a, find_application app_id d0 = Some a
               /\ t = Some {| t_app_id := app_id;
                              t_job_title := a_job_title a;
                              t_description := a_description a;
                              t_user_data :=
                                user_data_of
                                  <$> first (fun u => eqb (u_id u) user_id) (users d0) |}.
Proof.
  unfold generate_resume, status_of, resume_of, find_application.
  destruct (first (fun a => eqb (a_id a) app_id) (applications d0)) as [a|] eqn:Ha;
    [|discriminate].
  destruct (eqb (a_status a) (py "processing") && truthy_col (a_tailored_resume a)).
  - intros [= <- <- <-] Habs. vm_compute in Habs. discriminate.
  - cbn [negb]. intros [= <- <- <-] _.
    cbn [applications with_applications users].
    assert (Hid : eqb (a_id a) app_id = true).
    { unfold first in Ha. now apply find_some in Ha as [_ Ha]. }
    erewrite first_update_first; [|exact Ha|exact Hid].
    cbn. eauto.
Qed.

Lemma regenerate_stuck (app_id user_id : pystr) (d : db) (a : Application) :
  find_application app_id d = Some a -> is_stuck a = true ->
  exists d' t,
    generate_resume true app_id user_id d
    = (d', Respond (py "Resume generation started.", Some t))
    /\ t_app_id t = app_id
    /\ exists a', find_application app_id d' = Some a'.
Proof.
  intros Ha Hs. unfold generate_resume. unfold find_application in Ha. rewrite Ha.
  unfold is_stuck in Hs. apply andb_prop in Hs as [Hp Hr].
  assert (Hcol : truthy_col (a_tailored_resume a) = false).
  { destruct (a_tailored_resume a) as [r|]; [|reflexivity].
    apply eqb_eq in Hr. now subst r. }
  rewrite Hp, Hcol. cbn [andb negb].
  eexists _, _. split; [reflexivity|]. split; [reflexivity|].
  unfold find_application. cbn [applications with_applications].
  eexists. apply first_update_first; [exact Ha|].
  cbn [a_id]. unfold first in Ha. now apply find_some in Ha as [_ Ha].
Qed.

End Generation.

Lemma reset_recovers_stuck (app_id : pystr) (d : db) (a : Application) :
  find_application app_id d = Some a -> is_stuck a = true ->
  status_of app_id (_reset_stuck_processing d) = Some (py "saved").
Proof.
  intros Ha Hs. unfold status_of, find_application, _reset_stuck_processing.
  cbn [applications with_applications].
  rewrite first_fmap.
  - unfold find_application in Ha. rewrite Ha. cbn. now rewrite Hs.
  - intros x. destruct (is_stuck x); reflexivity.
Qed.

Section GenerationClaims.
Context `{UnicodeData} `{LLMClient pystr pystr}.

(** C9, as the code has it.  When the call made by [tailor_resume],
    retries included, ends in a failure, or its answer is empty once
    fences and document brackets are removed, the function writes
    nothing to the store.  So after the trigger that scheduled the task
    the application is still [processing] and its [tailored_resume] is
    what it was before the trigger; no run of [tailor_resume] ever sets
    a status to [saved].  A row that is [processing] with an empty
    résumé is set to [saved] by the reset at startup, and it is also
    accepted by [generate_resume] again, after which a non-empty answer
    sets it to [ready]. *)
Theorem failed_tailoring_writes_nothing (t : task) (d : db)
    (w w1 : Retry.world) (o : outcome pystr) :
  Retry._invoke_with_retry
    (resume_prompt (t_user_data t) (t_job_title t) (t_description t)) w = (w1, o) ->
  (exists msg, o = Raises msg)
  \/ (exists body, o = Returns body /\ clean_content body = Ok []) ->
  (tailor_resume true t (d, w)).1 = d
  /\ (forall app_id user_id d0,
         generate_resume true app_id user_id d0
         = (d, Respond (py "Resume generation started.", Some t)) ->
         status_of app_id (tailor_resume true t (d, w)).1 = Some (py "processing")
         /\ resume_of app_id (tailor_resume true t (d, w)).1 = resume_of app_id d0)
  /\ (forall configured t' st a,
         In a (applications (tailor_resume configured t' st).1) ->
         a_status a = py "saved" -> In a (applications st.1))
  /\ (forall app_id a,
         find_application app_id d = Some a -> is_stuck a = true ->
         status_of app_id (_reset_stuck_processing d) = Some (py "saved")
         /\ forall user_id, exists d' t',
             generate_resume true app_id user_id d
             = (d', Respond (py "Resume generation started.", Some t'))
             /\ forall w2 w3 body content,
                  Retry._invoke_with_retry
                    (resume_prompt (t_user_data t') (t_job_title t')
                       (t_description t')) w2
                  = (w3, Returns body) ->
                  clean_content body = Ok content -> content <> [] ->
                  status_of app_id (tailor_resume true t' (d', w2)).1
                  = Some (py "ready")).
Proof.
  intros E Ho.
  assert (Hd : (tailor_resume true t (d, w)).1 = d).
  { apply (tailor_resume_failed t d w w1 o E). now apply content_of_failed. }
  split; [exact Hd|]. split; [|split].
  - intros app_id user_id d0 Hg. rewrite Hd.
    destruct (generate_resume_started _ _ _ _ _ _ Hg eq_refl) as (Hs & Hr & _).
    auto.
  - apply tailor_resume_never_saves.
  - intros app_id a Ha Hs. split; [now apply (reset_recovers_stuck app_id d a)|].
    intros user_id.
    destruct (regenerate_stuck app_id user_id d a Ha Hs)
      as (d' & t' & Hg & Hid & a' & Ha').
    exists d', t'. split; [exact Hg|].
    intros w2 w3 body content E' Hc Hne. rewrite <- Hid.
    apply (tailor_resume_done t' d' w2 w3 body content E' Hc Hne a').
    now rewrite Hid.
Qed.

End GenerationClaims.

Lemma failed_tailoring_writes_nothing_witness :
  (@tailor_resume RetrySpec.ascii_only
     (RetrySpec.always_raises RetrySpec.invalid_argument) true stuck_task
     (stuck_db,
      @Retry.initial pystr pystr
        (RetrySpec.always_raises RetrySpec.invalid_argument) tt)).1
  = stuck_db.
Proof.
  refine (proj1 (@failed_tailoring_writes_nothing RetrySpec.ascii_only
                   (RetrySpec.always_raises RetrySpec.invalid_argument)
                   stuck_task stuck_db
                   (@Retry.initial pystr pystr
                      (RetrySpec.always_raises RetrySpec.invalid_argument) tt)
                   (@Retry.Build_world pystr pystr
                      (RetrySpec.always_raises RetrySpec.invalid_argument) tt
                      [Retry.EvInvoke])
                   (Raises RetrySpec.invalid_argument) _ _)).
  - vm_compute. reflexivity.
  - left. exists RetrySpec.invalid_argument. reflexivity.
Defined.

(** C9, as the specification states it, fails.  The first generation of a saved
    application fails and leaves it [processing] with an empty résumé;
    the user triggers generation again, the service answers, and the row
    is [ready]: it left [processing] without the reset at startup. *)
Lemma stuck_row_recovers_without_reset :
  status_of (py "app-1") first_generation.1 = Some (py "processing")
  /\ resume_of (py "app-1") first_generation.1 = Some (Some [])
  /\ status_of (py "app-1") second_generation.1 = Some (py "ready")
  /\ ~ remains_processing (py "app-1") second_generation.1.
Proof.
  split; [vm_compute; reflexivity|].
  split; [vm_compute; reflexivity|].
  split; [vm_compute; reflexivity|].
  unfold remains_processing. vm_compute. discriminate.
Qed.

(** *** Job-match notifications *)

Section Jobs.
Context `{UnicodeData} `{Runtime}.

Lemma notify_seeker_adds (req : PostJobRequest) (tags : gset pystr)
    (d : db) (seeker : User) :
  users (notify_seeker req tags d seeker) = users d
  /\ exists new, notifications (notify_seeker req tags d seeker)
                 = notifications d ++ new
                 /\ Forall (fun n => n_user_id n = u_id seeker) new.
Proof.
  unfold notify_seeker. case_bool_decide.
  - split; [reflexivity|]. eexists [_]. split; [reflexivity|].
    constructor; [reflexivity | constructor].
  - split; [reflexivity|]. exists []. rewrite app_nil_r. split; [reflexivity|].
    constructor.
Qed.

Lemma notify_fold (req : PostJobRequest) (tags : gset pystr) (seekers : list User) :
  forall d,
    exists new, notifications (foldl (notify_seeker req tags) d seekers)
                = notifications d ++ new
                /\ Forall (fun n => exists u, In u seekers /\ n_user_id n = u_id u) new.
Proof.
  induction seekers as [|u seekers IH]; intros d; cbn [foldl].
  - exists []. rewrite app_nil_r. split; [reflexivity | constructor].
  - destruct (notify_seeker_adds req tags d u) as (_ & new1 & E1 & F1).
    destruct (IH (notify_seeker req tags d u)) as (new2 & E2 & F2).
    exists (new1 ++ new2). split; [now rewrite E2, E1, app_assoc|].
    apply Forall_app. split.
    + eapply Forall_impl; [exact F1|]. intros n Hn. exists u. split; [now left | exact Hn].
    + eapply Forall_impl; [exact F2|]. intros n (u' & Hin & Hn).
      exists u'. split; [now right | exact Hn].
Qed.

(** Every notification that [hr_post_job] creates is addressed to a
    user whose role is exactly ["seeker"]. *)
Lemma hr_post_job_notifies_seekers_only (req : PostJobRequest) (d : db) :
  exists new, notifications (hr_post_job req d).1 = notifications d ++ new
              /\ Forall (fun n => exists u, In u (users d)
                                            /\ u_role u = py "seeker"
                                            /\ n_user_id n = u_id u) new.
Proof.
  unfold hr_post_job.
  assert (Hnone : exists new, notifications d = notifications d ++ new
            /\ Forall (fun n => exists u, In u (users d)
                                          /\ u_role u = py "seeker"
                                          /\ n_user_id n = u_id u) new).
  { exists []. rewrite app_nil_r. split; [reflexivity | constructor]. }
  destruct (first _ (users d)) as [user|]; [|exact Hnone].
  destruct (negb (eqb (u_role user) (py "hr"))); [exact Hnone|].
  cbn [fst]. case_bool_decide; [|exact Hnone].
  match goal with |- context [foldl ?f ?d0 ?l] =>
    destruct (notify_fold req (lower_set (default [] (pj_tags req))) l d0)
      as (new & E & F)
  end.
  exists new. split; [exact E|].
  eapply Forall_impl; [exact F|]. intros n (u & Hin & Hn).
  apply filter_In in Hin as [Hin Hrole]. apply eqb_eq in Hrole.
  exists u. cbn [users with_hr_jobs draw] in Hin. auto.
Qed.

(** A user whose role is not ["seeker"], such as the documented roles
    ["user"] and ["hr"], receives nothing from [hr_post_job]. *)
Lemma other_roles_not_notified (req : PostJobRequest) (d : db) (user_id : pystr) :
  (forall u, In u (users d) -> u_id u = user_id -> u_role u <> py "seeker") ->
  notifications_for user_id (hr_post_job req d).1 = notifications_for user_id d.
Proof.
  intros Hrole. unfold notifications_for.
  destruct (hr_post_job_notifies_seekers_only req d) as (new & -> & F).
  rewrite List.filter_app.
  replace (List.filter (fun n => eqb (n_user_id n) user_id) new) with (@nil Notification);
    [now rewrite app_nil_r|].
  symmetry. induction F as [|n new (u & Hin & Hr & Hn) F IH]; [reflexivity|].
  cbn [List.filter]. destruct (eqb (n_user_id n) user_id) eqn:E; [|exact IH].
  apply eqb_eq in E. exfalso. apply (Hrole u Hin); congruence.
Qed.

(** [register] stores the role of the request as it comes. *)
Lemma register_stores_role (req : RegisterRequest) (d : db) :
  first (fun u => eqb (u_email u) (rr_email req)) (users d) = None ->
  exists u, users (register req d).1 = users d ++ [u]
            /\ u_role u = request_role req /\ u_email u = rr_email req.
Proof.
  intros Hnew. unfold register. rewrite Hnew. cbn. eauto.
Qed.

End Jobs.

(** C10 fails on the code: [register] accepts the role ["seeker"], and the
    user so registered, once the profile lists a skill that a posted job
    tags, receives a job-match notification. *)
Theorem registered_seeker_is_notified :
  (exists sam, users after_posting !! 0%nat = Some sam
               /\ u_id sam = py "u0" /\ u_role sam = py "seeker")
  /\ (n_user_id <$> notifications after_posting = [py "u0"])
  /\ (n_title <$> notifications_for (py "u0") after_posting
      = [py "New job match: Backend Engineer"]).
Proof.
  split; [|split].
  - eexists. split; [vm_compute; reflexivity|]. split; vm_compute; reflexivity.
  - vm_compute. reflexivity.
  - vm_compute. reflexivity.
Qed.

End StoreFacts.

(** ** Further properties of the résumé segmenter *)

Module ResumeMore.
Import Resume ResumeSpec MoreSpec PyStrFacts ResumeFacts.

(** *** Trimming *)

Lemma lstrip_starts_visible (s : pystr) : starts_visible (lstrip s).
Proof.
  induction s as [|c s IH]; simpl; [exact I|].
  destruct (is_space c) eqn:E; [exact IH | exact E].
Qed.

Lemma rstrip_cons_visible (c : N) (t : pystr) :
  is_space c = false -> rstrip (c :: t) = c :: rstrip t.
Proof.
  intros Hc. unfold rstrip. cbn [rev].
  induction (rev t) as [|x r IH]; cbn [app lstrip].
  - now rewrite Hc.
  - destruct (is_space x); [exact IH|]. cbn [rev].
    now rewrite rev_app_distr.
Qed.

Lemma strip_trimmed (s : pystr) : trimmed (strip s).
Proof.
  split.
  - unfold strip. pose proof (lstrip_starts_visible s) as Hv.
    destruct (lstrip s) as [|c t]; [exact I|].
    cbn in Hv. rewrite rstrip_cons_visible by exact Hv. exact Hv.
  - unfold strip, rstrip. rewrite rev_involutive. apply lstrip_starts_visible.
Qed.

Lemma in_lstrip (x : N) (s : pystr) : In x (lstrip s) -> In x s.
Proof.
  induction s as [|c s IH]; simpl; [tauto|].
  destruct (is_space c); [auto | simpl; tauto].
Qed.

Lemma in_strip (x : N) (s : pystr) : In x (strip s) -> In x s.
Proof.
  unfold strip, rstrip. intros Hin.
  apply in_rev, in_lstrip in Hin. apply in_rev in Hin. now apply in_lstrip.
Qed.

Lemma second_forall (P : pystr -> Prop) (ls : list pystr) :
  P [] -> Forall P ls -> P (second ls).
Proof.
  intros H0 Hf. destruct Hf as [|a ls Ha Hf]; [exact H0|].
  destruct Hf as [|b ls Hb Hf]; [exact H0 | exact Hb].
Qed.

Lemma trimmed_nil : trimmed [].
Proof. split; exact I. Qed.

Lemma section_text_trimmed (raw : pystr) (key : string) :
  trimmed (section_text raw key).
Proof.
  unfold section_text, section_texts. rewrite lookup_fmap.
  destruct ((walk (lines_of raw)).1 !! key); cbn; [apply strip_trimmed | apply trimmed_nil].
Qed.

(** A piece of [split] holds no separator. *)
Lemma split_pieces_clean (sep : N) (s : pystr) :
  Forall (fun piece => ~ In sep piece) (split sep s).
Proof.
  induction s as [|c s IH]; cbn [split].
  - constructor; [intros [] | constructor].
  - destruct (c =? sep) eqn:E.
    + constructor; [intros [] | exact IH].
    + destruct (split sep s) as [|l ls]; [constructor; [|constructor]|].
      * intros [<-|[]]. now rewrite N.eqb_refl in E.
      * inversion IH as [|? ? Hl Hls]; subst. constructor; [|exact Hls].
        intros [<-|Hin]; [now rewrite N.eqb_refl in E | contradiction].
Qed.

(** X1: the text fields of every result are trimmed, and the headline is a
    single line. *)
Theorem text_fields_trimmed (raw : pystr) :
  exists headline bio skills experience education,
    _parse_resume_text raw = Ok (mk_result headline bio skills experience education)
    /\ trimmed headline /\ ~ In LF headline
    /\ trimmed bio /\ trimmed experience /\ trimmed education.
Proof.
  eexists _, _, _, _, _. split; [apply parse_resume_eq|].
  split; [|split; [|repeat split; apply section_text_trimmed]].
  - apply second_forall; [apply trimmed_nil|].
    unfold non_empty_of. apply Forall_fmap, Forall_forall.
    intros l _. apply strip_trimmed.
  - apply (second_forall (fun l => ~ In LF l)); [intros []|].
    unfold non_empty_of. apply Forall_fmap, Forall_forall.
    intros l Hl Hin. apply list_elem_of_In, filter_In in Hl as [Hl _].
    pose proof (split_pieces_clean LF (strip raw)) as Hc.
    rewrite Forall_forall in Hc. apply (Hc l); [now apply list_elem_of_In|].
    now apply in_strip.
Qed.

(** *** Skills *)

Lemma splits_pieces_clean (cls : N -> bool) (s : pystr) (pieces : list pystr) :
  splits_at_runs cls s pieces ->
  Forall (fun piece => forall c, In c piece -> cls c = false) pieces.
Proof.
  assert (Hclean : forall f, forallb (fun c => negb (cls c)) f = true ->
                             forall c, In c f -> cls c = false).
  { intros f Hf c Hin. rewrite forallb_forall in Hf.
    apply negb_true_iff. apply Hf. exact Hin. }
  induction 1 as [f Hf|f run rest pieces Hf _ _ _ _ IH].
  - constructor; [now apply Hclean | constructor].
  - constructor; [now apply Hclean | exact IH].
Qed.

(** X2: every entry of [skills] is non-empty, shorter than 50 characters,
    trimmed, and free of the six delimiters. *)
Theorem skills_are_clean (raw : pystr) :
  exists headline bio skills experience education,
    _parse_resume_text raw = Ok (mk_result headline bio skills experience education)
    /\ Forall (fun skill =>
                 skill <> [] /\ (length skill < 50)%nat /\ trimmed skill
                 /\ forall c, In c skill -> is_skill_delim c = false) skills.
Proof.
  eexists _, _, _, _, _. split; [apply parse_resume_eq|].
  unfold split_skills, keep_skills. apply Forall_fmap, Forall_forall.
  intros f Hf. apply list_elem_of_In, filter_In in Hf as [Hin Hk].
  apply andb_prop in Hk as [Ht Hl]. apply Nat.ltb_lt in Hl. cbn.
  split; [intros E; rewrite E in Ht; discriminate|].
  split; [exact Hl|]. split; [apply strip_trimmed|].
  intros c Hc. apply in_strip in Hc.
  pose proof (splits_pieces_clean _ _ _
                (re_split_spec is_skill_delim (section_text raw "skills"))) as Hp.
  rewrite Forall_forall in Hp. apply (Hp f); [now apply list_elem_of_In | exact Hc].
Qed.

Lemma skills_are_clean_witness :
  exists headline bio skills experience education,
    _parse_resume_text skills_example
    = Ok (mk_result headline bio skills experience education)
    /\ Forall (fun skill => skill <> [] /\ (length skill < 50)%nat) skills.
Proof.
  destruct (skills_are_clean skills_example) as (h & b & s & e & ed & E & F).
  exists h, b, s, e, ed. split; [exact E|].
  eapply Forall_impl; [exact F|]. intros x (H1 & H2 & _). split; assumption.
Defined.

(** *** Inputs without headings *)

Lemma walk_no_heading (lines : list pystr) :
  Forall (fun line => match_heading section_patterns (strip line) = None) lines ->
  forall sections current,
    (foldl step (sections, current) lines).2 = current
    /\ forall key, key <> current ->
                   (foldl step (sections, current) lines).1 !! key = sections !! key.
Proof.
  induction 1 as [|line lines Hl _ IH]; intros sections current; cbn [foldl].
  - auto.
  - rewrite (step_text _ _ _ Hl).
    destruct (IH (<[current := bucket sections current ++ [strip line]]> sections)
                current) as [Hc Hk].
    split; [exact Hc|]. intros key Hne. rewrite (Hk key Hne).
    now apply lookup_insert_ne.
Qed.

Lemma section_text_no_heading (raw : pystr) (key : string) :
  Forall (fun line => match_heading section_patterns (strip line) = None)
    (lines_of raw) ->
  key <> "header"%string -> section_text raw key = [].
Proof.
  intros Hl Hne. unfold section_text, section_texts, walk.
  rewrite lookup_fmap.
  destruct (walk_no_heading _ Hl {["header"%string := []]} "header"%string) as [_ Hk].
  rewrite (Hk key Hne), lookup_singleton_ne by congruence. reflexivity.
Qed.

(** X3: when no line of the input is taken for a heading, everything but the
    headline is empty: the text all sits in the [header] bucket, which the
    result does not read. *)
Theorem no_heading_only_headline (raw : pystr) :
  Forall (fun line => match_heading section_patterns (strip line) = None)
    (lines_of raw) ->
  _parse_resume_text raw
  = Ok (mk_result (second (spec_non_empty_lines raw)) [] [] [] []).
Proof.
  intros Hl. rewrite parse_resume_eq, non_empty_lines_agree.
  rewrite !(section_text_no_heading raw) by (exact Hl || discriminate).
  reflexivity.
Qed.

Lemma no_heading_only_headline_witness :
  _parse_resume_text (py "Jane Doe" ++ [LF] ++ py "Senior Engineer" ++ [LF]
                      ++ py "Ten years of Python and Go.")
  = Ok (mk_result (py "Senior Engineer") [] [] [] []).
Proof.
  refine (no_heading_only_headline
            (py "Jane Doe" ++ [LF] ++ py "Senior Engineer" ++ [LF]
             ++ py "Ten years of Python and Go.") _).
  vm_compute. repeat constructor.
Defined.

(** X4: an input that is empty or made of whitespace only gives the result
    with every field empty. *)
Theorem blank_input_empty_result (raw : pystr) :
  forallb is_space raw = true ->
  _parse_resume_text raw = Ok (mk_result [] [] [] [] []).
Proof.
  intros Hs. unfold _parse_resume_text.
  rewrite (InterviewFacts.strip_all_space raw Hs). vm_compute. reflexivity.
Qed.

Lemma blank_input_empty_result_witness :
  _parse_resume_text ([LF] ++ py "   " ++ [9; LF]) = Ok (mk_result [] [] [] [] []).
Proof. apply blank_input_empty_result. reflexivity. Defined.

(** *** The section table *)

Lemma match_heading_names (s : pystr) (sec : string) :
  match_heading section_patterns s = Some sec -> In sec section_names.
Proof.
  intros Hm. apply match_heading_some in Hm as (pat & Hin & _).
  cbn in Hin. cbn.
  destruct Hin as [E|[E|[E|[E|[]]]]]; injection E as <- _; tauto.
Qed.

Lemma step_keeps_table (st : gmap string (list pystr) * string) (line : pystr) :
  table_ok st -> table_ok (step st line).
Proof.
  destruct st as [sections current]. unfold table_ok. cbn [fst snd].
  intros (Hc & Hcur & Hh & Hkeys). unfold step.
  destruct (match_heading section_patterns (strip line)) as [sec|] eqn:Hm.
  - pose proof (match_heading_names _ _ Hm) as Hsec.
    unfold setdefault. destruct (sections !! sec) as [x|] eqn:Es; cbn [fst snd].
    + split; [exact Hsec|]. split; [now rewrite Es|]. auto.
    + split; [exact Hsec|]. split; [now rewrite lookup_insert_eq|].
      split.
      * destruct (decide (sec = "header"%string)) as [->|Hne];
          [now rewrite lookup_insert_eq | now rewrite lookup_insert_ne].
      * intros key. destruct (decide (sec = key)) as [<-|Hne];
          [auto | rewrite lookup_insert_ne by exact Hne; auto].
  - unfold setdefault. destruct (sections !! current) as [x|] eqn:Es; cbn [fst snd].
    + split; [exact Hc|]. split; [now rewrite lookup_insert_eq|].
      split.
      * destruct (decide (current = "header"%string)) as [->|Hne];
          [now rewrite lookup_insert_eq | now rewrite lookup_insert_ne].
      * intros key. destruct (decide (current = key)) as [<-|Hne];
          [auto | rewrite lookup_insert_ne by exact Hne; auto].
    + destruct Hcur as [? Hcur]. congruence.
Qed.

(** X5: throughout the walk the cursor names a section that is present in
    the table, the [header] bucket is present, and the table holds no key
    besides [header] and the four section names. *)
Theorem walk_keeps_section_table (lines : list pystr) : table_ok (walk lines).
Proof.
  unfold walk.
  assert (Hinit : table_ok (({["header"%string := []]} : gmap string (list pystr)),
                            "header"%string)).
  { unfold table_ok. cbn [fst snd]. split; [cbn; tauto|].
    split; [now rewrite lookup_singleton_eq|].
    split; [now rewrite lookup_singleton_eq|].
    intros key [x Hx]. apply lookup_singleton_Some in Hx as [<- _]. cbn. tauto. }
  revert Hinit.
  generalize (({["header"%string := []]} : gmap string (list pystr)), "header"%string).
  induction lines as [|line lines IH]; intros st Hinv; cbn [foldl]; [exact Hinv|].
  apply IH. now apply step_keeps_table.
Qed.

(** *** Case of ASCII letters *)

Ltac split_tests :=
  repeat match goal with
         | |- context [(?a <=? ?b)] => destruct (N.leb_spec a b); try lia
         | |- context [(?a <? ?b)] => destruct (N.ltb_spec a b); try lia
         | |- context [(?a =? ?b)] => destruct (N.eqb_spec a b); try lia
         end.

Lemma is_space_lower (x : N) : is_space (ascii_lower x) = is_space x.
Proof.
  unfold ascii_lower.
  destruct (N.leb_spec 65 x); [destruct (N.leb_spec x 90)|]; cbn [andb];
    try reflexivity.
  unfold is_space. split_tests; reflexivity.
Qed.

Lemma ascii_lower_idem (x : N) : ascii_lower (ascii_lower x) = ascii_lower x.
Proof.
  unfold ascii_lower.
  destruct (N.leb_spec 65 x); [destruct (N.leb_spec x 90)|]; cbn [andb];
    split_tests; cbn [andb]; try reflexivity; split_tests; reflexivity.
Qed.

Lemma ascii_lower_range (x : N) :
  ascii_lower x = x \/ (x < 128 /\ ascii_lower x < 128).
Proof.
  unfold ascii_lower.
  destruct (N.leb_spec 65 x); [destruct (N.leb_spec x 90)|]; cbn [andb]; auto.
  right. lia.
Qed.

Lemma ci_match_lower (c x : N) : ci_match c (ascii_lower x) = ci_match c x.
Proof.
  unfold ci_match. generalize (ascii_lower c). intros lo.
  rewrite ascii_lower_idem.
  destruct (ascii_lower_range x) as [->|[Hx Ha]]; [reflexivity|].
  generalize dependent (ascii_lower x). intros a Ha.
  destruct (N.eqb_spec a lo); split_tests; reflexivity.
Qed.

Lemma star_run_lower (p : N -> bool) (s : pystr) :
  (forall x, p (ascii_lower x) = p x) ->
  star_run p (ascii_lower <$> s) = (fun m : pystr => ascii_lower <$> m) <$> star_run p s.
Proof.
  intros Hp. induction s as [|x s IH]; [reflexivity|].
  rewrite fmap_cons. cbn [star_run]. rewrite Hp.
  destruct (p x); [|reflexivity].
  now rewrite IH, fmap_app.
Qed.

Lemma flat_map_lower (g : pystr -> list pystr) (l : list pystr) :
  (forall m, g (ascii_lower <$> m) = (fun m : pystr => ascii_lower <$> m) <$> g m) ->
  flat_map g ((fun m : pystr => ascii_lower <$> m) <$> l) = (fun m : pystr => ascii_lower <$> m) <$> flat_map g l.
Proof.
  intros Hg. induction l as [|m l IH]; [reflexivity|].
  rewrite fmap_cons. cbn [flat_map]. now rewrite Hg, IH, fmap_app.
Qed.

Lemma run_lower (r : regex) :
  stars_blind r ->
  forall s, run r (ascii_lower <$> s) = (fun m : pystr => ascii_lower <$> m) <$> run r s.
Proof.
  induction r as [|c|p|r IH|r1 IH1 r2 IH2|r1 IH1 r2 IH2]; cbn [stars_blind];
    intros Hb s; cbn [run].
  - reflexivity.
  - destruct s as [|x s]; [reflexivity|].
    rewrite fmap_cons, ci_match_lower. destruct (ci_match c x); reflexivity.
  - now apply star_run_lower.
  - now rewrite IH, fmap_app.
  - destruct Hb as [Hb1 Hb2]. rewrite IH1 by exact Hb1.
    apply flat_map_lower. now apply IH2.
  - destruct Hb as [Hb1 Hb2]. now rewrite IH1, IH2, fmap_app.
Qed.

Lemma re_match_lower (r : regex) (s : pystr) :
  stars_blind r -> re_match r (ascii_lower <$> s) = re_match r s.
Proof.
  intros Hb. unfold re_match. rewrite run_lower by exact Hb.
  destruct (run r s); reflexivity.
Qed.

Lemma word_blind (w : string) : stars_blind (word w).
Proof. unfold word. induction (py w) as [|c l IH]; cbn; auto. Qed.

Lemma section_patterns_blind :
  Forall (fun sp => stars_blind sp.2) section_patterns.
Proof.
  repeat constructor; cbn [snd]; repeat (try apply word_blind; split);
    try apply word_blind; try exact I; exact is_space_lower.
Qed.

Lemma match_heading_lower (pats : list (string * regex)) (s : pystr) :
  Forall (fun sp => stars_blind sp.2) pats ->
  match_heading pats (ascii_lower <$> s) = match_heading pats s.
Proof.
  induction 1 as [|[sec pat] pats Hb _ IH]; [reflexivity|].
  cbn [match_heading]. cbn [snd] in Hb.
  now rewrite re_match_lower, length_fmap, IH.
Qed.

Lemma lstrip_lower (s : pystr) :
  lstrip (ascii_lower <$> s) = ascii_lower <$> lstrip s.
Proof.
  induction s as [|x s IH]; [reflexivity|].
  rewrite fmap_cons. cbn [lstrip]. rewrite is_space_lower.
  destruct (is_space x); [exact IH | now rewrite fmap_cons].
Qed.

Lemma fmap_rev_list (g : N -> N) (s : pystr) : g <$> rev s = rev (g <$> s).
Proof.
  induction s as [|x s IH]; [reflexivity|].
  rewrite fmap_cons. cbn [rev]. now rewrite fmap_app, IH.
Qed.

Lemma strip_lower (s : pystr) :
  strip (ascii_lower <$> s) = ascii_lower <$> strip s.
Proof.
  unfold strip, rstrip.
  now rewrite lstrip_lower, <- fmap_rev_list, lstrip_lower, fmap_rev_list.
Qed.

(** X6: whether a line is a heading, and of which section, does not depend
    on the case of its ASCII letters. *)
Theorem heading_ignores_case (line line' : pystr) :
  same_up_to_case line line' ->
  match_heading section_patterns (strip line)
  = match_heading section_patterns (strip line').
Proof.
  unfold same_up_to_case. intros Hc.
  rewrite <- (match_heading_lower _ (strip line) section_patterns_blind).
  rewrite <- (match_heading_lower _ (strip line') section_patterns_blind).
  now rewrite <- !strip_lower, Hc.
Qed.

Lemma heading_ignores_case_witness :
  same_up_to_case (py " Work History ") (py " WORK history ")
  /\ match_heading section_patterns (strip (py " Work History "))
     = match_heading section_patterns (strip (py " WORK history ")).
Proof.
  split; [reflexivity|].
  apply heading_ignores_case. reflexivity.
Defined.

End ResumeMore.

(** ** Further properties of the retry wrapper *)

Module RetryMore.
Import Retry RetrySpec RetryMoreSpec PyStrFacts RetryFacts.

Lemma sleeps_failed_rounds (retries k attempt : nat) :
  sleeps (failed_rounds retries attempt k) = backoff attempt k.
Proof.
  revert attempt. induction k as [|k IH]; intros attempt; [reflexivity|].
  cbn [failed_rounds]. rewrite sleeps_app, IH. reflexivity.
Qed.

Lemma calls_failed_rounds (retries k attempt : nat) :
  calls (failed_rounds retries attempt k) = k.
Proof.
  revert attempt. induction k as [|k IH]; intros attempt; [reflexivity|].
  cbn [failed_rounds]. rewrite calls_app, IH. reflexivity.
Qed.

(** *** Substrings *)

Lemma startswith_app (n y : pystr) : startswith n (n ++ y) = true.
Proof. induction n as [|c n IH]; [reflexivity|]. cbn. now rewrite N.eqb_refl. Qed.

Lemma contains_app (n x y : pystr) : contains n (x ++ n ++ y) = true.
Proof.
  induction x as [|c x IH].
  - cbn [app]. destruct (n ++ y) eqn:E; cbn [contains];
      rewrite <- E, startswith_app; reflexivity.
  - cbn [app contains]. rewrite IH. apply orb_true_r.
Qed.

Section Lowering.
Context `{UnicodeData}.

Lemma lower_from_app (whole a s : pystr) (i : nat) :
  lower_from whole i (a ++ s)
  = lower_from whole i a ++ lower_from whole (i + length a) s.
Proof.
  revert i. induction a as [|c a IH]; intros i.
  - cbn. now rewrite Nat.add_0_r.
  - cbn [app lower_from length]. rewrite IH, <- app_assoc.
    now replace (S i + length a)%nat with (i + S (length a))%nat by lia.
Qed.

Lemma lower_from_ascii (whole v : pystr) (i : nat) :
  Forall (fun c => c < 128) v -> lower_from whole i v = ascii_lower <$> v.
Proof.
  intros Hv. revert i. induction Hv as [|c v Hc _ IH]; intros i; [reflexivity|].
  cbn [lower_from]. rewrite fmap_cons, IH.
  apply N.ltb_lt in Hc. now rewrite Hc.
Qed.

Lemma ascii_of_lowered (v n : pystr) :
  ascii_lower <$> v = n -> Forall (fun c => c < 128) n ->
  Forall (fun c => c < 128) v.
Proof.
  intros <- Hn. induction v as [|c v IH]; [constructor|].
  rewrite fmap_cons in Hn. inversion Hn as [|? ? Hc Hv]; subst.
  constructor; [|now apply IH].
  unfold ascii_lower in Hc.
  destruct (N.leb_spec 65 c); [destruct (N.leb_spec c 90)|]; cbn [andb] in Hc; lia.
Qed.

(** X7: the test for a rate limit is a plain substring test that ignores the
    case of ASCII letters: a message that holds ["429"],
    ["resource exhausted"] or ["rate"] anywhere, in any case and inside any
    word, reads as a rate limit. *)
Theorem rate_limit_is_substring_test (needle before found after : pystr) :
  In needle needles ->
  ascii_lower <$> found = needle ->
  is_rate_limit (before ++ found ++ after) = true.
Proof.
  intros Hn Hf.
  assert (Hascii : Forall (fun c => c < 128) needle).
  { unfold needles in Hn. cbn [In] in Hn.
    destruct Hn as [<-|[<-|[<-|[]]]]; vm_compute; repeat constructor. }
  assert (Hl : contains needle (lower (before ++ found ++ after)) = true).
  { unfold lower. rewrite !lower_from_app.
    rewrite (lower_from_ascii _ found) by (eapply ascii_of_lowered; eauto).
    rewrite Hf. apply contains_app. }
  unfold is_rate_limit. unfold needles in Hn. cbn [In] in Hn.
  destruct Hn as [<-|[<-|[<-|[]]]]; rewrite Hl, ?orb_true_r; reflexivity.
Qed.

End Lowering.

Section Outcome.
Context `{UnicodeData} {Prompt Response : Type} `{LLMClient Prompt Response}.

Lemma retry_loop_outcome (prompt : Prompt) (retries k : nat) (s sk : llm_state) :
  rate_limited prompt k s sk ->
  forall (attempt rounds : nat) (w : world) (s' : llm_state) (o : outcome Response),
    service w = s -> (k <= rounds)%nat ->
    ainvoke sk prompt = (s', o) -> k = rounds \/ settles o ->
    retry_loop prompt retries attempt rounds w
    = ({| service := s';
          trace := trace w ++ failed_rounds retries attempt k ++ [EvInvoke] |}, o).
Proof.
  induction 1 as [s|k s s1 sk msg E R _ IH];
    intros attempt rounds w s' o Hw Hle Eo Hend; subst s.
  - cbn [failed_rounds app].
    destruct rounds as [|rounds]; cbn [retry_loop];
      rewrite (invoke_eq w prompt _ _ Eo); [reflexivity|].
    destruct Hend as [Hk|Hs]; [discriminate|].
    destruct o as [r|m]; [reflexivity|]. cbn in Hs. now rewrite Hs.
  - destruct rounds as [|rounds]; [lia|].
    rewrite (retry_round prompt retries attempt rounds w _ msg
               (invoke_eq w prompt _ _ E) R).
    rewrite (IH (S attempt) rounds _ s' o); [| reflexivity | lia | exact Eo |].
    + cbn [emit trace service failed_rounds]. now rewrite <- !app_assoc.
    + destruct Hend as [Hk|Hs]; [left; lia | now right].
Qed.

(** X8: what the wrapper returns, for any number of retries.  If the first
    [k] calls fail with rate-limit messages and the next call either does
    not (it returns, or fails otherwise) or is the call after the loop,
    then the wrapper surfaces the outcome of that call, having made [k + 1]
    calls and slept 1, 2, ..., [2 ^ (k - 1)] seconds between them. *)
Theorem wrapper_outcome (prompt : Prompt) (retries k : nat) (w : world)
    (sk s' : llm_state) (o : outcome Response) :
  (k <= retries)%nat ->
  rate_limited prompt k (service w) sk ->
  ainvoke sk prompt = (s', o) ->
  k = retries \/ settles o ->
  _invoke_with_retry_n prompt retries w
  = ({| service := s';
        trace := trace w ++ failed_rounds retries 0 k ++ [EvInvoke] |}, o)
  /\ calls (failed_rounds retries 0 k ++ [EvInvoke]) = S k
  /\ sleeps (failed_rounds retries 0 k ++ [EvInvoke]) = backoff 0 k.
Proof.
  intros Hle Hk Eo Hend. split; [|split].
  - unfold _invoke_with_retry_n.
    now apply (retry_loop_outcome prompt retries k (service w) sk Hk).
  - rewrite calls_app, calls_failed_rounds. cbn. lia.
  - rewrite sleeps_app, sleeps_failed_rounds. cbn. now rewrite app_nil_r.
Qed.

(** X9: for any number of retries [n] and any behaviour of the service, a
    run makes at most [n + 1] calls, one more than it sleeps, and its
    sleeps are the first of 1, 2, 4, ..., [2 ^ (n - 1)] seconds. *)
Theorem retry_budget (prompt : Prompt) (retries : nat) (w : world) :
  exists t,
    trace (_invoke_with_retry_n prompt retries w).1 = trace w ++ t
    /\ (calls t <= S retries)%nat
    /\ calls t = S (length (sleeps t))
    /\ sleeps t `prefix_of` backoff 0 retries.
Proof.
  unfold _invoke_with_retry_n.
  destruct (retry_loop prompt retries 0 retries w) as [w' o] eqn:E.
  apply retry_loop_trace in E as (t & Ht & Hc & Hs).
  exists t. split; [exact Ht|]. split; [|split; [exact Hc | exact Hs]].
  apply prefix_length in Hs. unfold backoff in Hs.
  rewrite length_fmap, length_seq in Hs. lia.
Qed.

End Outcome.

Lemma wrapper_outcome_witness :
  @_invoke_with_retry_n ascii_only pystr pystr limited_once (py "hello") 3
    (@initial pystr pystr limited_once false)
  = (@Build_world pystr pystr limited_once true
       [EvInvoke; EvWarn 1 3 1; EvSleep 1; EvInvoke],
     Returns (py "Hello.")).
Proof.
  refine (proj1 (@wrapper_outcome ascii_only pystr pystr limited_once
                   (py "hello") 3 1
                   (@initial pystr pystr limited_once false) true true
                   (Returns (py "Hello.")) _ _ _ _)).
  - lia.
  - eapply (@rl_more ascii_only pystr pystr limited_once (py "hello") 0
              false true true too_many);
      [reflexivity | vm_compute; reflexivity | constructor].
  - reflexivity.
  - right. exact I.
Defined.

Lemma rate_limit_is_substring_test_witness :
  @is_rate_limit ascii_only (py "Failed to geneRATE content") = true.
Proof.
  exact (@rate_limit_is_substring_test ascii_only (py "rate")
           (py "Failed to gene") (py "RATE") (py " content")
           (or_intror (or_intror (or_introl eq_refl))) eq_refl).
Defined.

End RetryMore.

(** ** Further properties of the interview session *)

Module InterviewMore.
Import Interview InterviewSpec InterviewMoreSpec PyStrFacts InterviewFacts.

Lemma assistant_turns_app (h1 h2 : list message) :
  assistant_turns (h1 ++ h2) = (assistant_turns h1 + assistant_turns h2)%nat.
Proof. unfold assistant_turns. now rewrite List.filter_app, length_app. Qed.

Lemma count_ai_app (o1 o2 : list out_event) :
  count_ai (o1 ++ o2) = (count_ai o1 + count_ai o2)%nat.
Proof. unfold count_ai. now rewrite List.filter_app, length_app. Qed.

Lemma count_end_app (o1 o2 : list out_event) :
  count_end (o1 ++ o2) = (count_end o1 + count_end o2)%nat.
Proof. unfold count_end. now rewrite List.filter_app, length_app. Qed.

Section Session.
Context `{LLMClient (list message) pystr}.

(** *** Failures of the service *)

(** X10: when the call for a user turn fails, the browser gets one [error]
    frame; the user turn stays in the history, the counter is unchanged,
    and the loop goes on with the next frame. *)
Theorem failed_turn_keeps_session (text : pystr) (st : session)
    (inbox : list inbound) (s' : llm_state) (msg : pystr) :
  truthy (strip text) = true ->
  ainvoke (service st) (conversation_history st ++ [HumanMessage (strip text)])
  = (s', Raises msg) ->
  let st' :=
    {| conversation_history := conversation_history st ++ [HumanMessage (strip text)];
       question_count := question_count st;
       sent := sent st ++ [OutError (py "Failed to get response from AI interviewer.")];
       logged := logged st ++ [py "Gemini error: " ++ msg];
       invocations := invocations st
                      ++ [conversation_history st ++ [HumanMessage (strip text)]];
       service := s' |} in
  handle_user_message (user_transcript text :: inbox) st
  = handle_user_message inbox st'.
Proof.
  intros Ht E. cbv zeta. rewrite (handle_answer text inbox st Ht).
  f_equal. unfold reply, invoke. cbn [append service conversation_history].
  rewrite E. reflexivity.
Qed.

(** *** What every session keeps *)

Lemma session_ok_extend (st st' : session) (extra : list message)
    (out : list out_event) :
  session_ok st ->
  conversation_history st' = conversation_history st ++ extra ->
  forallb (fun m => negb (is_system m)) extra = true ->
  question_count st' = (question_count st + Z.of_nat (assistant_turns extra))%Z ->
  sent st' = sent st ++ out ->
  forallb (fun e => match e with OutConnected => false | _ => true end) out = true ->
  count_ai out = (assistant_turns extra + count_end out)%nat ->
  count_end out = 0%nat \/ (5 <= question_count st')%Z ->
  session_ok st'.
Proof.
  intros (Hq & (sys & turns & Hh & Hsys) & Hai & Hend & (frames & Hs & Hc))
         Eh Hextra Eq Es Hout Hcount Hclose.
  unfold session_ok. rewrite Eh, Eq, Es. repeat split.
  - rewrite assistant_turns_app. lia.
  - exists sys, (turns ++ extra). rewrite Hh. split; [reflexivity|].
    now rewrite forallb_app, Hsys, Hextra.
  - rewrite count_ai_app, count_end_app. lia.
  - rewrite count_end_app. rewrite <- Eq. destruct Hclose as [H0|H5]; [|now right].
    destruct Hend as [He|He]; [left; lia|]. right. lia.
  - exists (frames ++ out). rewrite Hs. split; [reflexivity|].
    now rewrite forallb_app, Hc, Hout.
Qed.

Lemma accepted_ok (personality : pystr -> option pystr) (init : init_data)
    (s0 : llm_state) :
  session_ok (accepted personality init s0).
Proof.
  unfold session_ok, accepted. cbn. repeat split; eauto.
Qed.

Lemma greet_keeps_ok (st : session) : session_ok st -> session_ok (greet st).
Proof.
  intros Hok. unfold greet, invoke. cbn [append service conversation_history].
  destruct (ainvoke (service st) (conversation_history st ++ [HumanMessage greeting_prompt]))
    as [s' [r|msg]].
  - eapply (session_ok_extend st _
              [HumanMessage greeting_prompt; AIMessage (strip r)]
              [OutAiResponse (strip r) true] Hok); cbn; auto.
    now rewrite <- app_assoc.
  - eapply (session_ok_extend st _ [HumanMessage greeting_prompt] [] Hok); cbn; auto.
    + lia.
    + now rewrite app_nil_r.
Qed.

Lemma reply_keeps_ok (st : session) (text : pystr) :
  session_ok st -> session_ok (reply (append (HumanMessage text) st)).
Proof.
  intros Hok. unfold reply, invoke. cbn [append service conversation_history].
  destruct (ainvoke (service st) (conversation_history st ++ [HumanMessage text]))
    as [s' [r|msg]].
  - cbn [count_up append send_json question_count conversation_history sent
         logged invocations service].
    destruct (5 <=? question_count st + 1)%Z eqn:E5.
    + apply Z.leb_le in E5.
      match goal with
      | |- context [ainvoke ?s ?h] => destruct (ainvoke s h) as [s'' [c|msg]]
      end.
      * eapply (session_ok_extend st _
                  [HumanMessage text; AIMessage (strip r); HumanMessage closing_prompt]
                  [OutAiResponse (strip r) true; OutAiResponse (strip c) true;
                   OutInterviewEnd (py "Interview complete.")] Hok); cbn; auto.
        -- now rewrite <- !app_assoc.
        -- now rewrite <- !app_assoc.
      * eapply (session_ok_extend st _
                  [HumanMessage text; AIMessage (strip r); HumanMessage closing_prompt]
                  [OutAiResponse (strip r) true;
                   OutError (py "Failed to get response from AI interviewer.")]
                  Hok); cbn; auto.
        -- now rewrite <- !app_assoc.
        -- now rewrite <- !app_assoc.
    + eapply (session_ok_extend st _ [HumanMessage text; AIMessage (strip r)]
                [OutAiResponse (strip r) true] Hok); cbn; auto.
      now rewrite <- !app_assoc.
  - eapply (session_ok_extend st _ [HumanMessage text]
              [OutError (py "Failed to get response from AI interviewer.")] Hok);
      cbn; auto. lia.
Qed.

Lemma log_error_keeps_ok (line : pystr) (st : session) :
  session_ok st -> session_ok (log_error line st).
Proof.
  intros Hok. eapply (session_ok_extend st _ [] [] Hok); cbn; auto.
  - now rewrite app_nil_r.
  - lia.
  - now rewrite app_nil_r.
Qed.

Lemma on_frame_keeps_ok (f : frame) (st st' : session) :
  session_ok st -> on_frame f st = Ok st' -> session_ok st'.
Proof.
  intros Hok. unfold on_frame.
  destruct (f_type f) as [[t|]|]; try (intros [= <-]; exact Hok).
  destruct (eqb t (py "user_transcript")); [|intros [= <-]; exact Hok].
  destruct (f_transcript f) as [[s|]|]; cbn [res_bind]; try discriminate.
  - destruct (truthy (strip s)); intros [= <-]; [now apply reply_keeps_ok | exact Hok].
  - cbn. intros [= <-]. exact Hok.
Qed.

Lemma handle_keeps_ok (inbox : list inbound) :
  forall st, session_ok st -> session_ok (handle_user_message inbox st).
Proof.
  induction inbox as [|[f|] inbox IH]; intros st Hok; cbn [handle_user_message].
  - exact Hok.
  - destruct (on_frame f st) as [st'|e] eqn:E.
    + apply IH. now apply (on_frame_keeps_ok f st st').
    + now apply log_error_keeps_ok.
  - now apply log_error_keeps_ok.
Qed.

Lemma session_always_ok (personality : pystr -> option pystr) (init : init_data)
    (s0 : llm_state) (inbox : list inbound) :
  session_ok (interview_websocket personality init s0 inbox).
Proof.
  unfold interview_websocket. apply handle_keeps_ok, greet_keeps_ok, accepted_ok.
Qed.

(** X11: whatever the browser sends and whatever the service answers, the
    counter equals the number of assistant turns in the history (the
    closing reply is neither counted nor kept), and the history is one
    system turn followed by user and assistant turns only. *)
Theorem counter_counts_assistant_turns (personality : pystr -> option pystr)
    (init : init_data) (s0 : llm_state) (inbox : list inbound) :
  let final := interview_websocket personality init s0 inbox in
  question_count final = Z.of_nat (assistant_turns (conversation_history final))
  /\ exists sys turns,
       conversation_history final = SystemMessage sys :: turns
       /\ forallb (fun m => negb (is_system m)) turns = true.
Proof.
  destruct (session_always_ok personality init s0 inbox) as (Hq & Hh & _).
  split; [exact Hq | exact Hh].
Qed.

(** X12: in every session the stream begins with the one [connected] frame,
    holds as many [ai_response] frames as the counter plus the number of
    [interview_end] frames, and holds an [interview_end] frame only if the
    counter has reached 5. *)
Theorem stream_follows_counter (personality : pystr -> option pystr)
    (init : init_data) (s0 : llm_state) (inbox : list inbound) :
  let final := interview_websocket personality init s0 inbox in
  count_ai (sent final)
  = (Z.to_nat (question_count final) + count_end (sent final))%nat
  /\ (count_end (sent final) = 0%nat \/ (5 <= question_count final)%Z)
  /\ exists frames,
       sent final = OutConnected :: frames
       /\ forallb (fun e => match e with OutConnected => false | _ => true end)
            frames = true.
Proof.
  destruct (session_always_ok personality init s0 inbox) as (_ & _ & Hc & He & Hs).
  split; [exact Hc|]. split; [exact He | exact Hs].
Qed.

(** *** When the interview closes *)

Section Healthy.
(** [healthy] holds of the service states from which every call succeeds
    and leads to such a state again. *)
Variable healthy : llm_state -> Prop.
Hypothesis healthy_answers :
  forall s h, healthy s -> exists s' r, ainvoke s h = (s', Returns r) /\ healthy s'.

Lemma reply_open_healthy (st : session) :
  healthy (service st) -> (question_count st + 1 < 5)%Z ->
  exists r, sent (reply st) = sent st ++ [OutAiResponse r true]
            /\ question_count (reply st) = (question_count st + 1)%Z
            /\ healthy (service (reply st)).
Proof using healthy_answers.
  intros Hs Hlt. unfold reply, invoke.
  destruct (healthy_answers (service st) (conversation_history st) Hs)
    as (s' & r & -> & Hs').
  cbn [count_up append send_json question_count].
  destruct (5 <=? question_count st + 1)%Z eqn:E5; [apply Z.leb_le in E5; lia|].
  exists (strip r). cbn. auto.
Qed.

Lemma reply_closing_healthy (st : session) :
  healthy (service st) -> (5 <= question_count st + 1)%Z ->
  exists r c, sent (reply st)
              = sent st ++ [OutAiResponse r true; OutAiResponse c true;
                            OutInterviewEnd (py "Interview complete.")]
              /\ question_count (reply st) = (question_count st + 1)%Z
              /\ healthy (service (reply st)).
Proof using healthy_answers.
  intros Hs Hge. unfold reply, invoke.
  destruct (healthy_answers (service st) (conversation_history st) Hs)
    as (s' & r & -> & Hs').
  cbn [count_up append send_json question_count conversation_history service].
  destruct (5 <=? question_count st + 1)%Z eqn:E5; [|apply Z.leb_gt in E5; lia].
  match goal with
  | |- context [ainvoke s' ?h] =>
      destruct (healthy_answers s' h Hs') as (s'' & c & -> & Hs'')
  end.
  exists (strip r), (strip c). cbn. rewrite <- !app_assoc. auto.
Qed.

Lemma answers_close_at_five (texts : list pystr) :
  forall st : session,
    healthy (service st) ->
    Forall (fun text => truthy (strip text) = true) texts ->
    texts <> [] ->
    (question_count st + Z.of_nat (length texts) = 5)%Z ->
    exists replies closing,
      length replies = length texts
      /\ sent (handle_user_message (user_transcript <$> texts) st)
         = sent st ++ ((fun r => OutAiResponse r true) <$> replies)
           ++ [OutAiResponse closing true; OutInterviewEnd (py "Interview complete.")]
      /\ question_count (handle_user_message (user_transcript <$> texts) st) = 5%Z.
Proof using healthy_answers.
  induction texts as [|text texts IH]; intros st Hs Ht Hne Hq; [contradiction|].
  inversion Ht as [|? ? Htext Htexts]; subst.
  rewrite fmap_cons, (handle_answer text _ st Htext).
  set (a := append (HumanMessage (strip text)) st).
  assert (Hsa : healthy (service a)) by exact Hs.
  destruct texts as [|text' texts].
  - cbn [length] in Hq.
    destruct (reply_closing_healthy a Hsa) as (r & c & Hsent & Hcount & _);
      [change (question_count a) with (question_count st); lia|].
    exists [r], c. cbn [fmap list_fmap handle_user_message length].
    rewrite Hsent, Hcount.
    change (question_count a) with (question_count st).
    change (sent a) with (sent st). split; [reflexivity|]. split; [|lia].
    reflexivity.
  - cbn [length] in Hq.
    destruct (reply_open_healthy a Hsa) as (r & Hsent & Hcount & Hs');
      [change (question_count a) with (question_count st); lia|].
    change (question_count a) with (question_count st) in Hcount.
    change (sent a) with (sent st) in Hsent.
    destruct (IH (reply a) Hs' Htexts) as (replies & c & Hl & Hsent' & Hcount');
      [discriminate | rewrite Hcount; cbn [length]; lia|].
    exists (r :: replies), c. split; [cbn [length] in *; lia|].
    split; [|exact Hcount'].
    rewrite Hsent', Hsent, fmap_cons, <- !app_assoc. reflexivity.
Qed.

(** X13: with a service that answers, the interview closes on the answer
    that brings the counter to 5.  From a state whose counter and the
    number of non-empty transcripts to come add up to 5, each transcript
    gets one reply, the last one is followed by the closing reply and the
    [interview_end] frame, and nothing else is sent. *)
Theorem closes_when_counter_reaches_five (texts : list pystr) :
  forall st : session,
    healthy (service st) ->
    Forall (fun text => truthy (strip text) = true) texts ->
    texts <> [] ->
    (question_count st + Z.of_nat (length texts) = 5)%Z ->
    exists replies closing,
      length replies = length texts
      /\ sent (handle_user_message (user_transcript <$> texts) st)
         = sent st ++ ((fun r => OutAiResponse r true) <$> replies)
           ++ [OutAiResponse closing true; OutInterviewEnd (py "Interview complete.")]
      /\ question_count (handle_user_message (user_transcript <$> texts) st) = 5%Z.
Proof using healthy_answers.
  intros st Hs Ht Hne Hq.
  destruct (answers_close_at_five texts st Hs Ht Hne Hq)
    as (replies & closing & Hl & Hsent & Hcount).
  exists replies, closing. split; [exact Hl|]. split; [exact Hsent | exact Hcount].
Qed.

Lemma greet_failed (st : session) (s1 : llm_state) (msg : pystr) :
  ainvoke (service st) (conversation_history st ++ [HumanMessage greeting_prompt])
  = (s1, Raises msg) ->
  greet st
  = log_error (py "Greeting error: " ++ msg)
      {| conversation_history := conversation_history st ++ [HumanMessage greeting_prompt];
         question_count := question_count st; sent := sent st; logged := logged st;
         invocations := invocations st
                        ++ [conversation_history st ++ [HumanMessage greeting_prompt]];
         service := s1 |}.
Proof.
  intros E. unfold greet, invoke. cbn [append service conversation_history].
  rewrite E. reflexivity.
Qed.

(** X14: when the greeting call fails the browser gets no frame for it: the
    counter stays at 0, the greeting instruction stays in the history, and
    the session goes on.  With a service that answers from then on the
    interview closes on the fifth non-empty transcript. *)
Theorem failed_greeting_then_five_answers
    (personality : pystr -> option pystr) (init : init_data)
    (s0 s1 : llm_state) (msg : pystr) (texts : list pystr) :
  ainvoke s0 (conversation_history (accepted personality init s0)
              ++ [HumanMessage greeting_prompt]) = (s1, Raises msg) ->
  healthy s1 ->
  Forall (fun text => truthy (strip text) = true) texts ->
  length texts = 5%nat ->
  sent (greet (accepted personality init s0)) = [OutConnected]
  /\ question_count (greet (accepted personality init s0)) = 0%Z
  /\ logged (greet (accepted personality init s0)) = [py "Greeting error: " ++ msg]
  /\ exists replies closing,
       length replies = 5%nat
       /\ sent (interview_websocket personality init s0 (user_transcript <$> texts))
          = [OutConnected] ++ ((fun r => OutAiResponse r true) <$> replies)
            ++ [OutAiResponse closing true;
                OutInterviewEnd (py "Interview complete.")].
Proof using healthy_answers.
  intros E Hs Ht Hl.
  pose proof (greet_failed (accepted personality init s0) s1 msg E) as Hg.
  rewrite Hg. split; [reflexivity|]. split; [reflexivity|]. split; [reflexivity|].
  unfold interview_websocket. rewrite Hg.
  match goal with
  | |- context [handle_user_message _ ?st] =>
      destruct (answers_close_at_five texts st)
        as (replies & c & Hlen & Hsent & _)
  end.
  - exact Hs.
  - exact Ht.
  - intros ->. discriminate.
  - cbn [log_error question_count accepted send_json]. lia.
  - exists replies, c. split; [congruence|]. rewrite Hsent. reflexivity.
Qed.

End Healthy.

(** *** Frames the handler cannot read *)



End Session.

Lemma failed_turn_keeps_session_witness :
  sent (@handle_user_message greeting_fails [user_transcript (py "Hello")]
          (@accepted greeting_fails no_personality backend_role false))
  = [OutConnected; OutError (py "Failed to get response from AI interviewer.")].
Proof.
  rewrite (@failed_turn_keeps_session greeting_fails (py "Hello")
             (@accepted greeting_fails no_personality backend_role false) []
             true (py "503 Service Unavailable") eq_refl eq_refl).
  reflexivity.
Defined.

Lemma closes_when_counter_reaches_five_witness :
  exists replies closing,
    length replies = 4%nat
    /\ sent (@interview_websocket (always_returns (py "Thanks.")) no_personality
               backend_role tt four_answers)
       = [OutConnected; OutAiResponse (py "Thanks.") true]
         ++ ((fun r => OutAiResponse r true) <$> replies)
         ++ [OutAiResponse closing true; OutInterviewEnd (py "Interview complete.")].
Proof.
  destruct (@closes_when_counter_reaches_five (always_returns (py "Thanks."))
              (fun _ => True)
              (fun s h _ => ex_intro _ s (ex_intro _ (py "Thanks.") (conj eq_refl I)))
              [py "one"; py "two"; py "three"; py "four"]
              (@greet (always_returns (py "Thanks."))
                 (@accepted (always_returns (py "Thanks.")) no_personality
                    backend_role tt))
              I
              ltac:(repeat constructor)
              ltac:(discriminate) eq_refl)
    as (replies & closing & Hl & Hs & _).
  exists replies, closing. split; [exact Hl|]. exact Hs.
Defined.

Lemma failed_greeting_then_five_answers_witness :
  sent (@greet greeting_fails
          (@accepted greeting_fails no_personality backend_role false))
  = [OutConnected].
Proof.
  refine (proj1 (@failed_greeting_then_five_answers greeting_fails
                   (fun s => s = true) _ no_personality backend_role false true
                   (py "503 Service Unavailable")
                   [py "one"; py "two"; py "three"; py "four"; py "five"]
                   _ _ _ _)).
  - intros s h ->. exists true, (py "Thanks."). split; reflexivity.
  - reflexivity.
  - reflexivity.
  - repeat constructor.
  - reflexivity.
Defined.


End InterviewMore.

(** ** Further properties of the record store *)

Module StoreMore.
Import Store StoreSpec Endpoints StoreMoreSpec MoreSpec PyStrFacts StoreFacts.

(** *** Tables *)

Lemma first_app_new {A} (p : A -> bool) (rows : list A) (x : A) :
  first p rows = None -> p x = true -> first p (rows ++ [x]) = Some x.
Proof.
  unfold first. induction rows as [|r rows IH]; cbn [app find]; intros Hn Hx.
  - now rewrite Hx.
  - destruct (p r); [discriminate | now apply IH].
Qed.

Lemma first_app_old {A} (p : A -> bool) (rows more : list A) (a : A) :
  first p rows = Some a -> first p (rows ++ more) = Some a.
Proof.
  unfold first. induction rows as [|r rows IH]; cbn [app find]; [discriminate|].
  destruct (p r); [auto | exact IH].
Qed.

Lemma fmap_update_first {A B} (g : A -> B) (p : A -> bool) (f : A -> A)
    (rows : list A) :
  (forall x, g (f x) = g x) -> g <$> update_first p f rows = g <$> rows.
Proof.
  intros Hg. induction rows as [|r rows IH]; [reflexivity|].
  cbn [update_first]. destruct (p r); rewrite !fmap_cons; [now rewrite Hg|].
  now rewrite IH.
Qed.

Lemma Forall_update_first {A} (P : A -> Prop) (p : A -> bool) (f : A -> A)
    (rows : list A) :
  Forall P rows -> (forall x, P x -> P (f x)) -> Forall P (update_first p f rows).
Proof.
  intros Hr Hf. induction Hr as [|r rows Hp Hr IH]; [constructor|].
  cbn [update_first]. destruct (p r); constructor; auto.
Qed.

(** *** Accounts *)

Section Accounts.
Context `{Runtime}.

(** X16: registration is idempotent per e-mail address: a second request
    with the same address, whatever name and role it carries, leaves the
    store as it is and answers with the account created first. *)
Theorem register_once_per_email (req req' : RegisterRequest) (d : db) :
  rr_email req' = rr_email req ->
  register req' (register req d).1 = ((register req d).1, (register req d).2).
Proof.
  intros He. unfold register at 2 3 4.
  destruct (first (fun u => eqb (u_email u) (rr_email req)) (users d))
    as [existing|] eqn:E; cbn [fst snd].
  - unfold register. now rewrite He, E.
  - unfold register. rewrite He. cbn [users with_users draw].
    rewrite (first_app_new _ _ _ E) by (cbn [u_email new_user]; apply eqb_refl).
    reflexivity.
Qed.

(** X17: after a registration, logging in with the address of the request
    succeeds and answers exactly what the registration answered; logging in
    with an address no account has is refused with status 404. *)
Theorem login_after_register (req : RegisterRequest) (d : db) :
  login (rr_email req) (register req d).1 = Respond (register req d).2
  /\ forall email,
       first (fun u => eqb (u_email u) email) (users d) = None ->
       login email d
       = HTTPException 404 (py "No account with that email. Please register first.").
Proof.
  split.
  - unfold login, register.
    destruct (first (fun u => eqb (u_email u) (rr_email req)) (users d))
      as [existing|] eqn:E; cbn [fst snd].
    + now rewrite E.
    + cbn [users with_users draw].
      rewrite (first_app_new _ _ _ E) by (cbn [u_email new_user]; apply eqb_refl).
      reflexivity.
  - intros email E. unfold login. now rewrite E.
Qed.

End Accounts.

(** X18: a profile update never touches the identifier, name, e-mail address
    or role of any account, nor any other table; for an unknown identifier
    it answers 404 and changes nothing. *)
Theorem update_profile_keeps_identity (user_id : pystr)
    (req : ProfileUpdateRequest) (d : db) :
  identity <$> users (update_profile user_id req d).1 = identity <$> users d
  /\ applications (update_profile user_id req d).1 = applications d
  /\ hr_jobs (update_profile user_id req d).1 = hr_jobs d
  /\ notifications (update_profile user_id req d).1 = notifications d
  /\ (first (fun u => eqb (u_id u) user_id) (users d) = None ->
      update_profile user_id req d = (d, HTTPException 404 (py "User not found"))).
Proof.
  unfold update_profile.
  destruct (first (fun u => eqb (u_id u) user_id) (users d)) as [u|];
    cbn [fst users applications hr_jobs notifications with_users].
  - repeat split; [|discriminate].
    apply fmap_update_first. intros x. reflexivity.
  - repeat split.
Qed.

Lemma update_first_split {A} (p : A -> bool) (f : A -> A) (rows : list A) (a : A) :
  first p rows = Some a ->
  exists before after,
    rows = before ++ a :: after
    /\ Forall (fun r => p r = false) before
    /\ update_first p f rows = before ++ f a :: after.
Proof.
  unfold first. induction rows as [|r rows IH]; cbn [find update_first]; [discriminate|].
  destruct (p r) eqn:E.
  - intros [= ->]. exists [], rows. repeat split. constructor.
  - intros Ha. destruct (IH Ha) as (before & after & -> & Hb & Hu).
    exists (r :: before), after. rewrite Hu. repeat split. now constructor.
Qed.

Lemma first_some {A} (p : A -> bool) (rows : list A) (a : A) :
  first p rows = Some a -> In a rows /\ p a = true.
Proof. unfold first. apply find_some. Qed.

(** *** Posting a job *)

Section Jobs.
Context `{UnicodeData} `{Runtime}.

Lemma notify_seeker_frame (req : PostJobRequest) (tags : gset pystr)
    (d : db) (seeker : User) :
  users (notify_seeker req tags d seeker) = users d
  /\ applications (notify_seeker req tags d seeker) = applications d
  /\ hr_jobs (notify_seeker req tags d seeker) = hr_jobs d.
Proof. unfold notify_seeker. case_bool_decide; repeat split. Qed.

Lemma notify_fold_frame (req : PostJobRequest) (tags : gset pystr)
    (seekers : list User) :
  forall d,
    users (foldl (notify_seeker req tags) d seekers) = users d
    /\ applications (foldl (notify_seeker req tags) d seekers) = applications d
    /\ hr_jobs (foldl (notify_seeker req tags) d seekers) = hr_jobs d.
Proof.
  induction seekers as [|u seekers IH]; intros d; cbn [foldl]; [repeat split|].
  destruct (IH (notify_seeker req tags d u)) as (-> & -> & ->).
  apply notify_seeker_frame.
Qed.

(** X19: only an account with role ["hr"] can post: for any other poster,
    known or not, the answer is 403 and the store is unchanged; for an HR
    poster exactly one job is appended, owned by the poster, and accounts,
    applications and the existing jobs are untouched. *)
Theorem hr_post_job_authorised (req : PostJobRequest) (d : db) :
  (is_hr (pj_user_id req) d = false ->
   hr_post_job req d
   = (d, HTTPException 403 (py "Only HR accounts can post jobs.")))
  /\ (is_hr (pj_user_id req) d = true ->
      exists job,
        hr_jobs (hr_post_job req d).1 = hr_jobs d ++ [job]
        /\ j_posted_by job = pj_user_id req
        /\ j_tags job = default [] (pj_tags req)
        /\ (hr_post_job req d).2 = Respond (py "Job posted!", j_id job)
        /\ users (hr_post_job req d).1 = users d
        /\ applications (hr_post_job req d).1 = applications d).
Proof.
  unfold is_hr, hr_post_job.
  destruct (first (fun u => eqb (u_id u) (pj_user_id req)) (users d)) as [u|];
    [|split; [reflexivity | discriminate]].
  destruct (eqb (u_role u) (py "hr")); cbn [negb];
    (split; [try reflexivity; discriminate | try discriminate]).
  intros _. eexists. cbn [fst snd].
  case_bool_decide.
  - match goal with
    | |- context [foldl (notify_seeker ?r ?t) ?d0 ?s] =>
        destruct (notify_fold_frame r t s d0) as (-> & -> & ->)
    end.
    cbn [hr_jobs users applications with_hr_jobs draw j_posted_by j_tags j_id].
    repeat split.
  - cbn [hr_jobs users applications with_hr_jobs draw j_posted_by j_tags j_id].
    repeat split.
Qed.





End Jobs.

(** *** Résumé generation *)

Lemma template_split (content : pystr) :
  replace (py "%% CONTENT_PLACEHOLDER") content LATEX_TEMPLATE
  = template_head ++ content ++ template_tail.
Proof. vm_compute. reflexivity. Qed.

Lemma template_is_latex (content : pystr) :
  contains (py "\documentclass") (template_head ++ content ++ template_tail) = true.
Proof. vm_compute. reflexivity. Qed.

(** The row updates of the source are [set_status] at a fixed status. *)
Ltac fold_processing :=
  change (fun a0 : Application =>
            {| a_id := a_id a0; a_user_id := a_user_id a0;
               a_job_id := a_job_id a0; a_job_title := a_job_title a0;
               a_description := a_description a0;
               a_tailored_resume := a_tailored_resume a0;
               a_status := py "processing"; a_notes := a_notes a0 |})
    with (set_status (py "processing")).

Section Generation.
Context `{UnicodeData} `{LLMClient pystr pystr}.

(** X21: a request to generate a résumé writes at most one thing: when it
    schedules a task, the first application with the identifier gets status
    [processing], keeps its other columns, and the task carries that
    application's title and description; in every other case (404, 503,
    already being generated) the store is unchanged. *)
Theorem generate_resume_writes_one_status (configured : bool)
    (app_id user_id : pystr) (d : db) :
  match (generate_resume configured app_id user_id d).2 with
  | Respond (_, Some t) =>
      exists before a after,
        applications d = before ++ a :: after
        /\ Forall (fun r => eqb (a_id r) app_id = false) before
        /\ (generate_resume configured app_id user_id d).1
           = with_applications
               (before ++ set_status (py "processing") a :: after) d
        /\ t_app_id t = app_id
        /\ t_job_title t = a_job_title a
        /\ t_description t = a_description a
  | _ => (generate_resume configured app_id user_id d).1 = d
  end.
Proof.
  unfold generate_resume.
  destruct (first (fun a => eqb (a_id a) app_id) (applications d)) as [a|] eqn:Ha;
    [|reflexivity].
  destruct (eqb (a_status a) (py "processing") && truthy_col (a_tailored_resume a));
    [reflexivity|].
  destruct configured; cbn [negb fst snd]; [|reflexivity].
  destruct (update_first_split _ (set_status (py "processing")) _ _ Ha)
    as (before & after & Hrows & Hb & Hu).
  exists before, a, after. repeat split; try assumption.
  f_equal. exact Hu.
Qed.

(** X22: regenerating the résumé of an application that already has one can
    lock it.  If the background task then fails, the application stays in
    [processing] with its old résumé; from then on every request to generate
    is answered with "already being generated" and changes nothing, and the
    startup reset does not touch the application either. *)
Theorem failed_regeneration_locks_application (app_id user_id : pystr) (d : db)
    (a : Application) :
  find_application app_id d = Some a ->
  truthy_col (a_tailored_resume a) = true ->
  eqb (a_status a) (py "processing") = false ->
  exists d1 t,
    generate_resume true app_id user_id d
    = (d1, Respond (py "Resume generation started.", Some t))
    /\ forall w w1 o,
         Retry._invoke_with_retry
           (resume_prompt (t_user_data t) (t_job_title t) (t_description t)) w
         = (w1, o) ->
         (content_of o w1).2 = [] ->
         (tailor_resume true t (d1, w)).1 = d1
         /\ resume_of app_id d1 = Some (a_tailored_resume a)
         /\ (forall configured user_id',
                generate_resume configured app_id user_id' d1
                = (d1, Respond (py "Resume is already being generated.", None)))
         /\ status_of app_id (_reset_stuck_processing d1) = Some (py "processing").
Proof.
  intros Ha Hr Hs. unfold find_application in Ha.
  destruct (first_some _ _ _ Ha) as [_ Hid].
  unfold generate_resume at 1. rewrite Ha, Hs. cbn [andb negb].
  eexists _, _. split; [reflexivity|].
  intros w w1 o E Hc. split; [exact (tailor_resume_failed _ _ _ _ _ E Hc)|].
  assert (Hf : first (fun a0 => eqb (a_id a0) app_id)
                 (update_first (fun a0 => eqb (a_id a0) app_id)
                    (set_status (py "processing")) (applications d))
               = Some (set_status (py "processing") a)).
  { apply first_update_first; [exact Ha | exact Hid]. }
  split; [|split].
  - unfold resume_of, find_application. cbn [applications with_applications].
    fold_processing.
    now rewrite Hf.
  - intros configured user_id'. unfold generate_resume.
    cbn [applications with_applications].
    fold_processing.
    rewrite Hf. cbn [a_status a_tailored_resume set_status].
    rewrite Hr. reflexivity.
  - unfold status_of, find_application, _reset_stuck_processing.
    cbn [applications with_applications].
    rewrite first_fmap by (intros x; destruct (is_stuck x); reflexivity).
    fold_processing.
    rewrite Hf. cbn [fmap option_fmap option_map].
    unfold is_stuck. cbn [a_status a_tailored_resume set_status].
    destruct (a_tailored_resume a) as [[|c r]|]; try discriminate.
    reflexivity.
Qed.

(** X23: the document a successful task stores is the template with the
    cleaned content in the place of the placeholder line, whatever the
    content is; so the PDF endpoint does not refuse it with 404 or 400, and
    the only failure left is the toolchain's status 500. *)
Theorem tailored_resume_passes_pdf_checks `{Toolchain} (t : task) (d : db)
    (w w1 : Retry.world) (body content : pystr) (a : Application) :
  Retry._invoke_with_retry
    (resume_prompt (t_user_data t) (t_job_title t) (t_description t)) w
  = (w1, Returns body) ->
  clean_content body = Ok content -> content <> [] ->
  find_application (t_app_id t) d = Some a ->
  resume_of (t_app_id t) (tailor_resume true t (d, w)).1
  = Some (Some (template_head ++ content ++ template_tail))
  /\ forall status detail,
       get_resume_pdf (t_app_id t) (tailor_resume true t (d, w)).1
       = HTTPException status detail ->
       status = 500%nat.
Proof.
  intros E Hc Hne Ha. unfold find_application in Ha.
  destruct (first_some _ _ _ Ha) as [_ Hid].
  unfold tailor_resume. cbn [negb]. rewrite E. unfold content_of. rewrite Hc.
  destruct content as [|c content]; [contradiction|]. cbn [truthy negb fst].
  rewrite template_split.
  unfold resume_of, get_resume_pdf, find_application.
  cbn [applications with_applications].
  erewrite first_update_first; [|exact Ha|exact Hid].
  cbn [fmap option_fmap option_map a_tailored_resume or_empty].
  split; [reflexivity|].
  rewrite template_is_latex.
  replace (truthy_col (Some (template_head ++ (c :: content) ++ template_tail)))
    with true by (vm_compute; reflexivity).
  cbn [negb]. intros status detail.
  destruct (pdflatex_twice _); [discriminate | |]; now intros [= <- _].
Qed.

End Generation.

(** X24: the startup reset is idempotent, leaves no application that is in
    [processing] without a résumé, changes nothing but statuses, and is
    the identity on a store that has no such application. *)
Theorem reset_is_idempotent (d : db) :
  _reset_stuck_processing (_reset_stuck_processing d) = _reset_stuck_processing d
  /\ Forall (fun a => is_stuck a = false) (applications (_reset_stuck_processing d))
  /\ application_data <$> applications (_reset_stuck_processing d)
     = application_data <$> applications d
  /\ (Forall (fun a => is_stuck a = false) (applications d) ->
      _reset_stuck_processing d = d).
Proof.
  assert (Hclean : forall l,
             Forall (fun a => is_stuck a = false)
               ((fun a => if is_stuck a then set_status (py "saved") a else a) <$> l)).
  { induction l as [|a l IH]; [constructor|]. rewrite fmap_cons. constructor; [|exact IH].
    destruct (is_stuck a) eqn:E; [reflexivity | exact E]. }
  assert (Hid : forall l, Forall (fun a => is_stuck a = false) l ->
             (fun a => if is_stuck a then set_status (py "saved") a else a) <$> l = l).
  { induction 1 as [|a l Ha Hl IH]; [reflexivity|]. rewrite fmap_cons, IH, Ha.
    reflexivity. }
  unfold _reset_stuck_processing. cbn [applications with_applications].
  change (fun a : Application =>
            if is_stuck a
            then {| a_id := a_id a; a_user_id := a_user_id a;
                    a_job_id := a_job_id a; a_job_title := a_job_title a;
                    a_description := a_description a;
                    a_tailored_resume := a_tailored_resume a;
                    a_status := py "saved"; a_notes := a_notes a |}
            else a)
    with (fun a => if is_stuck a then set_status (py "saved") a else a).
  split; [|split; [|split]].
  - unfold with_applications. cbn [users applications hr_jobs notifications uuids_drawn].
    f_equal. apply Hid, Hclean.
  - apply Hclean.
  - rewrite <- list_fmap_compose. apply list_fmap_ext. intros i a _. cbn.
    destruct (is_stuck a); reflexivity.
  - intros Hd. rewrite (Hid _ Hd). now destruct d.
Qed.

(** *** Applying, notifications, deleting a job *)

Lemma set_status_first (app_id status : pystr) (rows : list Application)
    (a : Application) :
  first (fun r => eqb (a_id r) app_id) rows = Some a ->
  first (fun r => eqb (a_id r) app_id)
    (update_first (fun r => eqb (a_id r) app_id) (set_status status) rows)
  = Some (set_status status a).
Proof.
  intros Ha. apply first_update_first; [exact Ha|].
  exact (proj2 (first_some _ _ _ Ha)).
Qed.

Section Applying.
Context `{Runtime}.

Lemma mark_applied_internal (app_id : pystr) (d : db) (a : Application) (j : HRJob) :
  find_application app_id d = Some a ->
  first (fun j => eqb (j_id j) (a_job_id a)) (hr_jobs d) = Some j ->
  find_application app_id (mark_applied app_id d).1
  = Some (set_status (py "applied") a)
  /\ hr_jobs (mark_applied app_id d).1 = hr_jobs d
  /\ (exists n, notifications (mark_applied app_id d).1 = notifications d ++ [n]
                /\ n_user_id n = j_posted_by j /\ n_read n = py "false")
  /\ exists msg, (mark_applied app_id d).2 = Respond (msg, true).
Proof.
  unfold find_application, mark_applied. intros Ha Hj. rewrite Ha, Hj.
  cbn [fst snd applications hr_jobs notifications with_notifications
       with_applications draw].
  split; [now apply set_status_first|]. split; [reflexivity|].
  split; [eexists; repeat split | eexists; reflexivity].
Qed.

(** X25: applying is not guarded by the status of the application: each
    call for an application to an internal job sends the poster one more
    unread notification, so [n] calls leave [n] of them, and the
    application is [applied] from the first call on. *)
Theorem every_apply_notifies_the_poster (app_id : pystr) (d : db)
    (a : Application) (j : HRJob) (n : nat) :
  find_application app_id d = Some a ->
  first (fun j => eqb (j_id j) (a_job_id a)) (hr_jobs d) = Some j ->
  exists new,
    notifications (Nat.iter n (fun d => (mark_applied app_id d).1) d)
    = notifications d ++ new
    /\ length new = n
    /\ Forall (fun m => n_user_id m = j_posted_by j /\ n_read m = py "false") new
    /\ (n <> 0%nat ->
        status_of app_id (Nat.iter n (fun d => (mark_applied app_id d).1) d)
        = Some (py "applied")).
Proof.
  intros Ha Hj.
  assert (Hinv : exists new a',
             notifications (Nat.iter n (fun d => (mark_applied app_id d).1) d)
             = notifications d ++ new
             /\ length new = n
             /\ Forall (fun m => n_user_id m = j_posted_by j
                                 /\ n_read m = py "false") new
             /\ find_application app_id
                  (Nat.iter n (fun d => (mark_applied app_id d).1) d) = Some a'
             /\ a_job_id a' = a_job_id a
             /\ hr_jobs (Nat.iter n (fun d => (mark_applied app_id d).1) d)
                = hr_jobs d
             /\ (n <> 0%nat -> a_status a' = py "applied")).
  { induction n as [|n IH]; cbn [Nat.iter].
    - exists [], a. rewrite app_nil_r. repeat split; [constructor | exact Ha | congruence].
    - destruct IH as (new & a' & E & Hlen & Hnew & Ha' & Hjob & Hjobs & _).
      set (d' := Nat.iter n (fun d => (mark_applied app_id d).1) d) in *.
      rewrite !Nat.iter_succ. fold d'.
      assert (Hj' : first (fun j => eqb (j_id j) (a_job_id a')) (hr_jobs d') = Some j)
        by (now rewrite Hjob, Hjobs).
      destruct (mark_applied_internal app_id d' a' j Ha' Hj')
        as (Hfind & Hkeep & (m & Em & Hm1 & Hm2) & _).
      exists (new ++ [m]), (set_status (py "applied") a').
      rewrite Em, E, <- app_assoc, length_app, Hlen. cbn [length].
      repeat split; try assumption.
      + lia.
      + apply Forall_app. split; [exact Hnew|]. now repeat constructor.
      + now rewrite Hkeep. }
  destruct Hinv as (new & a' & E & Hlen & Hnew & Ha' & _ & _ & Hst).
  exists new. repeat split; try assumption.
  intros Hn. unfold status_of. rewrite Ha'. cbn. now rewrite (Hst Hn).
Qed.

End Applying.

(** X26: marking all notifications of a user as read leaves none of theirs
    with the flag ["false"], touches nothing but read flags, leaves the
    notifications of every other user as they are, and doing it again
    changes nothing. *)
Theorem mark_all_read_clears_only_the_user (user_id : pystr) (d : db) :
  Forall (fun n => n_user_id n = user_id -> n_read n <> py "false")
    (notifications (mark_all_read user_id d).1)
  /\ notification_data <$> notifications (mark_all_read user_id d).1
     = notification_data <$> notifications d
  /\ List.filter (fun n => negb (eqb (n_user_id n) user_id))
       (notifications (mark_all_read user_id d).1)
     = List.filter (fun n => negb (eqb (n_user_id n) user_id)) (notifications d)
  /\ (mark_all_read user_id (mark_all_read user_id d).1).1
     = (mark_all_read user_id d).1.
Proof.
  unfold mark_all_read. cbn [fst notifications with_notifications].
  set (g := fun n : Notification =>
              if eqb (n_user_id n) user_id && eqb (n_read n) (py "false")
              then set_read n else n).
  assert (Hg : forall n, g (g n) = g n).
  { intros n. unfold g.
    destruct (eqb (n_user_id n) user_id && eqb (n_read n) (py "false")) eqn:E.
    - cbn [n_user_id n_read set_read]. now rewrite andb_false_r.
    - now rewrite E. }
  split; [|split; [|split]].
  - induction (notifications d) as [|n l IH]; [constructor|].
    rewrite fmap_cons. constructor; [|exact IH]. unfold g.
    destruct (eqb (n_user_id n) user_id) eqn:Eu; cbn [andb].
    + destruct (eqb (n_read n) (py "false")) eqn:Er.
      * intros _. cbn [n_read set_read]. discriminate.
      * intros _ Habs. apply eqb_eq in Habs. congruence.
    + intros Hu. apply eqb_eq in Hu. congruence.
  - rewrite <- list_fmap_compose. apply list_fmap_ext. intros i n _. cbn. unfold g.
    destruct (_ && _); reflexivity.
  - induction (notifications d) as [|n l IH]; [reflexivity|].
    rewrite fmap_cons. cbn [List.filter]. rewrite IH. unfold g at 1 2.
    destruct (eqb (n_user_id n) user_id) eqn:Eu; cbn [andb negb].
    + destruct (eqb (n_read n) (py "false")); cbn [n_user_id set_read];
        now rewrite Eu.
    + now rewrite Eu.
  - unfold with_notifications.
    cbn [users applications hr_jobs notifications uuids_drawn]. f_equal.
    rewrite <- list_fmap_compose. apply list_fmap_ext. intros i n _. apply Hg.
Qed.

Lemma Forall_delete_first {A} (P : A -> Prop) (p : A -> bool) (rows : list A) :
  Forall P rows -> Forall P (delete_first p rows).
Proof.
  induction 1 as [|r rows Hp Hr IH]; [constructor|].
  cbn [delete_first]. destruct (p r); [exact Hr | now constructor].
Qed.

Lemma delete_first_split {A} (p : A -> bool) (rows : list A) (a : A) :
  first p rows = Some a ->
  exists before after,
    rows = before ++ a :: after
    /\ Forall (fun r => p r = false) before
    /\ delete_first p rows = before ++ after.
Proof.
  unfold first. induction rows as [|r rows IH]; cbn [find delete_first]; [discriminate|].
  destruct (p r) eqn:E.
  - intros [= ->]. exists [], rows. repeat split. constructor.
  - intros Ha. destruct (IH Ha) as (before & after & -> & Hb & Hu).
    exists (r :: before), after. rewrite Hu. repeat split. now constructor.
Qed.

(** X27: a job can be removed only by the account that posted it.  A
    removal takes out one row, which has the identifier asked for and was
    posted by the caller; when there is no such row the answer is 404 and
    the store is unchanged.  Applications and notifications that refer to
    the job are never removed with it. *)
Theorem hr_delete_job_only_own (job_id user_id : pystr) (d : db) :
  match (hr_delete_job job_id user_id d).2 with
  | Respond _ =>
      exists before j after,
        hr_jobs d = before ++ j :: after
        /\ j_id j = job_id /\ j_posted_by j = user_id
        /\ (hr_delete_job job_id user_id d).1 = with_hr_jobs (before ++ after) d
  | HTTPException status _ =>
      status = 404%nat
      /\ (hr_delete_job job_id user_id d).1 = d
      /\ Forall (fun j => j_id j = job_id -> j_posted_by j <> user_id) (hr_jobs d)
  end.
Proof.
  unfold hr_delete_job.
  destruct (first _ (hr_jobs d)) as [j|] eqn:Ej; cbn [fst snd].
  - destruct (delete_first_split _ _ _ Ej) as (before & after & Hrows & _ & Hdel).
    destruct (first_some _ _ _ Ej) as [_ Hown].
    apply andb_prop in Hown as [Hid Hby]. apply eqb_eq in Hid, Hby.
    exists before, j, after. rewrite Hdel. repeat split; assumption.
  - repeat split. apply Forall_forall. intros j Hin Hid Hby.
    unfold first in Ej. apply list_elem_of_In in Hin.
    apply (find_none _ _ Ej) in Hin. cbn in Hin.
    rewrite Hid, Hby, !eqb_refl in Hin. discriminate.
Qed.

(** *** The store under any sequence of requests *)

Section Requests.
Context `{UnicodeData} `{Runtime} `{LLMClient pystr pystr}.

Lemma hr_post_job_frame (req : PostJobRequest) (d : db) :
  users (hr_post_job req d).1 = users d
  /\ applications (hr_post_job req d).1 = applications d.
Proof.
  unfold hr_post_job.
  destruct (first _ (users d)) as [u|]; [|split; reflexivity].
  destruct (eqb (u_role u) (py "hr")); cbn [negb fst]; [|split; reflexivity].
  case_bool_decide; [|split; reflexivity].
  match goal with
  | |- context [foldl (notify_seeker ?r ?t) ?d0 ?s] =>
      destruct (notify_fold_frame r t s d0) as (-> & -> & _)
  end.
  split; reflexivity.
Qed.

Lemma tailor_resume_frame (configured : bool) (t : task) (st : state) :
  users (tailor_resume configured t st).1 = users st.1
  /\ (applications (tailor_resume configured t st).1 = applications st.1
      \/ exists latex,
           applications (tailor_resume configured t st).1
           = update_first (fun a => eqb (a_id a) (t_app_id t))
               (fun a => {| a_id := a_id a; a_user_id := a_user_id a;
                            a_job_id := a_job_id a; a_job_title := a_job_title a;
                            a_description := a_description a;
                            a_tailored_resume := Some latex;
                            a_status := py "ready"; a_notes := a_notes a |})
               (applications st.1)).
Proof.
  destruct st as [d w]. unfold tailor_resume.
  destruct configured; cbn [negb fst]; [|auto].
  destruct (Retry._invoke_with_retry _ w) as [w1 o].
  destruct (content_of o w1) as [w2 content].
  destruct (truthy content); cbn [negb fst]; [|auto].
  split; [reflexivity|]. right. eexists. reflexivity.
Qed.

(** What a request does to the accounts: nothing that shows in their
    identity, or one new account with an address no account had. *)
Lemma handle_users (st : state) (r : request) :
  identity <$> users (handle st r).1 = identity <$> users st.1
  \/ exists u,
       users (handle st r).1 = users st.1 ++ [u]
       /\ first (fun v => eqb (u_email v) (u_email u)) (users st.1) = None.
Proof.
  destruct st as [d w].
  destruct r; cbn [handle fst];
    try (left; reflexivity).
  - unfold register.
    destruct (first _ (users d)) eqn:E; cbn [fst]; [now left|].
    right. eexists. split; [reflexivity | exact E].
  - left. unfold update_profile.
    destruct (first _ (users d)); cbn [fst users with_users]; [|reflexivity].
    apply fmap_update_first. reflexivity.
  - left. unfold generate_resume. repeat case_match; reflexivity.
  - left. now rewrite (proj1 (tailor_resume_frame configured t (d, w))).
  - left. unfold update_application_status. repeat case_match; reflexivity.
  - left. unfold mark_applied. repeat case_match; reflexivity.
  - left. now rewrite (proj1 (hr_post_job_frame req d)).
  - left. unfold hr_delete_job. repeat case_match; reflexivity.
  - left. unfold mark_notification_read. repeat case_match; reflexivity.
  - left. unfold update_notes. repeat case_match; reflexivity.
  - left. unfold delete_application. repeat case_match; reflexivity.
Qed.

Lemma handle_statuses (st : state) (r : request) :
  statuses_known st.1 -> statuses_known (handle st r).1.
Proof.
  destruct st as [d w]. unfold statuses_known. cbn [fst]. intros Hd.
  destruct r; cbn [handle fst]; try exact Hd.
  - unfold register. repeat case_match; exact Hd.
  - unfold update_profile. repeat case_match; exact Hd.
  - cbn [handle_swipe_right fst applications with_applications].
    apply Forall_app. split; [exact Hd|]. now repeat constructor.
  - unfold generate_resume. repeat case_match; try exact Hd.
    cbn [fst applications with_applications].
    apply Forall_update_first; [exact Hd | reflexivity].
  - destruct (tailor_resume_frame configured t (d, w)) as [_ [->|(latex & ->)]];
      [exact Hd|].
    apply Forall_update_first; [exact Hd | reflexivity].
  - unfold update_application_status.
    destruct (first _ (applications d)); [|exact Hd].
    destruct (known_status status) eqn:Ek; cbn [negb fst]; [|exact Hd].
    cbn [applications with_applications].
    apply Forall_update_first; [exact Hd|]. intros x _. exact Ek.
  - unfold mark_applied.
    destruct (first _ (applications d)); [|exact Hd].
    destruct (first _ (hr_jobs d));
      cbn [fst applications with_applications with_notifications draw];
      (apply Forall_update_first; [exact Hd | reflexivity]).
  - now rewrite (proj2 (hr_post_job_frame req d)).
  - unfold hr_delete_job. repeat case_match; exact Hd.
  - unfold mark_notification_read. repeat case_match; exact Hd.
  - cbn [_reset_stuck_processing applications with_applications].
    apply Forall_fmap. eapply Forall_impl; [exact Hd|]. intros a Ha. cbn.
    destruct (is_stuck a); [reflexivity | exact Ha].
  - unfold update_notes. destruct (first _ (applications d)); [|exact Hd].
    cbn [fst applications with_applications].
    apply Forall_update_first; [exact Hd|]. intros x Hx. exact Hx.
  - unfold delete_application. destruct (first _ (applications d)); [|exact Hd].
    cbn [fst applications with_applications].
    apply Forall_delete_first, Hd.
Qed.

(** X28: the status of every application stays one of [saved],
    [processing], [ready] and [applied] under any sequence of requests,
    background tasks and restarts, in any order and whatever the language
    service answers. *)
Theorem statuses_stay_known (st : state) (rs : list request) :
  statuses_known st.1 -> statuses_known (run_requests st rs).1.
Proof.
  unfold run_requests. revert st.
  induction rs as [|r rs IH]; intros st Hst; cbn [foldl]; [exact Hst|].
  apply IH, handle_statuses, Hst.
Qed.


(** X30: no two accounts share an e-mail address: if that holds of the
    store, it holds after any sequence of requests. *)
Theorem emails_stay_unique (st : state) (rs : list request) :
  NoDup (u_email <$> users st.1) ->
  NoDup (u_email <$> users (run_requests st rs).1).
Proof.
  unfold run_requests. revert st.
  induction rs as [|r rs IH]; intros st Hst; cbn [foldl]; [exact Hst|].
  apply IH.
  assert (Hmail : forall l : list User,
             u_email <$> l = (fun i => i.1.2) <$> (identity <$> l)).
  { intros l. rewrite <- list_fmap_compose. reflexivity. }
  destruct (handle_users st r) as [E|(u & -> & Hnew)].
  - rewrite Hmail, E, <- Hmail. exact Hst.
  - rewrite fmap_app. apply NoDup_app. split; [exact Hst|].
    split; [|apply NoDup_singleton].
    intros e He Hin. apply list_elem_of_singleton in Hin. subst e.
    apply list_elem_of_fmap in He as (v & Hv & Hin).
    unfold first in Hnew. apply list_elem_of_In in Hin.
    apply (find_none _ _ Hnew) in Hin. cbn in Hin.
    rewrite <- Hv, eqb_refl in Hin. discriminate.
Qed.

End Requests.

(** *** The properties at closed inputs *)

Lemma register_once_per_email_witness :
  rr_email register_hana = rr_email register_hana
  /\ @register demo_runtime register_hana
       (@register demo_runtime register_hana empty_db).1
     = ((@register demo_runtime register_hana empty_db).1,
        (@register demo_runtime register_hana empty_db).2).
Proof.
  split; [reflexivity|].
  apply (@register_once_per_email demo_runtime register_hana register_hana empty_db).
  reflexivity.
Defined.

Lemma login_after_register_witness :
  login (py "nobody@example.com") before_posting
  = HTTPException 404 (py "No account with that email. Please register first.").
Proof.
  apply (proj2 (@login_after_register demo_runtime register_sam before_posting)).
  vm_compute. reflexivity.
Defined.

Lemma update_profile_keeps_identity_witness :
  update_profile (py "u7") sam_profile before_posting
  = (before_posting, HTTPException 404 (py "User not found")).
Proof.
  apply (update_profile_keeps_identity (py "u7") sam_profile before_posting).
  vm_compute. reflexivity.
Defined.

Lemma hr_post_job_authorised_witness :
  @hr_post_job RetrySpec.ascii_only demo_runtime backend_job empty_db
  = (empty_db, HTTPException 403 (py "Only HR accounts can post jobs.")).
Proof.
  apply (proj1 (@hr_post_job_authorised RetrySpec.ascii_only demo_runtime
                  backend_job empty_db)).
  vm_compute. reflexivity.
Defined.


Lemma failed_regeneration_locks_application_witness :
  exists d1 t,
    generate_resume true (py "app-1") (py "u0") ready_db
    = (d1, Respond (py "Resume generation started.", Some t)).
Proof.
  destruct (@failed_regeneration_locks_application RetrySpec.ascii_only fails_once
              (py "app-1") (py "u0") ready_db
              {| a_id := py "app-1"; a_user_id := py "u0"; a_job_id := py "job-1";
                 a_job_title := py "Backend Engineer";
                 a_description := py "Build services.";
                 a_tailored_resume := Some (py "\documentclass{article}");
                 a_status := py "ready"; a_notes := [] |}
              eq_refl eq_refl eq_refl)
    as (d1 & t & E & _).
  exists d1, t. exact E.
Defined.

Lemma tailored_resume_passes_pdf_checks_witness :
  resume_of (py "app-1")
    (@tailor_resume RetrySpec.ascii_only fails_once true stuck_task
       (saved_db, answering)).1
  = Some (Some (template_head ++ centered ++ template_tail)).
Proof.
  refine (proj1 (@tailored_resume_passes_pdf_checks RetrySpec.ascii_only fails_once
                   tiny_pdf stuck_task saved_db answering
                   (@Retry._invoke_with_retry RetrySpec.ascii_only pystr pystr
                      fails_once
                      (resume_prompt (t_user_data stuck_task)
                         (t_job_title stuck_task) (t_description stuck_task))
                      answering).1
                   centered centered
                   {| a_id := py "app-1"; a_user_id := py "u0";
                      a_job_id := py "job-1";
                      a_job_title := py "Backend Engineer";
                      a_description := py "Build services.";
                      a_tailored_resume := Some []; a_status := py "saved";
                      a_notes := [] |} _ _ _ _)).
  - vm_compute. reflexivity.
  - vm_compute. reflexivity.
  - discriminate.
  - reflexivity.
Defined.

Lemma reset_is_idempotent_witness :
  _reset_stuck_processing ready_db = ready_db.
Proof.
  apply (reset_is_idempotent ready_db). repeat constructor.
Defined.

Lemma every_apply_notifies_the_poster_witness :
  exists new,
    notifications
      (Nat.iter 2 (fun d => (@mark_applied demo_runtime (py "app-1") d).1)
         internal_db)
    = notifications internal_db ++ new
    /\ length new = 2%nat.
Proof.
  destruct (@every_apply_notifies_the_poster demo_runtime (py "app-1") internal_db
              _ _ 2 eq_refl eq_refl)
    as (new & E & Hlen & _).
  exists new. split; [exact E | exact Hlen].
Defined.

Lemma mark_all_read_clears_only_the_user_witness :
  Forall (fun n => n_user_id n = py "u0" -> n_read n <> py "false")
    (notifications (mark_all_read (py "u0") after_posting).1).
Proof.
  exact (proj1 (mark_all_read_clears_only_the_user (py "u0") after_posting)).
Defined.

Lemma hr_delete_job_only_own_witness :
  (hr_delete_job (py "kanso-1") (py "u0") internal_db).1 = internal_db.
Proof.
  exact (proj1 (proj2 (hr_delete_job_only_own (py "kanso-1") (py "u0") internal_db))).
Defined.

Lemma statuses_stay_known_witness :
  statuses_known
    (@run_requests RetrySpec.ascii_only demo_runtime fails_once
       (empty_db, answering) sample_requests).1.
Proof.
  apply (@statuses_stay_known RetrySpec.ascii_only demo_runtime fails_once
           (empty_db, answering) sample_requests).
  constructor.
Defined.

Lemma emails_stay_unique_witness :
  NoDup (u_email <$>
           users (@run_requests RetrySpec.ascii_only demo_runtime fails_once
                    (empty_db, answering) sample_requests).1).
Proof.
  apply (@emails_stay_unique RetrySpec.ascii_only demo_runtime fails_once
           (empty_db, answering) sample_requests).
  constructor.
Defined.

End StoreMore.
